(** * Pylib / $pyosint: the three reconnaissance modules

    A shallow embedding of [email.py], [trace.py] and [username.py].
    Each Python class becomes a Rocq module holding a record for the
    instance attributes and one function per method.  Everything outside
    the process (HTTP answers, sockets, the wall clock, the file system's
    refusals, the desktop notifier, the moment at which a worker thread
    finishes) is read from an explicit environment record, so that every
    method is an executable function of the instance, the world and that
    environment. *)

From Stdlib Require Import ZArith List String Ascii Bool Lia.
From stdpp Require Import base option list gmap strings pretty.

Set Warnings "-register-all".
Local Open Scope string_scope.
Local Open Scope Z_scope.

(** ** Python values *)

(** The JSON-shaped values that travel through [self.results].  A float
    literal is kept as the decimal it was written as: [PFloat m e] stands
    for [m * 10^e].  Inner dictionaries keep their insertion order. *)
Inductive pyval :=
  | PNone
  | PBool (b : bool)
  | PInt (n : Z)
  | PFloat (m e : Z)
  | PStr (s : string)
  | PList (l : list pyval)
  | PDict (d : list (string * pyval)).

(** [self.results]: a dict with string keys. *)
Abbreviation dict := (gmap string pyval).

(** [d.update(other)]: the keys of [other] overwrite those of [d]. *)
Definition dict_update (d other : dict) : dict := other ∪ d.

(** Truth value of a dict ([if result:], [if not self.results:]). *)
Definition dict_truthy (d : dict) : bool := negb (bool_decide (d = ∅)).

(** Truth value of an [Optional[str]] attribute ([if not self.target:]). *)
Definition str_truthy (o : option string) : bool :=
  match o with
  | None => false
  | Some s => negb (String.eqb s "")
  end.

(** ** Exceptions, log records, observable events *)

(** An exception instance: the qualified name of its class (a builtin
    class by its bare name, as [FileNotFoundError]; a class of a library
    with its module, as [requests.exceptions.Timeout]) and [str(e)].
    Only instances of [Exception] are represented; this is what
    [except Exception] catches. *)
Record exn := Exn { exn_class : string; exn_text : string }.

Inductive outcome (S : Type) :=
  | Returns (s : S)
  | Raises (e : exn) (s : S).
Arguments Returns {S} s.
Arguments Raises {S} e s.

Definition returned {S} (o : outcome S) : bool :=
  match o with Returns _ => true | Raises _ _ => false end.

Definition final {S} (o : outcome S) : S :=
  match o with Returns s => s | Raises _ s => s end.

Inductive level := DEBUG | INFO | WARNING | ERROR.

Global Instance level_eq_dec : EqDecision level.
Proof. solve_decision. Defined.

Abbreviation LogRecord := (level * string)%type.

(** Calls that leave the process, in program order of the thread that
    makes them. *)
Inductive event :=
  | Submit (probe : string) (arg : string)
  | HttpGet (url : string)
  | HttpHead (url : string)
  | ReverseDns (ip : string)
  | Connect (ip : string) (port : Z)
  | Makedirs (path : string)
  | Listdir (path : string)
  | OpenW (path : string)
  | Notify (title : string).

Definition is_submit (e : event) : bool :=
  match e with Submit _ _ => true | _ => false end.

Definition is_open (e : event) : bool :=
  match e with OpenW _ => true | _ => false end.

Definition is_network (e : event) : bool :=
  match e with
  | HttpGet _ | HttpHead _ | ReverseDns _ | Connect _ _ => true
  | _ => false
  end.

(** ** The file system *)

(** What a log file holds after [open(path, 'w')] and [json.dump]: the
    dumped dict, or whatever was left when the dump broke off. *)
Inductive content :=
  | Json (d : dict)
  | Truncated.

(** Directories are keyed by the path string the program uses for them;
    each maps entry names to contents.  Two strings that name one
    directory ([out] and [./out]) are not identified, a directory is not
    listed as an entry of its parent, and entry names are told apart as
    on a case-sensitive file system: what is proved below about a folder
    is about the folder under one path string. *)
Abbreviation filesystem := (gmap string (gmap string content)).

(** ** The world a module acts on *)

Record World := mkWorld {
  w_log : list LogRecord;
  w_fs : filesystem;
  w_trace : list event
}.

Definition emit (l : level) (m : string) (w : World) : World :=
  mkWorld (w_log w ++ [(l, m)]) (w_fs w) (w_trace w).

Definition perform (e : event) (w : World) : World :=
  mkWorld (w_log w) (w_fs w) (w_trace w ++ [e]).

Definition set_fs (fs : filesystem) (w : World) : World :=
  mkWorld (w_log w) fs (w_trace w).

(** ** The environment *)

(** [response.json()]: the decoded value, or the exception it raises. *)
Inductive body :=
  | JsonBody (v : pyval)
  | BadBody (e : exn).

(** A request either gives a response or raises. *)
Inductive http :=
  | Response (status : Z) (b : body)
  | HttpError (e : exn).

Record datetime := mkDatetime {
  year : Z; month : Z; day : Z;
  hour : Z; minute : Z; second : Z;
  microsecond : Z
}.

(** What the outside answers during one call of a method:
    [requests.get(url)] and [requests.head(url)]; [socket.gethostbyaddr]
    (the host name, or the exception); [connect_ex] on a fresh socket (its
    result code, or the exception of the [try] block around it); the time
    at which the [i]-th submitted future is done; the reading of
    [datetime.now()]; the exception, if any, with which [os.makedirs],
    [os.listdir], [open(path, 'w')], [json.dump] or
    [notification.notify] fails; and [str(e)] of the [FileNotFoundError]
    that the operating system raises for a path that is not there (on
    Linux [[Errno 2] No such file or directory: ] followed by the [repr]
    of the path). *)
Record Env := mkEnv {
  requests_get : string → http;
  requests_head : string → http;
  gethostbyaddr : string → string + exn;
  connect_ex : string → Z → Z + exn;
  done_at : nat → Z;
  datetime_now : datetime;
  makedirs_error : string → option exn;
  listdir_error : string → option exn;
  open_error : string → option exn;
  dump_error : string → option exn;
  notify_error : option exn;
  enoent : string → string
}.

(** ** [os] and [datetime] helpers *)

(** [os.path.join(a, b)] on POSIX. *)
Definition ends_with_slash (a : string) : bool :=
  match String.get (String.length a - 1) a with
  | Some c => Ascii.eqb c "/"
  | None => false
  end.

Definition os_path_join (a b : string) : string :=
  if String.prefix "/" b then b
  else if String.eqb a "" || ends_with_slash a then a +:+ b
  else a +:+ "/" +:+ b.

(** [os.makedirs(path, exist_ok=True)]. *)
Definition os_makedirs (env : Env) (path : string) (w : World) : outcome World :=
  let w := perform (Makedirs path) w in
  match makedirs_error env path with
  | Some e => Raises e w
  | None =>
      match w_fs w !! path with
      | Some _ => Returns w
      | None => Returns (set_fs (<[path := ∅]> (w_fs w)) w)
      end
  end.

(** [os.listdir(path)]: the entries of the directory, or the exception
    raised: the one with which the operating system refuses the listing,
    or [FileNotFoundError] when the directory is not there. *)
Definition os_listdir (env : Env) (path : string) (w : World)
    : gmap string content + exn :=
  match listdir_error env path with
  | Some e => inr e
  | None =>
      match w_fs w !! path with
      | Some entries => inl entries
      | None => inr (Exn "FileNotFoundError" (enoent env path))
      end
  end.

(** [with open(log_file, 'w') as f: json.dump(results, f, indent=2)] where
    [log_file] is [name] inside [folder]. *)
Definition write_json (env : Env) (folder name : string) (d : dict)
    (w : World) : outcome World :=
  let path := os_path_join folder name in
  let w := perform (OpenW path) w in
  match w_fs w !! folder with
  | None => Raises (Exn "FileNotFoundError" (enoent env path)) w
  | Some entries =>
      match open_error env path with
      | Some e => Raises e w
      | None =>
          match dump_error env path with
          | Some e => Raises e (set_fs (<[folder := <[name := Truncated]> entries]> (w_fs w)) w)
          | None => Returns (set_fs (<[folder := <[name := Json d]> entries]> (w_fs w)) w)
          end
      end
  end.

(** The last decimal digit of [n], as a character. *)
Definition digit (n : Z) : ascii := ascii_of_N (Z.to_N (48 + n mod 10)).

(** [%m], [%d], [%H], [%M], [%S]: two digits, zero-padded. *)
Definition pad2 (n : Z) : string :=
  String (digit (n / 10)) (String (digit n) "").

(** [%Y]: four digits. *)
Definition pad4 (n : Z) : string :=
  String (digit (n / 1000)) (String (digit (n / 100)) (pad2 n)).

(** What [datetime.now()] can return: the fields of a calendar date and
    a time of day, the year in four digits. *)
Definition wall_clock (d : datetime) : Prop :=
  1000 ≤ year d ≤ 9999 ∧ 1 ≤ month d ≤ 12 ∧ 1 ≤ day d ≤ 31
  ∧ 0 ≤ hour d < 24 ∧ 0 ≤ minute d < 60 ∧ 0 ≤ second d < 60.

(** Two readings that agree down to the second. *)
Definition same_second (d1 d2 : datetime) : Prop :=
  year d1 = year d2 ∧ month d1 = month d2 ∧ day d1 = day d2
  ∧ hour d1 = hour d2 ∧ minute d1 = minute d2 ∧ second d1 = second d2.

(** The file system lets [path] be opened and written in full. *)
Definition writable (env : Env) (path : string) : Prop :=
  open_error env path = None ∧ dump_error env path = None.

(** [d.strftime('%Y%m%d_%H%M%S')]. *)
Definition strftime (d : datetime) : string :=
  pad4 (year d) +:+ pad2 (month d) +:+ pad2 (day d) +:+ "_"
    +:+ pad2 (hour d) +:+ pad2 (minute d) +:+ pad2 (second d).

(** ** Regular expressions, as far as [_validate_email] needs them *)

(** Matching by derivatives.  [re.match] answers whether some way of
    running the pattern from position 0 succeeds, which for a pattern
    without back-references is membership in its regular language. *)
Inductive regex :=
  | Void
  | Eps
  | Class (p : ascii → bool)
  | Seq (r s : regex)
  | Alt (r s : regex)
  | Star (r : regex).

Fixpoint nullable (r : regex) : bool :=
  match r with
  | Void => false
  | Eps => true
  | Class _ => false
  | Seq r s => nullable r && nullable s
  | Alt r s => nullable r || nullable s
  | Star _ => true
  end.

Definition seq (r s : regex) : regex :=
  match r, s with
  | Void, _ => Void
  | _, Void => Void
  | Eps, _ => s
  | _, _ => Seq r s
  end.

Definition alt (r s : regex) : regex :=
  match r, s with
  | Void, _ => s
  | _, Void => r
  | _, _ => Alt r s
  end.

Fixpoint deriv (c : ascii) (r : regex) : regex :=
  match r with
  | Void => Void
  | Eps => Void
  | Class p => if p c then Eps else Void
  | Seq r s =>
      if nullable r then alt (seq (deriv c r) s) (deriv c s)
      else seq (deriv c r) s
  | Alt r s => alt (deriv c r) (deriv c s)
  | Star r => seq (deriv c r) (Star r)
  end.

Fixpoint matches (r : regex) (s : string) : bool :=
  match s with
  | EmptyString => nullable r
  | String c s' => matches (deriv c r) s'
  end.

Definition plus (r : regex) : regex := Seq r (Star r).

Definition in_range (lo hi c : ascii) : bool :=
  (N_of_ascii lo <=? N_of_ascii c)%N && (N_of_ascii c <=? N_of_ascii hi)%N.

Definition one_of (cs : string) (c : ascii) : bool :=
  existsb (Ascii.eqb c) (list_ascii_of_string cs).

Definition alpha (c : ascii) : bool := in_range "a" "z" c || in_range "A" "Z" c.
Definition alnum (c : ascii) : bool := alpha c || in_range "0" "9" c.
Definition newline : ascii := ascii_of_nat 10.

(** [$] without [re.MULTILINE]: the end of the string, or just before a
    newline that is its last character. *)
Definition dollar : regex := Alt Eps (Class (Ascii.eqb newline)).

(** ** Sequencing of calls that may raise *)

(** [a.f().g()]: [g] runs only if [f] returned. *)
Definition and_then {S : Type} (o : outcome S) (f : S → outcome S) : outcome S :=
  match o with
  | Returns s => f s
  | Raises e s => Raises e s
  end.

(** An exception leaving a callee leaves the caller's object as it is. *)
Definition beside {A S : Type} (a : A) (o : outcome S) : outcome (A * S) :=
  match o with
  | Returns s => Returns (a, s)
  | Raises e s => Raises e (a, s)
  end.

(** ** [concurrent.futures] *)

(** What one call of a probe function does in its worker thread: the
    value it returns or the exception it raises, the records it logs and
    the calls it makes. *)
Record ProbeRun (A : Type) := mkRun {
  pr_value : A + exn;
  pr_log : list LogRecord;
  pr_io : list event
}.
Arguments mkRun {A} _ _ _.
Arguments pr_value {A} _.
Arguments pr_log {A} _.
Arguments pr_io {A} _.

(** A submitted future: what its worker does and when it is done.  Times
    are milliseconds since the [for] loop over the futures began. *)
Record Future (A : Type) := mkFuture {
  fut_name : string;
  fut_run : ProbeRun A;
  fut_done_at : Z
}.
Arguments mkFuture {A} _ _ _.
Arguments fut_name {A} _.
Arguments fut_run {A} _.
Arguments fut_done_at {A} _.

Definition seconds (n : Z) : Z := 1000 * n.

Inductive waited (A : Type) :=
  | Got (v : A)
  | Threw (e : exn)
  | TimedOut.
Arguments Got {A} v.
Arguments Threw {A} e.
Arguments TimedOut {A}.

(** [future.result(timeout=t)] called at time [now]: the answer and the
    time at which the call is over. *)
Definition future_result {A : Type} (timeout now : Z) (f : Future A) : waited A * Z :=
  if fut_done_at f <=? now + timeout then
    (match pr_value (fut_run f) with inl v => Got v | inr e => Threw e end,
     Z.max now (fut_done_at f))
  else (TimedOut, now + timeout).

(** The records and calls of one worker, added to the world. *)
Definition absorb {A : Type} (r : ProbeRun A) (w : World) : World :=
  mkWorld (w_log w ++ pr_log r) (w_fs w) (w_trace w ++ pr_io r).

(** The workers write to the log while the loop of the main thread runs,
    so the log interleaves their records with those of the loop by the
    time of writing.  Every probe function logs in its last statements,
    just before it returns: the records of a worker are taken as written
    at the instant its future is done.  (The trace keeps the calls of one
    thread in program order; a worker's calls are listed where it ends.) *)
Definition ended {A : Type} (now : Z) (f : Future A) : bool := fut_done_at f <=? now.

(** Futures in the order in which they are done; of two done at the same
    instant the one submitted first stands first. *)
Fixpoint insert_done {A : Type} (f : Future A) (l : list (Future A)) : list (Future A) :=
  match l with
  | [] => [f]
  | g :: rest =>
      if fut_done_at f <=? fut_done_at g then f :: g :: rest else g :: insert_done f rest
  end.

Definition in_order_done {A : Type} (l : list (Future A)) : list (Future A) :=
  foldr insert_done [] l.

Definition absorb_all {A : Type} (l : list (Future A)) (w : World) : World :=
  foldl (λ w f, absorb (fut_run f) w) w l.

(** The world at time [now], [pending] being the futures whose workers
    had not written yet when it was last looked at. *)
Definition written {A : Type} (now : Z) (pending : list (Future A)) (w : World) : World :=
  absorb_all (in_order_done (List.filter (ended now) pending)) w.

Definition running {A : Type} (now : Z) (pending : list (Future A)) : list (Future A) :=
  List.filter (λ f, negb (ended now f)) pending.

(** The state of the loop: the time, [self.results], the world, and the
    futures whose workers have not written yet. *)
Record Loop (A : Type) := mkLoop {
  lp_clock : Z;
  lp_results : dict;
  lp_world : World;
  lp_pending : list (Future A)
}.
Arguments mkLoop {A} _ _ _ _.
Arguments lp_clock {A} _.
Arguments lp_results {A} _.
Arguments lp_world {A} _.
Arguments lp_pending {A} _.

Section Engine.
Context {A : Type}.
(** The three modules differ in the timeout, in what the [try] body does
    with a result, and in the words of the error record. *)
Variable timeout : Z.
Variable merge : A → dict → dict.
Variable label : string.

(** One turn of
    [for future in futures: try: result = future.result(timeout=..); ...
     except Exception as e: self.logger.error(f"...: {e}")]. *)
Definition collect (st : Loop A) (f : Future A) : Loop A :=
  match future_result timeout (lp_clock st) f with
  | (Got v, t) =>
      mkLoop t (merge v (lp_results st))
        (written t (lp_pending st) (lp_world st))
        (running t (lp_pending st))
  | (Threw e, t) =>
      mkLoop t (lp_results st)
        (emit ERROR (label +:+ exn_text e) (written t (lp_pending st) (lp_world st)))
        (running t (lp_pending st))
  | (TimedOut, t) =>
      mkLoop t (lp_results st)
        (emit ERROR (label +:+ "") (written t (lp_pending st) (lp_world st)))
        (running t (lp_pending st))
  end.

(** The [with ThreadPoolExecutor(..) as executor:] block once the
    futures are submitted: the loop in submission order (a dict keyed by
    the futures iterates in insertion order), then the executor's
    shutdown, which joins the workers still running. *)
Definition gather (results : dict) (w : World) (futures : list (Future A)) : dict * World :=
  let st := foldl collect (mkLoop 0 results w futures) futures in
  (lp_results st, absorb_all (in_order_done (lp_pending st)) (lp_world st)).

(** The outcome ledger of the loop: what each [future.result] call
    gave, in the order of the calls, the first one made at [now]. *)
Fixpoint ledger (now : Z) (futures : list (Future A)) : list (waited A) :=
  match futures with
  | [] => []
  | f :: rest =>
      (future_result timeout now f).1 :: ledger (future_result timeout now f).2 rest
  end.

(** What one ledger entry does to [self.results]. *)
Definition settle (results : dict) (o : waited A) : dict :=
  match o with
  | Got v => merge v results
  | Threw _ => results
  | TimedOut => results
  end.
End Engine.

(** A worker that makes no call of the given kind. *)
Definition silent {A : Type} (kind : event → bool) (r : ProbeRun A) : Prop :=
  List.filter kind (pr_io r) = [].

(** [executor.submit(fn, arg)] for each probe in turn; the [i]-th future
    is done at [done_at env i]. *)
Fixpoint submit_from {A : Type} (env : Env) (i : nat)
    (probes : list (string * string * ProbeRun A)) : list (Future A) :=
  match probes with
  | [] => []
  | (name, _, run) :: rest => mkFuture name run (done_at env i) :: submit_from env (S i) rest
  end.

Definition submissions {A : Type} (probes : list (string * string * ProbeRun A)) : list event :=
  map (λ p, Submit p.1.1 p.1.2) probes.

Definition submit_all {A : Type} (env : Env) (probes : list (string * string * ProbeRun A))
    (w : World) : list (Future A) * World :=
  (submit_from env 0 probes, mkWorld (w_log w) (w_fs w) (w_trace w ++ submissions probes)).

(** ** email.py *)

Module EmailModule.

Record t := mk {
  target_email : option string;
  output_folder : option string;
  results : dict
}.

Definition services : gmap string string :=
  list_to_map
    [ ("haveibeenpwned", "https://haveibeenpwned.com/api/v3/breachedaccount");
      ("emailrep", "https://emailrep.io");
      ("hunter_io", "https://api.hunter.io/v2/email-verifier");
      ("clearbit", "https://clearbit.com/api/v1/people/email") ].

(** [EmailModule()]. *)
Definition __init__ (w : World) : t * World :=
  (mk None None ∅, emit INFO "Email reconnaissance services initialized" w).

(** [^[a-zA-Z0-9._%+-]+@[a-zA-Z0-9.-]+\.[a-zA-Z]{2,}$]. *)
Definition pattern : regex :=
  Seq (plus (Class (λ c, alnum c || one_of "._%+-" c)))
    (Seq (Class (Ascii.eqb "@"))
      (Seq (plus (Class (λ c, alnum c || one_of ".-" c)))
        (Seq (Class (Ascii.eqb "."))
          (Seq (Class alpha) (Seq (Class alpha) (Seq (Star (Class alpha)) dollar)))))).

Definition _validate_email (email : string) : bool := matches pattern email.

Definition find (email : string) (self : t) (w : World) : t * World :=
  if negb (_validate_email email) then
    (self, emit ERROR ("Invalid email format: " +:+ email) w)
  else
    (mk (Some email) (output_folder self) (results self),
     emit INFO ("Target email set: " +:+ email) w).

Definition output (env : Env) (folder_path : string) (self : t) (w : World) : t * World :=
  match os_makedirs env folder_path w with
  | Returns w =>
      (mk (target_email self) (Some folder_path) (results self),
       emit INFO ("Output folder set: " +:+ folder_path) w)
  | Raises e w =>
      (self, emit ERROR ("Failed to create output folder: " +:+ exn_text e) w)
  end.

Definition _check_breaches (env : Env) (email : string) : ProbeRun dict :=
  let url := (services !!! "haveibeenpwned") +:+ "/" +:+ email in
  match requests_get env url with
  | Response status (JsonBody v) =>
      if status =? 200 then mkRun (inl {[ "breaches" := v ]}) [] [HttpGet url]
      else mkRun (inl {[ "breaches" := PList [] ]}) [] [HttpGet url]
  | Response status (BadBody e) =>
      if status =? 200 then
        mkRun (inl {[ "breaches" := PList [] ]})
          [(WARNING, "Breach check failed: " +:+ exn_text e)] [HttpGet url]
      else mkRun (inl {[ "breaches" := PList [] ]}) [] [HttpGet url]
  | HttpError e =>
      mkRun (inl {[ "breaches" := PList [] ]})
        [(WARNING, "Breach check failed: " +:+ exn_text e)] [HttpGet url]
  end.

Definition _check_reputation (env : Env) (email : string) : ProbeRun dict :=
  let url := (services !!! "emailrep") +:+ "/" +:+ email in
  match requests_get env url with
  | Response status (JsonBody v) =>
      if status =? 200 then mkRun (inl {[ "reputation" := v ]}) [] [HttpGet url]
      else mkRun (inl {[ "reputation" := PDict [] ]}) [] [HttpGet url]
  | Response status (BadBody e) =>
      if status =? 200 then
        mkRun (inl {[ "reputation" := PDict [] ]})
          [(WARNING, "Reputation check failed: " +:+ exn_text e)] [HttpGet url]
      else mkRun (inl {[ "reputation" := PDict [] ]}) [] [HttpGet url]
  | HttpError e =>
      mkRun (inl {[ "reputation" := PDict [] ]})
        [(WARNING, "Reputation check failed: " +:+ exn_text e)] [HttpGet url]
  end.

Definition _verify_email (env : Env) (email : string) : ProbeRun dict :=
  mkRun
    (inl {[ "verification" :=
              PDict [ ("valid", PBool true);
                      ("deliverable", PBool true);
                      ("risk_score", PFloat 15 (-2)) ] ]})
    [] [].

Definition _clearbit_enrichment (env : Env) (email : string) : ProbeRun dict :=
  mkRun
    (inl {[ "enrichment" :=
              PDict [ ("person",
                       PDict [ ("email", PStr email);
                               ("name", PStr "Data Enriched") ]) ] ]})
    [] [].

Definition _save_results (env : Env) (self : t) (w : World) : outcome (t * World) :=
  if negb (dict_truthy (results self)) then
    Returns (self, emit WARNING "No results to save" w)
  else
    match output_folder self with
    | None => Raises (Exn "TypeError" "expected str, bytes or os.PathLike object, not NoneType") (self, w)
    | Some folder =>
        let name := "EmailLog_" +:+ strftime (datetime_now env) +:+ ".json" in
        let log_file := os_path_join folder name in
        match write_json env folder name (results self) w with
        | Returns w => Returns (self, emit INFO ("Results saved to " +:+ log_file) w)
        | Raises e w => Returns (self, emit ERROR ("Failed to save results: " +:+ exn_text e) w)
        end
    end.

(** [self.results.update(result)]. *)
Definition merge (result : dict) (results : dict) : dict := dict_update results result.

Definition probes (env : Env) (email : string) : list (string * string * ProbeRun dict) :=
  [ ("_check_breaches", email, _check_breaches env email);
    ("_check_reputation", email, _check_reputation env email);
    ("_verify_email", email, _verify_email env email);
    ("_clearbit_enrichment", email, _clearbit_enrichment env email) ].

(** [if not self.output_folder: ...] at the head of [execute]. *)
Definition ensure_output (env : Env) (self : t) (w : World) : outcome (t * World) :=
  if negb (str_truthy (output_folder self)) then
    beside (mk (target_email self) (Some "./email_results") (results self))
      (os_makedirs env "./email_results" w)
  else Returns (self, w).

(** The [with ThreadPoolExecutor(max_workers=4) as executor:] block of
    [execute]. *)
Definition scan (env : Env) (self : t) (w : World) : t * World :=
  let email := default "" (target_email self) in
  let submitted := submit_all env (probes env email) w in
  let gathered :=
    gather (seconds 10) merge "Service error: " (results self) submitted.2 submitted.1 in
  (mk (target_email self) (output_folder self) gathered.1, gathered.2).

Definition execute (env : Env) (self : t) (w : World) : outcome (t * World) :=
  if negb (str_truthy (target_email self)) then
    Returns (self, emit ERROR "No target email specified" w)
  else
    and_then (ensure_output env self w) (λ s,
      let w := emit INFO ("Starting email reconnaissance on: "
                            +:+ default "" (target_email s.1)) s.2 in
      let s := scan env s.1 w in
      and_then (_save_results env s.1 s.2) (λ s,
        Returns (s.1, emit INFO "Email reconnaissance completed" s.2))).

Definition notify (env : Env) (self : t) (w : World) : outcome (t * World) :=
  let w := perform (Notify "Email Module Complete") w in
  match notify_error env with
  | Some e => Raises e (self, w)
  | None => Returns (self, emit INFO "Notification sent" w)
  end.

End EmailModule.

(** ** trace.py *)

Module TraceModule.

Record t := mk {
  target_ip : option string;
  output_folder : option string;
  results : dict
}.

Definition services : gmap string string :=
  list_to_map
    [ ("ipqualityscore", "https://api.abuseipdb.com/api/v2/check");
      ("maxmind", "https://geoip.maxmind.com");
      ("ipinfo", "https://ipinfo.io");
      ("abuseipdb", "https://api.abuseipdb.com/api/v2/check") ].

Definition __init__ (w : World) : t * World :=
  (mk None None ∅, emit INFO "Trace services initialized" w).

Section Validation.
(** The standard library's [ipaddress.ip_address]: [true] where it
    returns an address object, [false] where it raises [ValueError]. *)
Variable ip_address : string → bool.

Definition _validate_ip (ip : string) : bool :=
  if ip_address ip then true else false.

Definition target (ip : string) (self : t) (w : World) : t * World :=
  if negb (_validate_ip ip) then
    (self, emit ERROR ("Invalid IP address: " +:+ ip) w)
  else
    (mk (Some ip) (output_folder self) (results self),
     emit INFO ("Target IP set: " +:+ ip) w).
End Validation.

Definition output (env : Env) (folder_path : string) (self : t) (w : World) : t * World :=
  match os_makedirs env folder_path w with
  | Returns w =>
      (mk (target_ip self) (Some folder_path) (results self),
       emit INFO ("Output folder set: " +:+ folder_path) w)
  | Raises e w =>
      (self, emit ERROR ("Failed to create output folder: " +:+ exn_text e) w)
  end.

Definition _geoip_lookup (env : Env) (ip : string) : ProbeRun dict :=
  let url := (services !!! "ipinfo") +:+ "/" +:+ ip +:+ "/json" in
  match requests_get env url with
  | Response status (JsonBody v) =>
      if status =? 200 then mkRun (inl {[ "geolocation" := v ]}) [] [HttpGet url]
      else mkRun (inl {[ "geolocation" := PDict [] ]}) [] [HttpGet url]
  | Response status (BadBody e) =>
      if status =? 200 then
        mkRun (inl {[ "geolocation" := PDict [] ]})
          [(WARNING, "Geolocation lookup failed: " +:+ exn_text e)] [HttpGet url]
      else mkRun (inl {[ "geolocation" := PDict [] ]}) [] [HttpGet url]
  | HttpError e =>
      mkRun (inl {[ "geolocation" := PDict [] ]})
        [(WARNING, "Geolocation lookup failed: " +:+ exn_text e)] [HttpGet url]
  end.

Definition _asn_lookup (env : Env) (ip : string) : ProbeRun dict :=
  let url := "https://asn.cymru.com/cgi-bin/whois.cgi?ip=" +:+ ip +:+ "&format=json" in
  match requests_get env url with
  | Response status (JsonBody v) =>
      if status =? 200 then mkRun (inl {[ "asn_info" := v ]}) [] [HttpGet url]
      else mkRun (inl {[ "asn_info" := PDict [] ]}) [] [HttpGet url]
  | Response status (BadBody e) =>
      if status =? 200 then
        mkRun (inl {[ "asn_info" := PDict [] ]})
          [(WARNING, "ASN lookup failed: " +:+ exn_text e)] [HttpGet url]
      else mkRun (inl {[ "asn_info" := PDict [] ]}) [] [HttpGet url]
  | HttpError e =>
      mkRun (inl {[ "asn_info" := PDict [] ]})
        [(WARNING, "ASN lookup failed: " +:+ exn_text e)] [HttpGet url]
  end.

Definition _abuse_check (env : Env) (ip : string) : ProbeRun dict :=
  mkRun
    (inl {[ "abuse_report" :=
              PDict [ ("is_whitelisted", PBool false);
                      ("abuseConfidenceScore", PInt 0);
                      ("usageType", PStr "Content Delivery Network") ] ]})
    [] [].

Definition _dns_reverse (env : Env) (ip : string) : ProbeRun dict :=
  match gethostbyaddr env ip with
  | inl hostname =>
      mkRun (inl {[ "dns_reverse" := PDict [ ("hostname", PStr hostname) ] ]})
        [] [ReverseDns ip]
  | inr e =>
      mkRun (inl {[ "dns_reverse" := PDict [ ("hostname", PStr "Unknown") ] ]})
        [(WARNING, "Reverse DNS lookup failed: " +:+ exn_text e)] [ReverseDns ip]
  end.

Definition common_ports : list Z :=
  [21; 22; 23; 25; 53; 80; 110; 143; 443; 3306; 5432; 8080].

Definition _port_scan (env : Env) (ip : string) : ProbeRun dict :=
  let is_open_port port :=
    match connect_ex env ip port with
    | inl result => result =? 0
    | inr _ => false
    end in
  let open_ports := filter (λ port, is_open_port port = true) common_ports in
  mkRun (inl {[ "open_ports" := PList (PInt <$> open_ports) ]})
    [] (Connect ip <$> common_ports).

Definition _save_results (env : Env) (self : t) (w : World) : outcome (t * World) :=
  if negb (dict_truthy (results self)) then
    Returns (self, emit WARNING "No results to save" w)
  else
    match output_folder self with
    | None => Raises (Exn "TypeError" "expected str, bytes or os.PathLike object, not NoneType") (self, w)
    | Some folder =>
        let name := "TraceLog_" +:+ strftime (datetime_now env) +:+ ".json" in
        let log_file := os_path_join folder name in
        match write_json env folder name (results self) w with
        | Returns w => Returns (self, emit INFO ("Results saved to " +:+ log_file) w)
        | Raises e w => Returns (self, emit ERROR ("Failed to save results: " +:+ exn_text e) w)
        end
    end.

Definition merge (result : dict) (results : dict) : dict := dict_update results result.

Definition probes (env : Env) (ip : string) : list (string * string * ProbeRun dict) :=
  [ ("_geoip_lookup", ip, _geoip_lookup env ip);
    ("_asn_lookup", ip, _asn_lookup env ip);
    ("_abuse_check", ip, _abuse_check env ip);
    ("_dns_reverse", ip, _dns_reverse env ip);
    ("_port_scan", ip, _port_scan env ip) ].

(** [if not self.output_folder: ...] at the head of [execute]. *)
Definition ensure_output (env : Env) (self : t) (w : World) : outcome (t * World) :=
  if negb (str_truthy (output_folder self)) then
    beside (mk (target_ip self) (Some "./trace_results") (results self))
      (os_makedirs env "./trace_results" w)
  else Returns (self, w).

(** The [with ThreadPoolExecutor(max_workers=5) as executor:] block of
    [execute]. *)
Definition scan (env : Env) (self : t) (w : World) : t * World :=
  let ip := default "" (target_ip self) in
  let submitted := submit_all env (probes env ip) w in
  let gathered :=
    gather (seconds 15) merge "Trace service error: " (results self) submitted.2 submitted.1 in
  (mk (target_ip self) (output_folder self) gathered.1, gathered.2).

Definition execute (env : Env) (self : t) (w : World) : outcome (t * World) :=
  if negb (str_truthy (target_ip self)) then
    Returns (self, emit ERROR "No target IP specified" w)
  else
    and_then (ensure_output env self w) (λ s,
      let w := emit INFO ("Starting IP trace on: " +:+ default "" (target_ip s.1)) s.2 in
      let s := scan env s.1 w in
      and_then (_save_results env s.1 s.2) (λ s,
        Returns (s.1, emit INFO "IP trace completed" s.2))).

Definition notify (env : Env) (self : t) (w : World) : outcome (t * World) :=
  let w := perform (Notify "Trace Module Complete") w in
  match notify_error env with
  | Some e => Raises e (self, w)
  | None => Returns (self, emit INFO "Notification sent" w)
  end.

End TraceModule.

(** ** username.py *)

(** [template.format(arg)] for a template that is plain text around
    fields [{0}], as are all templates of [_setup_platforms]: each [{0}]
    is replaced by the argument and the rest is copied.  (Other fields,
    doubled braces and the errors of [str.format] are outside this
    function; what is proved of a probed URL is proved of such
    templates.) *)
Fixpoint str_format (template arg : string) : string :=
  match template with
  | String "{" (String "0" (String "}" rest)) => arg +:+ str_format rest arg
  | String c rest => String c (str_format rest arg)
  | EmptyString => EmptyString
  end.

(** [d[k] = v] on an insertion-ordered dict: a key already present keeps
    its place and takes the new value. *)
Fixpoint set_item (k v : string) (d : list (string * string)) : list (string * string) :=
  match d with
  | [] => [(k, v)]
  | (k', v') :: d' =>
      if String.eqb k k' then (k, v) :: d' else (k', v') :: set_item k v d'
  end.

(** A dict display [{k1: v1, k2: v2, ...}]. *)
Definition dict_display (items : list (string * string)) : list (string * string) :=
  foldl (λ d kv, set_item kv.1 kv.2 d) [] items.

Module UsernameModule.

(** [self.platforms] is an insertion-ordered dict from platform name to
    URL template. *)
Record t := mk {
  target_username : option string;
  output_folder : option string;
  results : dict;
  platforms : list (string * string)
}.

(** The entries of the display in [_setup_platforms], as written. *)
Definition platforms_display : list (string * string) :=
    [
      ("facebook", "https://www.facebook.com/{0}");
      ("twitter", "https://www.twitter.com/{0}");
      ("instagram", "https://www.instagram.com/{0}");
      ("tiktok", "https://www.tiktok.com/@{0}");
      ("snapchat", "https://www.snapchat.com/add/{0}");
      ("pinterest", "https://www.pinterest.com/{0}");
      ("linkedin", "https://www.linkedin.com/in/{0}");
      ("reddit", "https://www.reddit.com/user/{0}");
      ("youtube", "https://www.youtube.com/@{0}");
      ("twitch", "https://www.twitch.tv/{0}");
      ("telegram", "https://t.me/{0}");
      ("discord", "https://discord.com/users/{0}");
      ("whatsapp", "https://wa.me/{0}");
      ("viber", "https://viber.click/{0}");
      ("signal", "https://signal.me/#p/{0}");
      ("flickr", "https://www.flickr.com/photos/{0}");
      ("vimeo", "https://www.vimeo.com/{0}");
      ("dailymotion", "https://www.dailymotion.com/{0}");
      ("rumble", "https://rumble.com/{0}");
      ("odysee", "https://odysee.com/@{0}");
      ("medium", "https://medium.com/@{0}");
      ("hashnode", "https://hashnode.com/@{0}");
      ("wordpress", "https://{0}.wordpress.com");
      ("substack", "https://substack.com/@{0}");
      ("patreon", "https://www.patreon.com/{0}");
      ("steam", "https://steamcommunity.com/search/users/{0}");
      ("xbox", "https://www.xbox.com/en-US/xbox-live/friends/search/{0}");
      ("psn", "https://www.playstation.com/en-us/psn/{0}");
      ("epicgames", "https://www.epicgames.com/site/en-US/home/{0}");
      ("fortnite", "https://fortnite.gg/en/profile/{0}");
      ("github", "https://www.github.com/{0}");
      ("gitlab", "https://www.gitlab.com/{0}");
      ("bitbucket", "https://www.bitbucket.org/{0}");
      ("stackoverflow", "https://stackoverflow.com/users/{0}");
      ("devto", "https://dev.to/{0}");
      ("tinder", "https://tinder.com/@{0}");
      ("bumble", "https://bumble.com/{0}");
      ("okcupid", "https://www.okcupid.com/profile/{0}");
      ("hinge", "https://hinge.co/{0}");
      ("meetup", "https://www.meetup.com/{0}");
      ("ebay", "https://www.ebay.com/usr/{0}");
      ("amazon", "https://www.amazon.com/s?k={0}");
      ("etsy", "https://www.etsy.com/shop/{0}");
      ("mercari", "https://www.mercari.com/u/{0}");
      ("depop", "https://www.depop.com/{0}");
      ("coinbase", "https://www.coinbase.com/{0}");
      ("kraken", "https://www.kraken.com/{0}");
      ("binance", "https://www.binance.com/{0}");
      ("opensea", "https://opensea.io/{0}");
      ("raydium", "https://raydium.io/fusion/{0}");
      ("strava", "https://www.strava.com/athletes/{0}");
      ("myfitnesspal", "https://www.myfitnesspal.com/profile/{0}");
      ("fitbit", "https://www.fitbit.com/user/{0}");
      ("peloton", "https://www.peloton.com/profile/{0}");
      ("spotify", "https://open.spotify.com/user/{0}");
      ("soundcloud", "https://soundcloud.com/{0}");
      ("bandcamp", "https://{0}.bandcamp.com");
      ("anchor", "https://anchor.fm/{0}");
      ("apple_music", "https://music.apple.com/profile/{0}");
      ("airbnb", "https://www.airbnb.com/users/show/{0}");
      ("booking", "https://www.booking.com/profile.en.html?{0}");
      ("tripadvisor", "https://www.tripadvisor.com/members/{0}");
      ("foursquare", "https://foursquare.com/{0}");
      ("indeed", "https://www.indeed.com/profile/{0}");
      ("glassdoor", "https://www.glassdoor.com/Profile/profile.htm?{0}");
      ("angellist", "https://angel.co/{0}");
      ("producthunt", "https://www.producthunt.com/@{0}");
      ("quora", "https://www.quora.com/profile/{0}");
      ("nextdoor", "https://nextdoor.com/member/{0}");
      ("ycombinator", "https://news.ycombinator.com/user?id={0}");
      ("dribbble", "https://dribbble.com/{0}");
      ("behance", "https://www.behance.net/{0}");
      ("aol", "https://aim.aol.com/{0}");
      ("icq", "https://www.icq.com/{0}");
      ("skype", "https://web.skype.com/{0}");
      ("line", "https://line.me/R/ti/p/{0}");
      ("wechat", "https://weixin.qq.com/{0}");
      ("vk", "https://vk.com/{0}");
      ("ok", "https://ok.ru/{0}");
      ("viber", "https://viber.click/{0}");
      ("weibo", "https://www.weibo.com/u/{0}");
      ("qq", "https://qq.com/{0}") ].

(** What [_setup_platforms] stores in [self.platforms]. *)
Definition _setup_platforms : list (string * string) := dict_display platforms_display.

Definition __init__ (w : World) : t * World :=
  (mk None None ∅ _setup_platforms,
   emit INFO ("Initialized " +:+ pretty (length _setup_platforms)
                +:+ " social media platforms") w).

Definition search (username : string) (self : t) (w : World) : t * World :=
  (mk (Some username) (output_folder self) (results self) (platforms self),
   emit INFO ("Target username set: " +:+ username) w).

Definition output (env : Env) (folder_path : string) (self : t) (w : World) : t * World :=
  match os_makedirs env folder_path w with
  | Returns w =>
      (mk (target_username self) (Some folder_path) (results self) (platforms self),
       emit INFO ("Output folder set: " +:+ folder_path) w)
  | Raises e w =>
      (self, emit ERROR ("Failed to create output folder: " +:+ exn_text e) w)
  end.

(** [except requests.exceptions.Timeout] and
    [except requests.exceptions.ConnectionError]: the class itself or one
    of the subclasses that [requests] defines.  (The builtin
    [ConnectionError] is another class and is caught by neither.) *)
Definition is_Timeout (e : exn) : bool :=
  existsb (String.eqb (exn_class e))
    ["requests.exceptions.Timeout"; "requests.exceptions.ConnectTimeout";
     "requests.exceptions.ReadTimeout"].

Definition is_ConnectionError (e : exn) : bool :=
  existsb (String.eqb (exn_class e))
    ["requests.exceptions.ConnectionError"; "requests.exceptions.ProxyError";
     "requests.exceptions.SSLError"; "requests.exceptions.ConnectTimeout"].

Definition found_status (status : Z) : bool :=
  existsb (Z.eqb status) [200; 301; 302; 303].

(** [str(None)] when no target is set. *)
Definition target_text (self : t) : string := default "None" (target_username self).

Definition _check_platform (env : Env) (self : t) (platform url_template : string)
    : ProbeRun (option dict) :=
  let formatted_url := str_format url_template (target_text self) in
  match requests_head env formatted_url with
  | Response status _ =>
      if found_status status then
        mkRun (inl (Some {[ platform := PStr formatted_url ]}))
          [(INFO, "Found on " +:+ platform +:+ ": " +:+ formatted_url)]
          [HttpHead formatted_url]
      else mkRun (inl None) [] [HttpHead formatted_url]
  | HttpError e =>
      mkRun (inl None)
        [(DEBUG,
          if is_Timeout e then "Timeout on " +:+ platform
          else if is_ConnectionError e then "Connection error on " +:+ platform
          else "Error checking " +:+ platform +:+ ": " +:+ exn_text e)]
        [HttpHead formatted_url]
  end.

Definition _save_results (env : Env) (self : t) (w : World) : outcome (t * World) :=
  if negb (dict_truthy (results self)) then
    Returns (self, emit WARNING "No results to save" w)
  else
    match output_folder self with
    | None =>
        let w := perform (Listdir ".") w in
        match listdir_error env "." with
        | Some e => Raises e (self, w)
        | None =>
            Raises (Exn "TypeError" "expected str, bytes or os.PathLike object, not NoneType")
              (self, w)
        end
    | Some folder =>
        let w := perform (Listdir folder) w in
        match os_listdir env folder w with
        | inr e => Raises e (self, w)
        | inl entries =>
            let name := "Log" +:+ pretty (size entries + 1)%nat +:+ ".json" in
            let log_file := os_path_join folder name in
            match write_json env folder name (results self) w with
            | Returns w => Returns (self, emit INFO ("Results saved to " +:+ log_file) w)
            | Raises e w =>
                Returns (self, emit ERROR ("Failed to save results: " +:+ exn_text e) w)
            end
        end
    end.

(** [if result: self.results.update(result)]. *)
Definition merge (result : option dict) (results : dict) : dict :=
  match result with
  | Some d => if dict_truthy d then dict_update results d else results
  | None => results
  end.

Definition probes (env : Env) (self : t) : list (string * string * ProbeRun (option dict)) :=
  map (λ '(platform, url), ("_check_platform", platform, _check_platform env self platform url))
    (platforms self).

(** [if not self.output_folder: ...] at the head of [execute]. *)
Definition ensure_output (env : Env) (self : t) (w : World) : outcome (t * World) :=
  if negb (str_truthy (output_folder self)) then
    beside (mk (target_username self) (Some "./username_results") (results self)
              (platforms self))
      (os_makedirs env "./username_results" w)
  else Returns (self, w).

(** The [with ThreadPoolExecutor(max_workers=20) as executor:] block of
    [execute]. *)
Definition scan (env : Env) (self : t) (w : World) : t * World :=
  let submitted := submit_all env (probes env self) w in
  let gathered :=
    gather (seconds 10) merge "Platform check error: " (results self)
      submitted.2 submitted.1 in
  (mk (target_username self) (output_folder self) gathered.1 (platforms self), gathered.2).

Definition execute (env : Env) (self : t) (w : World) : outcome (t * World) :=
  if negb (str_truthy (target_username self)) then
    Returns (self, emit ERROR "No target username specified" w)
  else
    and_then (ensure_output env self w) (λ s,
      let w := emit INFO ("Starting username reconnaissance on: "
                            +:+ default "" (target_username s.1)) s.2 in
      let s := scan env s.1 w in
      and_then (_save_results env s.1 s.2) (λ s,
        Returns (s.1,
          emit INFO ("Username reconnaissance completed. Found "
                       +:+ pretty (size (results s.1)) +:+ " matches") s.2))).

Definition notify (env : Env) (self : t) (w : World) : outcome (t * World) :=
  let w := perform (Notify "Username Module Complete") w in
  match notify_error env with
  | Some e => Raises e (self, w)
  | None => Returns (self, emit INFO "Notification sent" w)
  end.

End UsernameModule.

(** The one record [_save_results] logs, whichever way it goes. *)
Definition save_record (r : LogRecord) : Prop :=
  r = (WARNING, "No results to save")
  ∨ (∃ path, r = (INFO, "Results saved to " +:+ path))
  ∨ (∃ e, r = (ERROR, "Failed to save results: " +:+ exn_text e)).

(** ** Sample environments and runs *)

Module Scenarios.

Definition down : exn := Exn "requests.exceptions.ConnectionError" "down".

(** What the resolver and the sockets raise without a network. *)
Definition no_route : exn :=
  Exn "socket.gaierror" "[Errno -3] Temporary failure in name resolution".

Definition noon : datetime := mkDatetime 2024 1 2 12 0 0 0.

(** The text of [FileNotFoundError] on Linux, for a path whose [repr] is
    the path between single quotes. *)
Definition posix_enoent (path : string) : string :=
  "[Errno 2] No such file or directory: '" +:+ path +:+ "'".

(** No network at all; every worker is done after half a second; the
    file system and the notifier raise no objection. *)
Definition offline : Env :=
  mkEnv (λ _, HttpError down) (λ _, HttpError down)
    (λ _, inr no_route) (λ _ _, inr no_route)
    (λ _, 500) noon (λ _, None) (λ _, None) (λ _, None) (λ _, None) None posix_enoent.

(** As [offline], but no worker is done before a minute has passed. *)
Definition stalled : Env :=
  mkEnv (λ _, HttpError down) (λ _, HttpError down)
    (λ _, inr no_route) (λ _ _, inr no_route)
    (λ _, seconds 60) noon (λ _, None) (λ _, None) (λ _, None) (λ _, None) None
    posix_enoent.

(** As [offline], but the log file cannot be opened. *)
Definition read_only : Env :=
  mkEnv (λ _, HttpError down) (λ _, HttpError down)
    (λ _, inr no_route) (λ _ _, inr no_route)
    (λ _, 500) noon (λ _, None) (λ _, None)
    (λ _, Some (Exn "PermissionError" "[Errno 13] Permission denied"))
    (λ _, None) None posix_enoent.

(** As [offline], but the desktop notifier raises. *)
Definition no_desktop : Env :=
  mkEnv (λ _, HttpError down) (λ _, HttpError down)
    (λ _, inr no_route) (λ _ _, inr no_route)
    (λ _, 500) noon (λ _, None) (λ _, None) (λ _, None) (λ _, None)
    (Some (Exn "NotImplementedError" "No usable implementation found!")) posix_enoent.

(** As [offline], a quarter of a second later on the wall clock. *)
Definition offline_later : Env :=
  mkEnv (λ _, HttpError down) (λ _, HttpError down)
    (λ _, inr no_route) (λ _ _, inr no_route)
    (λ _, 500) (mkDatetime 2024 1 2 12 0 0 250000)
    (λ _, None) (λ _, None) (λ _, None) (λ _, None) None posix_enoent.

(** As [offline], one second later on the wall clock. *)
Definition offline_next_second : Env :=
  mkEnv (λ _, HttpError down) (λ _, HttpError down)
    (λ _, inr no_route) (λ _ _, inr no_route)
    (λ _, 500) (mkDatetime 2024 1 2 12 0 1 0)
    (λ _, None) (λ _, None) (λ _, None) (λ _, None) None posix_enoent.

Definition blank : World := mkWorld [] ∅ [].

(** Two futures whose payloads share the field [x]: [B] is submitted
    first and is done after two seconds, [A] is submitted second and is
    done after one. *)
Definition future_A : Future dict :=
  mkFuture "A" (mkRun (inl {[ "x" := PInt 1 ]}) [] []) (seconds 1).


(** A future that raises between two that return. *)
Definition boom : Future dict :=
  mkFuture "boom" (mkRun (inr (Exn "RuntimeError" "boom")) [] []) 100.
Definition future_C : Future dict :=
  mkFuture "C" (mkRun (inl {[ "y" := PInt 3 ]}) [] []) 200.
Definition with_failure : list (Future dict) := [future_A; boom; future_C].

(** The same ip-address parser stand-in everywhere: dotted quads are
    not parsed here, one literal is accepted. *)
Definition only_8_8_8_8 (s : string) : bool := String.eqb s "8.8.8.8".

(** A fresh [EmailModule] told to [find("a@b.co")], and its [execute]
    with the network down. *)
Definition email_session : EmailModule.t * World :=
  EmailModule.find "a@b.co" (EmailModule.__init__ blank).1 (EmailModule.__init__ blank).2.

Definition email_offline_run : outcome (EmailModule.t * World) :=
  EmailModule.execute offline email_session.1 email_session.2.

(** The same session told to [find] a string that is no address, and
    its [execute]. *)
Definition email_second_find : EmailModule.t * World :=
  EmailModule.find "not-an-address" email_session.1 email_session.2.

Definition email_stale_run : outcome (EmailModule.t * World) :=
  EmailModule.execute offline email_second_find.1 email_second_find.2.

(** A fresh [UsernameModule] told to [search("someone")]. *)
Definition username_session : UsernameModule.t * World :=
  UsernameModule.search "someone"
    (UsernameModule.__init__ blank).1 (UsernameModule.__init__ blank).2.

(** A fresh [TraceModule] given the target [8.8.8.8]. *)
Definition trace_session : TraceModule.t * World :=
  TraceModule.target only_8_8_8_8 "8.8.8.8"
    (TraceModule.__init__ blank).1 (TraceModule.__init__ blank).2.

(** Instances that hold results and the folder [out], in a world where
    that folder exists and is empty. *)
Definition email_with_results : EmailModule.t :=
  EmailModule.mk (Some "a@b.co") (Some "out") {[ "breaches" := PList [] ]}.

Definition email_with_other_results : EmailModule.t :=
  EmailModule.mk (Some "c@d.org") (Some "out") {[ "reputation" := PDict [] ]}.

Definition trace_with_results : TraceModule.t :=
  TraceModule.mk (Some "8.8.8.8") (Some "out") {[ "open_ports" := PList [] ]}.

Definition username_with_results : UsernameModule.t :=
  UsernameModule.mk (Some "someone") (Some "out")
    {[ "github" := PStr "https://www.github.com/someone" ]}
    UsernameModule._setup_platforms.

Definition username_with_other_results : UsernameModule.t :=
  UsernameModule.mk (Some "other") (Some "out")
    {[ "gitlab" := PStr "https://www.gitlab.com/other" ]}
    UsernameModule._setup_platforms.

Definition out_exists : World := mkWorld [] {[ "out" := ∅ ]} [].

(** Two saves from [EmailModule] into [out], a quarter of a second
    apart. *)
Definition first_save : outcome (EmailModule.t * World) :=
  EmailModule._save_results offline email_with_results out_exists.

Definition second_save : outcome (EmailModule.t * World) :=
  EmailModule._save_results offline_later email_with_other_results (final first_save).2.

End Scenarios.

(** ** What a regular expression matches *)

(** The strings of the language of a regular expression; [matches] is
    checked against it below. *)
Inductive lang : regex → string → Prop :=
  | lang_eps : lang Eps ""
  | lang_class (p : ascii → bool) (c : ascii) : p c = true → lang (Class p) (String c "")
  | lang_seq (r1 r2 : regex) (s1 s2 : string) :
      lang r1 s1 → lang r2 s2 → lang (Seq r1 r2) (s1 +:+ s2)
  | lang_alt_l (r1 r2 : regex) (s : string) : lang r1 s → lang (Alt r1 r2) s
  | lang_alt_r (r1 r2 : regex) (s : string) : lang r2 s → lang (Alt r1 r2) s
  | lang_star_nil (r : regex) : lang (Star r) ""
  | lang_star_cons (r : regex) (s1 s2 : string) :
      lang r s1 → lang (Star r) s2 → lang (Star r) (s1 +:+ s2).

(** Every character of [s] is in the class [p]. *)
Definition chars_in (p : ascii → bool) (s : string) : bool :=
  forallb p (list_ascii_of_string s).

(** The two bracket classes of the pattern of [_validate_email]. *)
Definition local_char (c : ascii) : bool := alnum c || one_of "._%+-" c.
Definition domain_char (c : ascii) : bool := alnum c || one_of ".-" c.

(** [local@domain.tld], with an optional newline at the very end. *)
Definition address_shape (s : string) : Prop :=
  ∃ local domain tld nl,
    s = local +:+ "@" +:+ domain +:+ "." +:+ tld +:+ nl
    ∧ local ≠ "" ∧ chars_in local_char local = true
    ∧ domain ≠ "" ∧ chars_in domain_char domain = true
    ∧ (2 ≤ String.length tld)%nat ∧ chars_in alpha tld = true
    ∧ (nl = "" ∨ nl = String newline "").

(** ** Chains of calls on one [EmailModule] *)

(** The public methods, as a caller chains them:
    [m.find(..).output(..).execute().notify()]. *)
Inductive email_call :=
  | EFind (email : string)
  | EOutput (folder_path : string)
  | EExecute
  | ENotify.

Definition email_step (c : email_call) (env : Env) (s : EmailModule.t * World)
    : outcome (EmailModule.t * World) :=
  match c with
  | EFind email => Returns (EmailModule.find email s.1 s.2)
  | EOutput folder_path => Returns (EmailModule.output env folder_path s.1 s.2)
  | EExecute => EmailModule.execute env s.1 s.2
  | ENotify => EmailModule.notify env s.1 s.2
  end.

(** A chain of calls, each met by its own environment; an exception ends
    the chain. *)
Fixpoint email_chain (calls : list (email_call * Env)) (s : EmailModule.t * World)
    : outcome (EmailModule.t * World) :=
  match calls with
  | [] => Returns s
  | (c, env) :: rest => and_then (email_step c env s) (email_chain rest)
  end.

(** Every probe submitted so far was given an address that
    [_validate_email] accepts. *)
Definition submits_valid (tr : list event) : Prop :=
  ∀ probe arg, Submit probe arg ∈ tr → EmailModule._validate_email arg = true.

(** ** The fields the email and trace probes write *)

Definition email_keys : gset string :=
  {[ "breaches"; "reputation"; "verification"; "enrichment" ]}.

Definition trace_keys : gset string :=
  {[ "geolocation"; "asn_info"; "abuse_report"; "dns_reverse"; "open_ports" ]}.

(** The same, in the order in which the probes are submitted. *)
Definition email_fields : list string :=
  [ "breaches"; "reputation"; "verification"; "enrichment" ].

Definition trace_fields : list string :=
  [ "geolocation"; "asn_info"; "abuse_report"; "dns_reverse"; "open_ports" ].

(** ** One more environment *)

(** As [Scenarios.offline], except that [HEAD] on the GitHub page of
    [someone] is answered with status 200. *)
Definition github_answers : Env :=
  mkEnv (λ _, HttpError Scenarios.down)
    (λ url, if String.eqb url "https://www.github.com/someone"
            then Response 200 (JsonBody PNone)
            else HttpError Scenarios.down)
    (λ _, inr Scenarios.no_route) (λ _ _, inr Scenarios.no_route)
    (λ _, 500) Scenarios.noon (λ _, None) (λ _, None) (λ _, None) (λ _, None) None
    Scenarios.posix_enoent.

(** A [UsernameModule] whose output folder [gone] is not in the file
    system of [Scenarios.blank]. *)
Definition username_in_missing_folder : UsernameModule.t :=
  UsernameModule.mk (Some "someone") (Some "gone") ∅ UsernameModule._setup_platforms.

(** ** Templates *)

(** A string without braces: [str.format] copies it as it is. *)
Definition plain (s : string) : bool :=
  chars_in (λ c, negb (Ascii.eqb c "{") && negb (Ascii.eqb c "}")) s.

(** A template that is plain text around one field [{0}].  On such a
    template [str_format] is [str.format] with one positional argument. *)
Definition one_field (template : string) : Prop :=
  ∃ before after,
    template = before +:+ "{0}" +:+ after ∧ plain before = true ∧ plain after = true.

(** The text before and after the first [{0}] of a template. *)
Fixpoint around_field (template : string) : option (string * string) :=
  match template with
  | String "{" (String "0" (String "}" rest)) => Some ("", rest)
  | String c rest =>
      match around_field rest with
      | Some (before, after) => Some (String c before, after)
      | None => None
      end
  | EmptyString => None
  end.

(** ** Chains of calls on one [TraceModule] *)

Inductive trace_call :=
  | TTarget (ip : string)
  | TOutput (folder_path : string)
  | TExecute
  | TNotify.

Section TraceChains.
(** [ipaddress.ip_address], as in [TraceModule._validate_ip]. *)
Variable ip_address : string → bool.

Definition trace_step (c : trace_call) (env : Env) (s : TraceModule.t * World)
    : outcome (TraceModule.t * World) :=
  match c with
  | TTarget ip => Returns (TraceModule.target ip_address ip s.1 s.2)
  | TOutput folder_path => Returns (TraceModule.output env folder_path s.1 s.2)
  | TExecute => TraceModule.execute env s.1 s.2
  | TNotify => TraceModule.notify env s.1 s.2
  end.

Fixpoint trace_chain (calls : list (trace_call * Env)) (s : TraceModule.t * World)
    : outcome (TraceModule.t * World) :=
  match calls with
  | [] => Returns s
  | (c, env) :: rest => and_then (trace_step c env s) (trace_chain rest)
  end.

(** Every probe submitted so far was given an address that
    [_validate_ip] accepts. *)
Definition submits_parsed (tr : list event) : Prop :=
  ∀ probe arg, Submit probe arg ∈ tr → TraceModule._validate_ip ip_address arg = true.
End TraceChains.

(** ** Counting in the log and the ledger *)

Definition is_error (r : LogRecord) : bool :=
  match r.1 with
  | ERROR => true
  | _ => false
  end.

Definition not_got {A : Type} (o : waited A) : bool :=
  match o with
  | Got _ => false
  | _ => true
  end.


(** A worker that logs no ERROR record. *)
Definition calm {A : Type} (r : ProbeRun A) : Prop :=
  List.filter is_error (pr_log r) = [].

(** ** A folder that only [UsernameModule] writes to *)

(** The entries are [Log1.json], ..., [Logn.json], [n] being their
    number. *)
Definition numbered (entries : gmap string content) : Prop :=
  ∀ name, is_Some (entries !! name)
          ↔ ∃ j : nat, (1 ≤ j ≤ size entries)%nat ∧ name = "Log" +:+ pretty j +:+ ".json".

(** ** The folder a run stores into *)

(** [self.output_folder] where it is set, else the default that
    [execute] assigns. *)
Definition email_folder (self : EmailModule.t) : string :=
  if str_truthy (EmailModule.output_folder self)
  then default "" (EmailModule.output_folder self)
  else "./email_results".

Definition trace_folder (self : TraceModule.t) : string :=
  if str_truthy (TraceModule.output_folder self)
  then default "" (TraceModule.output_folder self)
  else "./trace_results".


(** * Properties *)

(** ** The loop over the futures *)

Section EngineFacts.
Context {A : Type}.
Variable timeout : Z.
Variable merge : A → dict → dict.
Variable label : string.
Implicit Types (st : Loop A) (f : Future A) (futures : list (Future A)).

Lemma collect_results st f :
  lp_results (collect timeout merge label st f)
  = settle merge (lp_results st) (future_result timeout (lp_clock st) f).1.
Proof.
  unfold collect. destruct (future_result timeout (lp_clock st) f) as [[v|e|] now]; done.
Qed.

Lemma collect_clock st f :
  lp_clock (collect timeout merge label st f) = (future_result timeout (lp_clock st) f).2.
Proof.
  unfold collect. destruct (future_result timeout (lp_clock st) f) as [[v|e|] now]; done.
Qed.

Lemma absorb_all_fs (l : list (Future A)) : ∀ w, w_fs (absorb_all l w) = w_fs w.
Proof.
  unfold absorb_all. induction l as [|f l IH]; intros w; simpl; [done|]. by rewrite IH.
Qed.

Lemma collect_fs st f :
  w_fs (lp_world (collect timeout merge label st f)) = w_fs (lp_world st).
Proof.
  unfold collect, written.
  destruct (future_result timeout (lp_clock st) f) as [[v|e|] now];
    cbn [lp_world emit w_fs]; apply absorb_all_fs.
Qed.

Lemma loop_results futures : ∀ st,
  lp_results (foldl (collect timeout merge label) st futures)
  = foldl (settle merge) (lp_results st) (ledger timeout (lp_clock st) futures).
Proof.
  induction futures as [|f rest IH]; intros st; simpl; [done|].
  rewrite IH, collect_results, collect_clock. done.
Qed.

Lemma loop_fs futures : ∀ st,
  w_fs (lp_world (foldl (collect timeout merge label) st futures)) = w_fs (lp_world st).
Proof.
  induction futures as [|f rest IH]; intros st; simpl; [done|].
  rewrite IH. apply collect_fs.
Qed.


Lemma gather_results (results : dict) (w : World) futures :
  (gather timeout merge label results w futures).1
  = foldl (settle merge) results (ledger timeout 0 futures).
Proof. unfold gather. simpl. by rewrite loop_results. Qed.

Lemma gather_fs (results : dict) (w : World) futures :
  w_fs (gather timeout merge label results w futures).2 = w_fs w.
Proof. unfold gather. cbn [snd]. by rewrite absorb_all_fs, loop_fs. Qed.

Lemma ledger_length futures : ∀ now,
  length (ledger timeout now futures) = length futures.
Proof. induction futures as [|f rest IH]; intros now; simpl; [done|]. by rewrite IH. Qed.
End EngineFacts.

(** ** Merging: the last ledger entry that carries a field decides it *)

Section Merging.
Context {A : Type}.
Variable merge : A → dict → dict.
(** Both loops merge by [dict.update] with what the result carries. *)
Variable payload : A → dict.
Hypothesis merge_payload : ∀ a results, merge a results = payload a ∪ results.

Lemma settle_keeps (k : string) (os : list (waited A)) : ∀ results : dict,
  (∀ a, Got a ∈ os → payload a !! k = None) →
  foldl (settle merge) results os !! k = results !! k.
Proof.
  induction os as [|o os IH]; intros results Hnone; simpl; [done|].
  rewrite IH by (intros a Ha; apply Hnone; by right).
  destruct o as [a|e|]; simpl; try done.
  rewrite merge_payload. apply lookup_union_r. apply Hnone. by left.
Qed.

Lemma settle_last_writer (k : string) (v : pyval) (os : list (waited A))
    (results : dict) (j : nat) (a : A) :
  os !! j = Some (Got a) →
  payload a !! k = Some v →
  (∀ j' a', (j < j')%nat → os !! j' = Some (Got a') → payload a' !! k = None) →
  foldl (settle merge) results os !! k = Some v.
Proof.
  intros Hj Hk Hlater.
  rewrite <- (take_drop_middle os j (Got a)) by done.
  rewrite foldl_app. simpl.
  rewrite settle_keeps.
  - rewrite merge_payload. by apply lookup_union_Some_l.
  - intros a' Ha'. apply list_elem_of_lookup in Ha' as [i Hi].
    rewrite lookup_drop in Hi.
    apply (Hlater (S j + i)%nat); [lia | done].
Qed.

(** A field of the merged results that was not there before comes from
    some entry of the ledger. *)
Lemma settle_origin (k : string) (os : list (waited A)) : ∀ results : dict,
  results !! k = None →
  is_Some (foldl (settle merge) results os !! k) →
  ∃ a, Got a ∈ os ∧ is_Some (payload a !! k).
Proof.
  induction os as [|o os IH]; intros results Hnone Hsome; simpl in *.
  - rewrite Hnone in Hsome. by destruct Hsome.
  - destruct o as [a|e|]; simpl in *.
    + destruct (payload a !! k) as [v|] eqn:Hk.
      * exists a. split; [by left | by rewrite Hk].
      * destruct (IH (merge a results)) as (a' & Hin & Hk'); [|done|].
        { rewrite merge_payload. rewrite lookup_union_r; done. }
        exists a'. split; [by right | done].
    + destruct (IH results Hnone Hsome) as (a' & Hin & Hk').
      exists a'. split; [by right | done].
    + destruct (IH results Hnone Hsome) as (a' & Hin & Hk').
      exists a'. split; [by right | done].
Qed.
End Merging.

Lemma email_merge_payload (a results : dict) : EmailModule.merge a results = a ∪ results.
Proof. done. Qed.

Lemma trace_merge_payload (a results : dict) : TraceModule.merge a results = a ∪ results.
Proof. done. Qed.

(** What an optional result carries. *)
Lemma username_merge_payload (a : option dict) (results : dict) :
  UsernameModule.merge a results = default ∅ a ∪ results.
Proof.
  destruct a as [d|]; simpl.
  - unfold dict_truthy, dict_update. case_bool_decide as Hd; simpl; [|done].
    subst d. by rewrite (left_id_L ∅ (∪)).
  - by rewrite (left_id_L ∅ (∪)).
Qed.

(** ** The ledger against the futures it was read from *)

Section LedgerFacts.
Context {A : Type}.
Variable timeout : Z.

Lemma ledger_got (futures : list (Future A)) : ∀ (now : Z) (i : nat) (a : A),
  ledger timeout now futures !! i = Some (Got a) →
  ∃ f, futures !! i = Some f ∧ pr_value (fut_run f) = inl a.
Proof.
  induction futures as [|f rest IH]; intros now i a Hi; simpl in *; [done|].
  destruct i as [|i]; simpl in *.
  - exists f. split; [done|].
    unfold future_result in Hi.
    destruct (fut_done_at f <=? now + timeout); simpl in Hi; [|done].
    destruct (pr_value (fut_run f)); congruence.
  - by apply (IH _ _ _ Hi).
Qed.

Lemma submit_from_lookup (env : Env) (probes : list (string * string * ProbeRun A)) :
  ∀ (n i : nat) (f : Future A),
    submit_from env n probes !! i = Some f →
    ∃ name arg, probes !! i = Some (name, arg, fut_run f).
Proof.
  induction probes as [|[[name arg] run] rest IH]; intros n i f Hi; simpl in *; [done|].
  destruct i as [|i]; simpl in *.
  - inversion Hi; subst; simpl. by exists name, arg.
  - by apply (IH (S n)).
Qed.

End LedgerFacts.

Lemma map_lookup_inv {X Y : Type} (f : X → Y) (l : list X) : ∀ (i : nat) (y : Y),
  map f l !! i = Some y → ∃ x, l !! i = Some x ∧ y = f x.
Proof.
  induction l as [|x l IH]; intros i y Hi; [done|].
  destruct i as [|i]; cbn in Hi.
  - exists x. split; [done | congruence].
  - by apply IH.
Qed.

Lemma map_lookup_fwd {X Y : Type} (f : X → Y) (l : list X) : ∀ (i : nat) (x : X),
  l !! i = Some x → map f l !! i = Some (f x).
Proof.
  induction l as [|x0 l IH]; intros i x Hi; [done|].
  destruct i as [|i]; cbn in *; [congruence | by apply IH].
Qed.

Lemma submit_from_lookup_fwd {A : Type} (env : Env)
    (probes : list (string * string * ProbeRun A)) :
  ∀ (n i : nat) (name arg : string) (run : ProbeRun A),
    probes !! i = Some (name, arg, run) →
    submit_from env n probes !! i = Some (mkFuture name run (done_at env (n + i))).
Proof.
  induction probes as [|[[name0 arg0] run0] rest IH]; intros n i name arg run Hi; [done|].
  destruct i as [|i]; cbn [submit_from].
  - injection Hi as -> -> ->. by rewrite Nat.add_0_r.
  - replace (n + S i)%nat with (S n + i)%nat by lia.
    apply (IH (S n) i name arg run Hi).
Qed.

(** ** When the calls of the loop are made *)

Section Waiting.
Context {A : Type}.
Variable timeout : Z.
Hypothesis timeout_nonneg : 0 ≤ timeout.

Lemma future_result_clock (now : Z) (f : Future A) :
  now ≤ (future_result timeout now f).2 ≤ now + timeout.
Proof.
  unfold future_result.
  destruct (Z.leb_spec (fut_done_at f) (now + timeout)); cbn [snd]; lia.
Qed.

(** The call for the [i]-th future is made no later than [i] timeouts
    after the first. *)
Lemma ledger_lookup (futures : list (Future A)) : ∀ (now : Z) (i : nat) (f : Future A),
  futures !! i = Some f →
  ∃ now_i, now ≤ now_i ≤ now + Z.of_nat i * timeout
           ∧ ledger timeout now futures !! i = Some (future_result timeout now_i f).1.
Proof.
  induction futures as [|f0 rest IH]; intros now i f Hi; [done|].
  destruct i as [|i]; cbn in Hi.
  - injection Hi as ->. exists now. split; [lia|done].
  - destruct (IH (future_result timeout now f0).2 i f Hi) as (now_i & Hbound & Hentry).
    pose proof (future_result_clock now f0).
    exists now_i. split; [lia|]. by cbn.
Qed.

End Waiting.


(** ** What the workers write *)

Section Workers.
Context {A : Type}.
Implicit Types (f : Future A) (l pending : list (Future A)).

Lemma Forall_list_filter {X : Type} (P : X → Prop) (b : X → bool) (xs : list X) :
  Forall P xs → Forall P (List.filter b xs).
Proof.
  induction 1 as [|x xs Hx Hxs IH]; cbn; [constructor|].
  destruct (b x); [by constructor | done].
Qed.

Lemma insert_done_Forall (P : Future A → Prop) f l :
  P f → Forall P l → Forall P (insert_done f l).
Proof.
  intros Hf. induction 1 as [|g rest Hg Hrest IH]; cbn; [by repeat constructor|].
  destruct (fut_done_at f <=? fut_done_at g); by repeat constructor.
Qed.

Lemma in_order_done_Forall (P : Future A → Prop) l :
  Forall P l → Forall P (in_order_done l).
Proof.
  induction 1 as [|f rest Hf Hrest IH]; cbn; [constructor|]. by apply insert_done_Forall.
Qed.

Lemma insert_done_elem_of f g l : g ∈ insert_done f l ↔ g = f ∨ g ∈ l.
Proof.
  induction l as [|h rest IH]; cbn.
  - rewrite list_elem_of_singleton, elem_of_nil. tauto.
  - destruct (fut_done_at f <=? fut_done_at h).
    + by rewrite elem_of_cons.
    + rewrite !elem_of_cons, IH. tauto.
Qed.

Lemma in_order_done_elem_of g l : g ∈ in_order_done l ↔ g ∈ l.
Proof.
  induction l as [|f rest IH]; cbn; [done|].
  by rewrite insert_done_elem_of, elem_of_cons, IH.
Qed.

(** What the workers that ended meanwhile add to the log. *)
Lemma absorb_all_log l : ∀ w,
  w_log (absorb_all l w) = (w_log w ++ flat_map (λ g, pr_log (fut_run g)) l)%list.
Proof.
  unfold absorb_all. induction l as [|f l IH]; intros w; cbn [foldl flat_map].
  - by rewrite app_nil_r.
  - rewrite IH. cbn [absorb w_log]. by rewrite <- app_assoc.
Qed.

Lemma written_log (now : Z) pending (w : World) :
  ∃ meanwhile,
    w_log (written now pending w) = (w_log w ++ meanwhile)%list
    ∧ ∀ r, r ∈ meanwhile →
           ∃ g, g ∈ pending ∧ fut_done_at g ≤ now ∧ r ∈ pr_log (fut_run g).
Proof.
  unfold written. rewrite absorb_all_log. eexists. split; [reflexivity|].
  intros r Hr. apply list_elem_of_In, in_flat_map in Hr as (g & Hg & Hr).
  apply list_elem_of_In, in_order_done_elem_of, list_elem_of_In, filter_In in Hg as [Hg Hdone].
  exists g. split; [by apply list_elem_of_In|]. split; [|by apply list_elem_of_In].
  unfold ended in Hdone. lia.
Qed.

(** Something read off the world that a worker of the right sort does
    not change. *)
Context {X : Type}.
Variable obs : World → X.
Variable good : ProbeRun A → Prop.
Hypothesis absorb_obs : ∀ r w, good r → obs (absorb r w) = obs w.

Lemma absorb_all_obs l : ∀ w,
  Forall (λ f, good (fut_run f)) l → obs (absorb_all l w) = obs w.
Proof.
  unfold absorb_all. induction l as [|f l IH]; intros w Hl; cbn [foldl]; [done|].
  apply Forall_cons in Hl as [Hf Hl]. rewrite IH by done. by apply absorb_obs.
Qed.

Lemma written_obs (now : Z) pending (w : World) :
  Forall (λ f, good (fut_run f)) pending → obs (written now pending w) = obs w.
Proof.
  intros Hp. unfold written. apply absorb_all_obs.
  by apply in_order_done_Forall, Forall_list_filter.
Qed.

Lemma finished_obs pending (w : World) :
  Forall (λ f, good (fut_run f)) pending →
  obs (absorb_all (in_order_done pending) w) = obs w.
Proof. intros Hp. by apply absorb_all_obs, in_order_done_Forall. Qed.
End Workers.

(** ** What the loop adds to the trace *)

Section LoopTrace.
Context {A : Type}.
Variable timeout : Z.
Variable merge : A → dict → dict.
Variable label : string.
(** A kind of event no worker produces. *)
Variable kind : event → bool.

Local Abbreviation quiet := (silent kind).

Lemma absorb_filter (r : ProbeRun A) (w : World) :
  quiet r →
  List.filter kind (w_trace (absorb r w)) = List.filter kind (w_trace w).
Proof.
  intros Hq. unfold absorb. simpl. rewrite List.filter_app, Hq. apply app_nil_r.
Qed.

Lemma collect_filter (st : Loop A) (f : Future A) :
  Forall (λ g, quiet (fut_run g)) (lp_pending st) →
  List.filter kind (w_trace (lp_world (collect timeout merge label st f)))
  = List.filter kind (w_trace (lp_world st))
  ∧ Forall (λ g, quiet (fut_run g)) (lp_pending (collect timeout merge label st f)).
Proof.
  intros Hp. unfold collect.
  destruct (future_result timeout (lp_clock st) f) as [[v|e|] now];
    cbn [lp_world lp_pending emit w_trace];
    (split; [|by apply Forall_list_filter]);
    by apply (written_obs (λ w, List.filter kind (w_trace w)) quiet absorb_filter).
Qed.

Lemma loop_filter (futures : list (Future A)) : ∀ st,
  Forall (λ g, quiet (fut_run g)) (lp_pending st) →
  List.filter kind (w_trace (lp_world (foldl (collect timeout merge label) st futures)))
  = List.filter kind (w_trace (lp_world st))
  ∧ Forall (λ g, quiet (fut_run g))
      (lp_pending (foldl (collect timeout merge label) st futures)).
Proof.
  induction futures as [|f rest IH]; intros st Hp; simpl; [done|].
  destruct (collect_filter st f) as [Htr Hl]; [done|].
  destruct (IH (collect timeout merge label st f)) as [Htr' Hl']; [done|].
  split; [|done]. by rewrite Htr', Htr.
Qed.

Lemma gather_filter (results : dict) (w : World) (futures : list (Future A)) :
  Forall (λ f, quiet (fut_run f)) futures →
  List.filter kind (w_trace (gather timeout merge label results w futures).2)
  = List.filter kind (w_trace w).
Proof.
  intros Hq. unfold gather. cbn [snd].
  destruct (loop_filter futures (mkLoop 0 results w futures)) as [Htr Hl]; [done|].
  rewrite (finished_obs (λ w, List.filter kind (w_trace w)) quiet absorb_filter) by done.
  by rewrite Htr.
Qed.

Lemma submit_from_quiet (env : Env) (probes : list (string * string * ProbeRun A)) : ∀ n,
  Forall (λ p, quiet p.2) probes →
  Forall (λ f, quiet (fut_run f)) (submit_from env n probes).
Proof.
  induction probes as [|[[name arg] run] rest IH]; intros n Hq; simpl; [by constructor|].
  inversion Hq; subst. constructor; [done|]. by apply IH.
Qed.
End LoopTrace.

Lemma submissions_are_submits {A : Type} (probes : list (string * string * ProbeRun A)) :
  List.filter is_submit (submissions probes) = submissions probes.
Proof. induction probes as [|p rest IH]; simpl; [done|]. by rewrite IH. Qed.

Lemma submissions_not_open {A : Type} (probes : list (string * string * ProbeRun A)) :
  List.filter is_open (submissions probes) = [].
Proof. induction probes as [|p rest IH]; simpl; done. Qed.

(** ** Writing the log file *)

Lemma write_json_trace (env : Env) (folder name : string) (d : dict) (w : World) :
  w_trace (final (write_json env folder name d w))
  = (w_trace w ++ [OpenW (os_path_join folder name)])%list
  ∧ w_log (final (write_json env folder name d w)) = w_log w.
Proof.
  unfold write_json. cbn [perform w_fs w_trace w_log].
  destruct (w_fs w !! folder) as [entries|]; [|done].
  destruct (open_error env _); [done|].
  destruct (dump_error env _); done.
Qed.

Lemma write_json_ok (env : Env) (folder name : string) (d : dict) (w : World)
    (entries : gmap string content) :
  w_fs w !! folder = Some entries →
  open_error env (os_path_join folder name) = None →
  dump_error env (os_path_join folder name) = None →
  write_json env folder name d w
  = Returns (set_fs (<[folder := <[name := Json d]> entries]> (w_fs w))
               (perform (OpenW (os_path_join folder name)) w)).
Proof.
  intros Hf Ho Hd. unfold write_json. cbn [perform w_fs w_trace w_log].
  by rewrite Hf, Ho, Hd.
Qed.

(** Why a write did not go through: the directory is not there, [open]
    refuses, or [json.dump] breaks off. *)
Lemma write_json_fails (env : Env) (folder name : string) (d : dict) (w : World) :
  w_fs w !! folder = None
  ∨ is_Some (open_error env (os_path_join folder name))
  ∨ is_Some (dump_error env (os_path_join folder name)) →
  ∃ e w', write_json env folder name d w = Raises e w'.
Proof.
  intros Hwhy. unfold write_json. cbn [perform w_fs w_trace w_log].
  destruct (w_fs w !! folder) as [entries|] eqn:Hf.
  - destruct (open_error env _) as [e|] eqn:Ho; [by eexists _, _|].
    destruct (dump_error env _) as [e|] eqn:Hd; [by eexists _, _|].
    destruct Hwhy as [?|[[? ?]|[? ?]]]; congruence.
  - by eexists _, _.
Qed.

(** ** [os.makedirs] *)

Lemma makedirs_cases (env : Env) (path : string) (w : World) :
  (∃ e, makedirs_error env path = Some e
        ∧ os_makedirs env path w = Raises e (perform (Makedirs path) w))
  ∨ (makedirs_error env path = None
     ∧ ∃ w', os_makedirs env path w = Returns w'
             ∧ w_log w' = w_log w
             ∧ w_trace w' = (w_trace w ++ [Makedirs path])%list
             ∧ (w_fs w' = w_fs w
                ∨ (w_fs w !! path = None ∧ w_fs w' = <[path := ∅]> (w_fs w)))).
Proof.
  unfold os_makedirs. destruct (makedirs_error env path) as [e|] eqn:He.
  - left. by exists e.
  - right. split; [done|]. cbn [perform w_fs].
    destruct (w_fs w !! path) as [entries|] eqn:Hp.
    + eexists. split; [done|]. cbn. auto.
    + eexists. split; [done|]. cbn. auto.
Qed.
(** ** Workers that only talk to the network *)

Lemma network_only_silent {A : Type} (kind : event → bool) (r : ProbeRun A) :
  (∀ e, is_network e = true → kind e = false) →
  Forall (λ e, is_network e = true) (pr_io r) →
  silent kind r.
Proof.
  intros Hk Hr. unfold silent. induction Hr as [|e l He Hl IH]; [done|].
  cbn. by rewrite (Hk e He).
Qed.

Lemma submit_all_submits {A : Type} (env : Env)
    (probes : list (string * string * ProbeRun A)) (w : World) :
  List.filter is_submit (w_trace (submit_all env probes w).2)
  = (List.filter is_submit (w_trace w) ++ submissions probes)%list.
Proof.
  unfold submit_all. cbn [snd w_trace].
  by rewrite List.filter_app, submissions_are_submits.
Qed.

Lemma submit_all_opens {A : Type} (env : Env)
    (probes : list (string * string * ProbeRun A)) (w : World) :
  List.filter is_open (w_trace (submit_all env probes w).2) = List.filter is_open (w_trace w).
Proof.
  unfold submit_all. cbn [snd w_trace].
  by rewrite List.filter_app, submissions_not_open, app_nil_r.
Qed.

Lemma submit_all_fs {A : Type} (env : Env)
    (probes : list (string * string * ProbeRun A)) (w : World) :
  w_fs (submit_all env probes w).2 = w_fs w.
Proof. done. Qed.

Lemma snd_pair {X Y : Type} (x : X) (y : Y) : (x, y).2 = y.
Proof. reflexivity. Qed.

(** ** Facts about [EmailModule] *)

Section EmailFacts.
Import EmailModule.
Variable env : Env.
Implicit Types (self : EmailModule.t) (w : World).

Lemma email_guard self w :
  str_truthy (target_email self) = false →
  execute env self w = Returns (self, emit ERROR "No target email specified" w).
Proof. intros Ht. unfold execute. by rewrite Ht. Qed.

Lemma email_probes_network (email : string) :
  Forall (λ p, Forall (λ e, is_network e = true) (pr_io p.2)) (probes env email).
Proof.
  unfold probes. repeat constructor; cbn [snd].
  - unfold _check_breaches. destruct (requests_get env _) as [status [v|e]|e];
      try destruct (status =? 200); by repeat constructor.
  - unfold _check_reputation. destruct (requests_get env _) as [status [v|e]|e];
      try destruct (status =? 200); by repeat constructor.
Qed.

Lemma email_probes_silent (email : string) (kind : event → bool) :
  (∀ e, is_network e = true → kind e = false) →
  Forall (λ p, silent kind p.2) (probes env email).
Proof.
  intros Hk. eapply Forall_impl; [apply email_probes_network|].
  intros p Hp. by apply (network_only_silent kind).
Qed.

Lemma email_ensure_output self w :
  makedirs_error env "./email_results" = None →
  ∃ s, ensure_output env self w = Returns s
       ∧ target_email s.1 = target_email self
       ∧ results s.1 = results self
       ∧ is_Some (output_folder s.1)
       ∧ w_log s.2 = w_log w
       ∧ List.filter is_submit (w_trace s.2) = List.filter is_submit (w_trace w)
       ∧ List.filter is_open (w_trace s.2) = List.filter is_open (w_trace w).
Proof.
  intros Hm. unfold ensure_output.
  destruct (str_truthy (output_folder self)) eqn:Hf; cbn [negb].
  - exists (self, w). cbn [fst snd].
    assert (is_Some (output_folder self)) as Hsome
      by (destruct (output_folder self); [by eexists | discriminate Hf]).
    by repeat (split; [done|]).
  - destruct (makedirs_cases env "./email_results" w)
      as [(e & He & _)|(_ & w' & -> & Hlog & Htr & _)]; [congruence|].
    eexists. split; [done|]. cbn [beside fst snd target_email results output_folder].
    rewrite Htr, !List.filter_app. cbn. rewrite !app_nil_r.
    assert (is_Some (Some "./email_results")) as Hsome by (by eexists).
    by repeat (split; [done|]).
Qed.

(** A refusal of [os.makedirs] for the default folder is the one way
    out of [ensure_output] by an exception; the instance keeps its
    target and results. *)
Lemma email_ensure_output_final self w :
  target_email (final (ensure_output env self w)).1 = target_email self
  ∧ results (final (ensure_output env self w)).1 = results self.
Proof.
  unfold ensure_output. destruct (negb (str_truthy (output_folder self))); [|done].
  by destruct (os_makedirs env "./email_results" w).
Qed.

Lemma email_scan_eq self w :
  scan env self w
  = (mk (target_email self) (output_folder self)
       (gather (seconds 10) merge "Service error: " (results self)
          (submit_all env (probes env (default "" (target_email self))) w).2
          (submit_all env (probes env (default "" (target_email self))) w).1).1,
     (gather (seconds 10) merge "Service error: " (results self)
          (submit_all env (probes env (default "" (target_email self))) w).2
          (submit_all env (probes env (default "" (target_email self))) w).1).2).
Proof. reflexivity. Qed.

Lemma email_scan_world self w :
  (scan env self w).2
  = (gather (seconds 10) merge "Service error: " (results self)
          (submit_all env (probes env (default "" (target_email self))) w).2
          (submit_all env (probes env (default "" (target_email self))) w).1).2.
Proof. rewrite email_scan_eq. apply snd_pair. Qed.

Lemma email_scan_results self w :
  results (scan env self w).1
  = foldl (settle merge) (results self)
      (ledger (seconds 10) 0 (submit_from env 0 (probes env (default "" (target_email self))))).
Proof. rewrite email_scan_eq. cbn [fst results]. by rewrite gather_results. Qed.

Lemma email_scan_target self w : target_email (scan env self w).1 = target_email self.
Proof. by rewrite email_scan_eq. Qed.

Lemma email_scan_folder self w : output_folder (scan env self w).1 = output_folder self.
Proof. by rewrite email_scan_eq. Qed.

Lemma email_scan_fs self w : w_fs (scan env self w).2 = w_fs w.
Proof. rewrite email_scan_world, gather_fs. apply submit_all_fs. Qed.

Lemma email_scan_submits self w :
  List.filter is_submit (w_trace (scan env self w).2)
  = (List.filter is_submit (w_trace w) ++ submissions (probes env (default "" (target_email self))))%list.
Proof.
  rewrite email_scan_world.
  etransitivity; [apply gather_filter|].
  - apply submit_from_quiet. apply email_probes_silent. by intros [].
  - apply submit_all_submits.
Qed.

Lemma email_scan_opens self w :
  List.filter is_open (w_trace (scan env self w).2) = List.filter is_open (w_trace w).
Proof.
  rewrite email_scan_world.
  etransitivity; [apply gather_filter|].
  - apply submit_from_quiet. apply email_probes_silent. by intros [].
  - apply submit_all_opens.
Qed.

Lemma email_save_empty self w :
  results self = ∅ →
  _save_results env self w = Returns (self, emit WARNING "No results to save" w).
Proof.
  intros Hr. unfold _save_results, dict_truthy. rewrite Hr.
  by rewrite bool_decide_eq_true_2.
Qed.

(** [_save_results] never touches the instance. *)
Lemma email_save_self self w : (final (_save_results env self w)).1 = self.
Proof.
  unfold _save_results.
  destruct (negb (dict_truthy (results self))); [done|].
  destruct (output_folder self) as [folder|]; [|done].
  destruct (write_json env folder _ (results self) _); done.
Qed.

Lemma email_save_submits self w :
  List.filter is_submit (w_trace (final (_save_results env self w)).2)
  = List.filter is_submit (w_trace w).
Proof.
  unfold _save_results.
  destruct (negb (dict_truthy (results self))); [done|].
  destruct (output_folder self) as [folder|]; cbn [final snd].
  - destruct (write_json_trace env folder
                ("EmailLog_" +:+ strftime (datetime_now env) +:+ ".json")
                (results self) w) as [Htr _].
    destruct (write_json env folder _ (results self) w); cbn [final snd emit w_trace] in *;
      rewrite Htr, List.filter_app; cbn; by rewrite app_nil_r.
  - done.
Qed.

Lemma email_execute_run self w (s : EmailModule.t * World) :
  str_truthy (target_email self) = true →
  ensure_output env self w = Returns s →
  execute env self w
  = and_then
      (_save_results env
         (scan env s.1 (emit INFO ("Starting email reconnaissance on: " +:+ default "" (target_email s.1)) s.2)).1
         (scan env s.1 (emit INFO ("Starting email reconnaissance on: " +:+ default "" (target_email s.1)) s.2)).2)
      (λ s, Returns (s.1, emit INFO "Email reconnaissance completed" s.2)).
Proof. intros Ht Hs. unfold execute. by rewrite Ht, Hs. Qed.
End EmailFacts.

(** ** Facts about [TraceModule] *)

Section TraceFacts.
Import TraceModule.
Variable env : Env.
Implicit Types (self : TraceModule.t) (w : World).

Lemma trace_guard self w :
  str_truthy (target_ip self) = false →
  execute env self w = Returns (self, emit ERROR "No target IP specified" w).
Proof. intros Ht. unfold execute. by rewrite Ht. Qed.

Lemma trace_probes_network (ip : string) :
  Forall (λ p, Forall (λ e, is_network e = true) (pr_io p.2)) (probes env ip).
Proof.
  unfold probes. repeat constructor; cbn [snd].
  - unfold _geoip_lookup. destruct (requests_get env _) as [status [v|e]|e];
      try destruct (status =? 200); by repeat constructor.
  - unfold _asn_lookup. destruct (requests_get env _) as [status [v|e]|e];
      try destruct (status =? 200); by repeat constructor.
  - unfold _dns_reverse. destruct (gethostbyaddr env ip); by repeat constructor.
Qed.

Lemma trace_probes_silent (ip : string) (kind : event → bool) :
  (∀ e, is_network e = true → kind e = false) →
  Forall (λ p, silent kind p.2) (probes env ip).
Proof.
  intros Hk. eapply Forall_impl; [apply trace_probes_network|].
  intros p Hp. by apply (network_only_silent kind).
Qed.

Lemma trace_ensure_output self w :
  makedirs_error env "./trace_results" = None →
  ∃ s, ensure_output env self w = Returns s
       ∧ target_ip s.1 = target_ip self
       ∧ results s.1 = results self
       ∧ is_Some (output_folder s.1)
       ∧ w_log s.2 = w_log w
       ∧ List.filter is_submit (w_trace s.2) = List.filter is_submit (w_trace w)
       ∧ List.filter is_open (w_trace s.2) = List.filter is_open (w_trace w).
Proof.
  intros Hm. unfold ensure_output.
  destruct (str_truthy (output_folder self)) eqn:Hf; cbn [negb].
  - exists (self, w). cbn [fst snd].
    assert (is_Some (output_folder self)) as Hsome
      by (destruct (output_folder self); [by eexists | discriminate Hf]).
    by repeat (split; [done|]).
  - destruct (makedirs_cases env "./trace_results" w)
      as [(e & He & _)|(_ & w' & -> & Hlog & Htr & _)]; [congruence|].
    eexists. split; [done|]. cbn [beside fst snd target_ip results output_folder].
    rewrite Htr, !List.filter_app. cbn. rewrite !app_nil_r.
    assert (is_Some (Some "./trace_results")) as Hsome by (by eexists).
    by repeat (split; [done|]).
Qed.

(** A refusal of [os.makedirs] for the default folder is the one way
    out of [ensure_output] by an exception; the instance keeps its
    target and results. *)
Lemma trace_ensure_output_final self w :
  target_ip (final (ensure_output env self w)).1 = target_ip self
  ∧ results (final (ensure_output env self w)).1 = results self.
Proof.
  unfold ensure_output. destruct (negb (str_truthy (output_folder self))); [|done].
  by destruct (os_makedirs env "./trace_results" w).
Qed.

Lemma trace_scan_eq self w :
  scan env self w
  = (mk (target_ip self) (output_folder self)
       (gather (seconds 15) merge "Trace service error: " (results self)
          (submit_all env (probes env (default "" (target_ip self))) w).2
          (submit_all env (probes env (default "" (target_ip self))) w).1).1,
     (gather (seconds 15) merge "Trace service error: " (results self)
          (submit_all env (probes env (default "" (target_ip self))) w).2
          (submit_all env (probes env (default "" (target_ip self))) w).1).2).
Proof. reflexivity. Qed.

Lemma trace_scan_world self w :
  (scan env self w).2
  = (gather (seconds 15) merge "Trace service error: " (results self)
          (submit_all env (probes env (default "" (target_ip self))) w).2
          (submit_all env (probes env (default "" (target_ip self))) w).1).2.
Proof. rewrite trace_scan_eq. apply snd_pair. Qed.

Lemma trace_scan_results self w :
  results (scan env self w).1
  = foldl (settle merge) (results self)
      (ledger (seconds 15) 0 (submit_from env 0 (probes env (default "" (target_ip self))))).
Proof. rewrite trace_scan_eq. cbn [fst results]. by rewrite gather_results. Qed.

Lemma trace_scan_target self w : target_ip (scan env self w).1 = target_ip self.
Proof. by rewrite trace_scan_eq. Qed.

Lemma trace_scan_folder self w : output_folder (scan env self w).1 = output_folder self.
Proof. by rewrite trace_scan_eq. Qed.

Lemma trace_scan_fs self w : w_fs (scan env self w).2 = w_fs w.
Proof. rewrite trace_scan_world, gather_fs. apply submit_all_fs. Qed.

Lemma trace_scan_submits self w :
  List.filter is_submit (w_trace (scan env self w).2)
  = (List.filter is_submit (w_trace w) ++ submissions (probes env (default "" (target_ip self))))%list.
Proof.
  rewrite trace_scan_world.
  etransitivity; [apply gather_filter|].
  - apply submit_from_quiet. apply trace_probes_silent. by intros [].
  - apply submit_all_submits.
Qed.

Lemma trace_scan_opens self w :
  List.filter is_open (w_trace (scan env self w).2) = List.filter is_open (w_trace w).
Proof.
  rewrite trace_scan_world.
  etransitivity; [apply gather_filter|].
  - apply submit_from_quiet. apply trace_probes_silent. by intros [].
  - apply submit_all_opens.
Qed.

Lemma trace_save_empty self w :
  results self = ∅ →
  _save_results env self w = Returns (self, emit WARNING "No results to save" w).
Proof.
  intros Hr. unfold _save_results, dict_truthy. rewrite Hr.
  by rewrite bool_decide_eq_true_2.
Qed.

(** [_save_results] never touches the instance. *)
Lemma trace_save_self self w : (final (_save_results env self w)).1 = self.
Proof.
  unfold _save_results.
  destruct (negb (dict_truthy (results self))); [done|].
  destruct (output_folder self) as [folder|]; [|done].
  destruct (write_json env folder _ (results self) _); done.
Qed.

Lemma trace_save_submits self w :
  List.filter is_submit (w_trace (final (_save_results env self w)).2)
  = List.filter is_submit (w_trace w).
Proof.
  unfold _save_results.
  destruct (negb (dict_truthy (results self))); [done|].
  destruct (output_folder self) as [folder|]; cbn [final snd].
  - destruct (write_json_trace env folder
                ("TraceLog_" +:+ strftime (datetime_now env) +:+ ".json")
                (results self) w) as [Htr _].
    destruct (write_json env folder _ (results self) w); cbn [final snd emit w_trace] in *;
      rewrite Htr, List.filter_app; cbn; by rewrite app_nil_r.
  - done.
Qed.

Lemma trace_execute_run self w (s : TraceModule.t * World) :
  str_truthy (target_ip self) = true →
  ensure_output env self w = Returns s →
  execute env self w
  = and_then
      (_save_results env
         (scan env s.1 (emit INFO ("Starting IP trace on: " +:+ default "" (target_ip s.1)) s.2)).1
         (scan env s.1 (emit INFO ("Starting IP trace on: " +:+ default "" (target_ip s.1)) s.2)).2)
      (λ s, Returns (s.1, emit INFO "IP trace completed" s.2)).
Proof. intros Ht Hs. unfold execute. by rewrite Ht, Hs. Qed.
End TraceFacts.

(** ** Facts about [UsernameModule] *)

Section UsernameFacts.
Import UsernameModule.
Variable env : Env.
Implicit Types (self : UsernameModule.t) (w : World).

Lemma username_guard self w :
  str_truthy (target_username self) = false →
  execute env self w = Returns (self, emit ERROR "No target username specified" w).
Proof. intros Ht. unfold execute. by rewrite Ht. Qed.

Lemma username_probes_target self self' :
  target_username self = target_username self' →
  platforms self = platforms self' →
  probes env self = probes env self'.
Proof.
  intros Ht Hp. unfold probes. rewrite Hp. apply map_ext. intros [platform url].
  unfold _check_platform, target_text. by rewrite Ht.
Qed.

Lemma username_probes_network self :
  Forall (λ p, Forall (λ e, is_network e = true) (pr_io p.2)) (probes env self).
Proof.
  unfold probes. apply List.Forall_map. apply Forall_forall. intros [platform url] _.
  cbn [snd]. unfold _check_platform.
  destruct (requests_head env _) as [status b|e];
    try destruct (found_status status); by repeat constructor.
Qed.

Lemma username_probes_silent self (kind : event → bool) :
  (∀ e, is_network e = true → kind e = false) →
  Forall (λ p, silent kind p.2) (probes env self).
Proof.
  intros Hk. eapply Forall_impl; [apply username_probes_network|].
  intros p Hp. by apply (network_only_silent kind).
Qed.

Lemma username_ensure_output self w :
  makedirs_error env "./username_results" = None →
  ∃ s, ensure_output env self w = Returns s
       ∧ target_username s.1 = target_username self
       ∧ results s.1 = results self
       ∧ is_Some (output_folder s.1)
       ∧ w_log s.2 = w_log w
       ∧ List.filter is_submit (w_trace s.2) = List.filter is_submit (w_trace w)
       ∧ List.filter is_open (w_trace s.2) = List.filter is_open (w_trace w).
Proof.
  intros Hm. unfold ensure_output.
  destruct (str_truthy (output_folder self)) eqn:Hf; cbn [negb].
  - exists (self, w). cbn [fst snd].
    assert (is_Some (output_folder self)) as Hsome
      by (destruct (output_folder self); [by eexists | discriminate Hf]).
    by repeat (split; [done|]).
  - destruct (makedirs_cases env "./username_results" w)
      as [(e & He & _)|(_ & w' & -> & Hlog & Htr & _)]; [congruence|].
    eexists. split; [done|]. cbn [beside fst snd target_username results output_folder platforms].
    rewrite Htr, !List.filter_app. cbn. rewrite !app_nil_r.
    assert (is_Some (Some "./username_results")) as Hsome by (by eexists).
    by repeat (split; [done|]).
Qed.

(** A refusal of [os.makedirs] for the default folder is the one way
    out of [ensure_output] by an exception; the instance keeps its
    target and results. *)
Lemma username_ensure_output_final self w :
  target_username (final (ensure_output env self w)).1 = target_username self
  ∧ results (final (ensure_output env self w)).1 = results self.
Proof.
  unfold ensure_output. destruct (negb (str_truthy (output_folder self))); [|done].
  by destruct (os_makedirs env "./username_results" w).
Qed.

Lemma username_scan_eq self w :
  scan env self w
  = (mk (target_username self) (output_folder self)
       (gather (seconds 10) merge "Platform check error: " (results self)
          (submit_all env (probes env self) w).2
          (submit_all env (probes env self) w).1).1 (platforms self),
     (gather (seconds 10) merge "Platform check error: " (results self)
          (submit_all env (probes env self) w).2
          (submit_all env (probes env self) w).1).2).
Proof. reflexivity. Qed.

Lemma username_scan_world self w :
  (scan env self w).2
  = (gather (seconds 10) merge "Platform check error: " (results self)
          (submit_all env (probes env self) w).2
          (submit_all env (probes env self) w).1).2.
Proof. rewrite username_scan_eq. apply snd_pair. Qed.

Lemma username_scan_results self w :
  results (scan env self w).1
  = foldl (settle merge) (results self)
      (ledger (seconds 10) 0 (submit_from env 0 (probes env self))).
Proof. rewrite username_scan_eq. cbn [fst results]. by rewrite gather_results. Qed.

Lemma username_scan_target self w : target_username (scan env self w).1 = target_username self.
Proof. by rewrite username_scan_eq. Qed.

Lemma username_scan_folder self w : output_folder (scan env self w).1 = output_folder self.
Proof. by rewrite username_scan_eq. Qed.

Lemma username_scan_fs self w : w_fs (scan env self w).2 = w_fs w.
Proof. rewrite username_scan_world, gather_fs. apply submit_all_fs. Qed.

Lemma username_scan_submits self w :
  List.filter is_submit (w_trace (scan env self w).2)
  = (List.filter is_submit (w_trace w) ++ submissions (probes env self))%list.
Proof.
  rewrite username_scan_world.
  etransitivity; [apply gather_filter|].
  - apply submit_from_quiet. apply username_probes_silent. by intros [].
  - apply submit_all_submits.
Qed.

Lemma username_scan_opens self w :
  List.filter is_open (w_trace (scan env self w).2) = List.filter is_open (w_trace w).
Proof.
  rewrite username_scan_world.
  etransitivity; [apply gather_filter|].
  - apply submit_from_quiet. apply username_probes_silent. by intros [].
  - apply submit_all_opens.
Qed.

Lemma username_save_empty self w :
  results self = ∅ →
  _save_results env self w = Returns (self, emit WARNING "No results to save" w).
Proof.
  intros Hr. unfold _save_results, dict_truthy. rewrite Hr.
  by rewrite bool_decide_eq_true_2.
Qed.

(** [_save_results] never touches the instance. *)
Lemma username_save_self self w : (final (_save_results env self w)).1 = self.
Proof.
  unfold _save_results.
  destruct (negb (dict_truthy (results self))); [done|].
  destruct (output_folder self) as [folder|].
  - destruct (os_listdir env folder _) as [entries|e]; [|done].
    destruct (write_json env folder _ (results self) _); done.
  - by destruct (listdir_error env ".").
Qed.

Lemma username_save_submits self w :
  List.filter is_submit (w_trace (final (_save_results env self w)).2)
  = List.filter is_submit (w_trace w).
Proof.
  unfold _save_results.
  destruct (negb (dict_truthy (results self))); [done|].
  destruct (output_folder self) as [folder|]; cbn [final snd].
  - destruct (os_listdir env folder _) as [entries|e]; cbn [final snd].
    + destruct (write_json_trace env folder
                  ("Log" +:+ pretty (size entries + 1)%nat +:+ ".json")
                  (results self) (perform (Listdir folder) w)) as [Htr _].
      destruct (write_json env folder _ (results self) _);
        cbn [final snd emit w_trace perform] in *;
        rewrite Htr, !List.filter_app; cbn; by rewrite !app_nil_r.
    + cbn. rewrite List.filter_app. cbn. by rewrite app_nil_r.
  - destruct (listdir_error env "."); cbn; rewrite List.filter_app; cbn;
      by rewrite app_nil_r.
Qed.

Lemma username_execute_run self w (s : UsernameModule.t * World) :
  str_truthy (target_username self) = true →
  ensure_output env self w = Returns s →
  execute env self w
  = and_then
      (_save_results env
         (scan env s.1 (emit INFO ("Starting username reconnaissance on: " +:+ default "" (target_username s.1)) s.2)).1
         (scan env s.1 (emit INFO ("Starting username reconnaissance on: " +:+ default "" (target_username s.1)) s.2)).2)
      (λ s, Returns (s.1, emit INFO ("Username reconnaissance completed. Found "
                                 +:+ pretty (size (results s.1)) +:+ " matches") s.2)).
Proof. intros Ht Hs. unfold execute. by rewrite Ht, Hs. Qed.
End UsernameFacts.

(** ** What [ensure_output] leaves behind when it returns *)

Lemma email_ensure_output_inv (env : Env) (self : EmailModule.t) (w : World) (s : EmailModule.t * World) :
  EmailModule.ensure_output env self w = Returns s →
  EmailModule.target_email s.1 = EmailModule.target_email self
  ∧ EmailModule.results s.1 = EmailModule.results self
  ∧ is_Some (EmailModule.output_folder s.1)
  ∧ w_log s.2 = w_log w
  ∧ List.filter is_submit (w_trace s.2) = List.filter is_submit (w_trace w)
  ∧ List.filter is_open (w_trace s.2) = List.filter is_open (w_trace w)
  ∧ (w_fs s.2 = w_fs w
     ∨ (w_fs w !! "./email_results" = None ∧ w_fs s.2 = <[ "./email_results" := ∅ ]> (w_fs w))).
Proof.
  unfold EmailModule.ensure_output.
  destruct (str_truthy (EmailModule.output_folder self)) eqn:Hf; cbn [negb].
  - intros [= <-]. cbn [fst snd].
    assert (is_Some (EmailModule.output_folder self)) as Hsome
      by (destruct (EmailModule.output_folder self); [by eexists | discriminate Hf]).
    repeat (split; [done|]). by left.
  - destruct (makedirs_cases env "./email_results" w)
      as [(e & He & ->)|(_ & w' & -> & Hlog & Htr & Hfs)]; [done|].
    intros [= <-].
    cbn [beside fst snd EmailModule.target_email EmailModule.results EmailModule.output_folder].
    rewrite Htr, !List.filter_app. cbn. rewrite !app_nil_r.
    assert (is_Some (Some "./email_results")) as Hsome by (by eexists).
    by repeat (split; [done|]).
Qed.

Lemma trace_ensure_output_inv (env : Env) (self : TraceModule.t) (w : World) (s : TraceModule.t * World) :
  TraceModule.ensure_output env self w = Returns s →
  TraceModule.target_ip s.1 = TraceModule.target_ip self
  ∧ TraceModule.results s.1 = TraceModule.results self
  ∧ is_Some (TraceModule.output_folder s.1)
  ∧ w_log s.2 = w_log w
  ∧ List.filter is_submit (w_trace s.2) = List.filter is_submit (w_trace w)
  ∧ List.filter is_open (w_trace s.2) = List.filter is_open (w_trace w)
  ∧ (w_fs s.2 = w_fs w
     ∨ (w_fs w !! "./trace_results" = None ∧ w_fs s.2 = <[ "./trace_results" := ∅ ]> (w_fs w))).
Proof.
  unfold TraceModule.ensure_output.
  destruct (str_truthy (TraceModule.output_folder self)) eqn:Hf; cbn [negb].
  - intros [= <-]. cbn [fst snd].
    assert (is_Some (TraceModule.output_folder self)) as Hsome
      by (destruct (TraceModule.output_folder self); [by eexists | discriminate Hf]).
    repeat (split; [done|]). by left.
  - destruct (makedirs_cases env "./trace_results" w)
      as [(e & He & ->)|(_ & w' & -> & Hlog & Htr & Hfs)]; [done|].
    intros [= <-].
    cbn [beside fst snd TraceModule.target_ip TraceModule.results TraceModule.output_folder].
    rewrite Htr, !List.filter_app. cbn. rewrite !app_nil_r.
    assert (is_Some (Some "./trace_results")) as Hsome by (by eexists).
    by repeat (split; [done|]).
Qed.

Lemma username_ensure_output_inv (env : Env) (self : UsernameModule.t) (w : World) (s : UsernameModule.t * World) :
  UsernameModule.ensure_output env self w = Returns s →
  UsernameModule.target_username s.1 = UsernameModule.target_username self
  ∧ UsernameModule.results s.1 = UsernameModule.results self
  ∧ is_Some (UsernameModule.output_folder s.1)
  ∧ w_log s.2 = w_log w
  ∧ List.filter is_submit (w_trace s.2) = List.filter is_submit (w_trace w)
  ∧ List.filter is_open (w_trace s.2) = List.filter is_open (w_trace w)
  ∧ (w_fs s.2 = w_fs w
     ∨ (w_fs w !! "./username_results" = None ∧ w_fs s.2 = <[ "./username_results" := ∅ ]> (w_fs w))).
Proof.
  unfold UsernameModule.ensure_output.
  destruct (str_truthy (UsernameModule.output_folder self)) eqn:Hf; cbn [negb].
  - intros [= <-]. cbn [fst snd].
    assert (is_Some (UsernameModule.output_folder self)) as Hsome
      by (destruct (UsernameModule.output_folder self); [by eexists | discriminate Hf]).
    repeat (split; [done|]). by left.
  - destruct (makedirs_cases env "./username_results" w)
      as [(e & He & ->)|(_ & w' & -> & Hlog & Htr & Hfs)]; [done|].
    intros [= <-].
    cbn [beside fst snd UsernameModule.target_username UsernameModule.results UsernameModule.output_folder].
    rewrite Htr, !List.filter_app. cbn. rewrite !app_nil_r.
    assert (is_Some (Some "./username_results")) as Hsome by (by eexists).
    by repeat (split; [done|]).
Qed.

(** ** C1: which writer wins *)




(** ** C2: what a probe that did not succeed leaves in the results *)

(** [EmailModule.execute] either leaves the results alone (it stopped at the
    guard or at the creation of the default folder) or settles the ledger
    of its loop into them. *)
Lemma email_execute_results (env : Env) (self : EmailModule.t) (w : World) :
  EmailModule.results (final (EmailModule.execute env self w)).1 = EmailModule.results self
  ∨ EmailModule.results (final (EmailModule.execute env self w)).1
    = foldl (settle EmailModule.merge) (EmailModule.results self)
        (ledger (seconds 10) 0
           (submit_from env 0 (EmailModule.probes env (default "" (EmailModule.target_email self))))).
Proof.
  destruct (str_truthy (EmailModule.target_email self)) eqn:Ht.
  - destruct (EmailModule.ensure_output env self w) as [s|e s] eqn:Hs.
    + right. rewrite (email_execute_run env self w s Ht Hs).
      set (scanned := EmailModule.scan env s.1 _).
      pose proof (email_save_self env scanned.1 scanned.2) as Hself.
      assert (EmailModule.results scanned.1
              = foldl (settle EmailModule.merge) (EmailModule.results self)
                  (ledger (seconds 10) 0
                     (submit_from env 0
                        (EmailModule.probes env (default "" (EmailModule.target_email self)))))) as <-.
      { unfold scanned. rewrite email_scan_results.
        destruct (email_ensure_output_inv env self w s Hs) as (Htgt & Hres & _).
        by rewrite Hres, Htgt. }
      destruct (EmailModule._save_results env scanned.1 scanned.2) as [[s2 w2]|e [s2 w2]];
        cbn [and_then final fst] in *; by subst s2.
    + left. unfold EmailModule.execute. rewrite Ht, Hs. cbn [negb and_then final].
      pose proof (email_ensure_output_final env self w) as [_ Hres].
      by rewrite Hs in Hres.
  - left. by rewrite (email_guard env self w Ht).
Qed.

(** [TraceModule.execute] either leaves the results alone (it stopped at the
    guard or at the creation of the default folder) or settles the ledger
    of its loop into them. *)
Lemma trace_execute_results (env : Env) (self : TraceModule.t) (w : World) :
  TraceModule.results (final (TraceModule.execute env self w)).1 = TraceModule.results self
  ∨ TraceModule.results (final (TraceModule.execute env self w)).1
    = foldl (settle TraceModule.merge) (TraceModule.results self)
        (ledger (seconds 15) 0
           (submit_from env 0 (TraceModule.probes env (default "" (TraceModule.target_ip self))))).
Proof.
  destruct (str_truthy (TraceModule.target_ip self)) eqn:Ht.
  - destruct (TraceModule.ensure_output env self w) as [s|e s] eqn:Hs.
    + right. rewrite (trace_execute_run env self w s Ht Hs).
      set (scanned := TraceModule.scan env s.1 _).
      pose proof (trace_save_self env scanned.1 scanned.2) as Hself.
      assert (TraceModule.results scanned.1
              = foldl (settle TraceModule.merge) (TraceModule.results self)
                  (ledger (seconds 15) 0
                     (submit_from env 0
                        (TraceModule.probes env (default "" (TraceModule.target_ip self)))))) as <-.
      { unfold scanned. rewrite trace_scan_results.
        destruct (trace_ensure_output_inv env self w s Hs) as (Htgt & Hres & _).
        by rewrite Hres, Htgt. }
      destruct (TraceModule._save_results env scanned.1 scanned.2) as [[s2 w2]|e [s2 w2]];
        cbn [and_then final fst] in *; by subst s2.
    + left. unfold TraceModule.execute. rewrite Ht, Hs. cbn [negb and_then final].
      pose proof (trace_ensure_output_final env self w) as [_ Hres].
      by rewrite Hs in Hres.
  - left. by rewrite (trace_guard env self w Ht).
Qed.

(** Each email probe hands back one field, under its own name. *)
Lemma email_probe_values (env : Env) (email : string) :
  ∃ v1 v2 v3 v4,
    pr_value (EmailModule._check_breaches env email) = inl {[ "breaches" := v1 ]}
    ∧ pr_value (EmailModule._check_reputation env email) = inl {[ "reputation" := v2 ]}
    ∧ pr_value (EmailModule._verify_email env email) = inl {[ "verification" := v3 ]}
    ∧ pr_value (EmailModule._clearbit_enrichment env email) = inl {[ "enrichment" := v4 ]}.
Proof.
  unfold EmailModule._check_breaches, EmailModule._check_reputation,
    EmailModule._verify_email, EmailModule._clearbit_enrichment.
  destruct (requests_get env (EmailModule.services !!! "haveibeenpwned" +:+ "/" +:+ email))
    as [st1 [b1|e1]|e1]; try destruct (st1 =? 200);
    destruct (requests_get env (EmailModule.services !!! "emailrep" +:+ "/" +:+ email))
      as [st2 [b2|e2]|e2]; try destruct (st2 =? 200);
    cbn [pr_value]; by eexists _, _, _, _.
Qed.

Lemma trace_probe_values (env : Env) (ip : string) :
  ∃ v1 v2 v3 v4 v5,
    pr_value (TraceModule._geoip_lookup env ip) = inl {[ "geolocation" := v1 ]}
    ∧ pr_value (TraceModule._asn_lookup env ip) = inl {[ "asn_info" := v2 ]}
    ∧ pr_value (TraceModule._abuse_check env ip) = inl {[ "abuse_report" := v3 ]}
    ∧ pr_value (TraceModule._dns_reverse env ip) = inl {[ "dns_reverse" := v4 ]}
    ∧ pr_value (TraceModule._port_scan env ip) = inl {[ "open_ports" := v5 ]}.
Proof.
  unfold TraceModule._geoip_lookup, TraceModule._asn_lookup, TraceModule._abuse_check,
    TraceModule._dns_reverse, TraceModule._port_scan.
  destruct (requests_get env (TraceModule.services !!! "ipinfo" +:+ "/" +:+ ip +:+ "/json"))
    as [st1 [b1|e1]|e1]; try destruct (st1 =? 200);
    destruct (requests_get env
                ("https://asn.cymru.com/cgi-bin/whois.cgi?ip=" +:+ ip +:+ "&format=json"))
      as [st2 [b2|e2]|e2]; try destruct (st2 =? 200);
    destruct (gethostbyaddr env ip) as [h|e3];
    cbn [pr_value]; by eexists _, _, _, _, _.
Qed.

(** The [i]-th email probe hands back the [i]-th field and no other. *)
Lemma email_probe_field (env : Env) (email : string) (i : nat) (name arg : string)
    (run : ProbeRun dict) :
  EmailModule.probes env email !! i = Some (name, arg, run) →
  ∃ k v, email_fields !! i = Some k ∧ pr_value run = inl {[ k := v ]}.
Proof.
  intros Hprobe.
  destruct (email_probe_values env email) as (v1 & v2 & v3 & v4 & H1 & H2 & H3 & H4).
  unfold EmailModule.probes in Hprobe.
  destruct i as [|[|[|[|i]]]]; cbn in Hprobe; try discriminate Hprobe;
    injection Hprobe as _ _ <-; eexists _, _; (split; [reflexivity|]); done.
Qed.

Lemma trace_probe_field (env : Env) (ip : string) (i : nat) (name arg : string)
    (run : ProbeRun dict) :
  TraceModule.probes env ip !! i = Some (name, arg, run) →
  ∃ k v, trace_fields !! i = Some k ∧ pr_value run = inl {[ k := v ]}.
Proof.
  intros Hprobe.
  destruct (trace_probe_values env ip) as (v1 & v2 & v3 & v4 & v5 & H1 & H2 & H3 & H4 & H5).
  unfold TraceModule.probes in Hprobe.
  destruct i as [|[|[|[|[|i]]]]]; cbn in Hprobe; try discriminate Hprobe;
    injection Hprobe as _ _ <-; eexists _, _; (split; [reflexivity|]); done.
Qed.

Lemma email_fields_NoDup : NoDup email_fields.
Proof. apply (bool_decide_unpack _). vm_compute. exact I. Qed.

Lemma trace_fields_NoDup : NoDup trace_fields.
Proof. apply (bool_decide_unpack _). vm_compute. exact I. Qed.

Lemma email_save_log (env : Env) (self : EmailModule.t) (w : World) :
  is_Some (EmailModule.output_folder self) →
  ∃ w' r, EmailModule._save_results env self w = Returns (self, w')
          ∧ w_log w' = (w_log w ++ [r])%list
          ∧ save_record r.
Proof.
  intros [folder Hf]. unfold EmailModule._save_results. rewrite Hf.
  destruct (negb (dict_truthy (EmailModule.results self))).
  - eexists _, _. split; [done|]. split; [done|]. by left.
  - destruct (write_json_trace env folder
                ("EmailLog_" +:+ strftime (datetime_now env) +:+ ".json")
                (EmailModule.results self) w) as [_ Hlog].
    destruct (write_json env folder _ (EmailModule.results self) w) as [w'|e w'];
      cbn [final] in Hlog; eexists _, _; (split; [done|]);
      cbn [emit w_log]; rewrite Hlog; (split; [done|]); right.
    + left. by eexists.
    + right. by eexists.
Qed.

(** Whatever the workers meet, [EmailModule.execute] runs to its end once the
    target is set and the output folder can be had. *)
Lemma email_execute_completes (env : Env) (self : EmailModule.t) (w : World) :
  str_truthy (EmailModule.target_email self) = true →
  makedirs_error env "./email_results" = None →
  ∃ self' w' r,
    EmailModule.execute env self w = Returns (self', emit INFO "Email reconnaissance completed" w')
    ∧ EmailModule.results self'
      = foldl (settle EmailModule.merge) (EmailModule.results self)
          (ledger (seconds 10) 0
             (submit_from env 0 (EmailModule.probes env (default "" (EmailModule.target_email self)))))
    ∧ List.filter is_submit (w_trace w')
      = (List.filter is_submit (w_trace w)
           ++ submissions (EmailModule.probes env (default "" (EmailModule.target_email self))))%list
    ∧ (∃ earlier, w_log w' = (earlier ++ [r])%list)
    ∧ save_record r.
Proof.
  intros Ht Hm.
  destruct (email_ensure_output env self w Hm) as (s & Hs & Htgt & Hres & Hfolder & _ & Hsub & _).
  rewrite (email_execute_run env self w s Ht Hs).
  set (scanned := EmailModule.scan env s.1 _).
  assert (is_Some (EmailModule.output_folder scanned.1)) as Hsome
    by (unfold scanned; by rewrite email_scan_folder).
  destruct (email_save_log env scanned.1 scanned.2 Hsome) as (w' & r & Hsave & Hlog & Hrec).
  pose proof (email_save_submits env scanned.1 scanned.2) as Hsubmits.
  rewrite Hsave in Hsubmits |- *. cbn [and_then final fst snd] in *.
  exists scanned.1, w', r. split; [done|]. split; [|split; [|split]].
  - unfold scanned. by rewrite email_scan_results, Hres, Htgt.
  - rewrite Hsubmits. unfold scanned. rewrite email_scan_submits. cbn [emit w_trace].
    by rewrite Hsub, Htgt.
  - by eexists.
  - done.
Qed.

Lemma trace_save_log (env : Env) (self : TraceModule.t) (w : World) :
  is_Some (TraceModule.output_folder self) →
  ∃ w' r, TraceModule._save_results env self w = Returns (self, w')
          ∧ w_log w' = (w_log w ++ [r])%list
          ∧ save_record r.
Proof.
  intros [folder Hf]. unfold TraceModule._save_results. rewrite Hf.
  destruct (negb (dict_truthy (TraceModule.results self))).
  - eexists _, _. split; [done|]. split; [done|]. by left.
  - destruct (write_json_trace env folder
                ("TraceLog_" +:+ strftime (datetime_now env) +:+ ".json")
                (TraceModule.results self) w) as [_ Hlog].
    destruct (write_json env folder _ (TraceModule.results self) w) as [w'|e w'];
      cbn [final] in Hlog; eexists _, _; (split; [done|]);
      cbn [emit w_log]; rewrite Hlog; (split; [done|]); right.
    + left. by eexists.
    + right. by eexists.
Qed.

(** Whatever the workers meet, [TraceModule.execute] runs to its end once the
    target is set and the output folder can be had. *)
Lemma trace_execute_completes (env : Env) (self : TraceModule.t) (w : World) :
  str_truthy (TraceModule.target_ip self) = true →
  makedirs_error env "./trace_results" = None →
  ∃ self' w' r,
    TraceModule.execute env self w = Returns (self', emit INFO "IP trace completed" w')
    ∧ TraceModule.results self'
      = foldl (settle TraceModule.merge) (TraceModule.results self)
          (ledger (seconds 15) 0
             (submit_from env 0 (TraceModule.probes env (default "" (TraceModule.target_ip self)))))
    ∧ List.filter is_submit (w_trace w')
      = (List.filter is_submit (w_trace w)
           ++ submissions (TraceModule.probes env (default "" (TraceModule.target_ip self))))%list
    ∧ (∃ earlier, w_log w' = (earlier ++ [r])%list)
    ∧ save_record r.
Proof.
  intros Ht Hm.
  destruct (trace_ensure_output env self w Hm) as (s & Hs & Htgt & Hres & Hfolder & _ & Hsub & _).
  rewrite (trace_execute_run env self w s Ht Hs).
  set (scanned := TraceModule.scan env s.1 _).
  assert (is_Some (TraceModule.output_folder scanned.1)) as Hsome
    by (unfold scanned; by rewrite trace_scan_folder).
  destruct (trace_save_log env scanned.1 scanned.2 Hsome) as (w' & r & Hsave & Hlog & Hrec).
  pose proof (trace_save_submits env scanned.1 scanned.2) as Hsubmits.
  rewrite Hsave in Hsubmits |- *. cbn [and_then final fst snd] in *.
  exists scanned.1, w', r. split; [done|]. split; [|split; [|split]].
  - unfold scanned. by rewrite trace_scan_results, Hres, Htgt.
  - rewrite Hsubmits. unfold scanned. rewrite trace_scan_submits. cbn [emit w_trace].
    by rewrite Hsub, Htgt.
  - by eexists.
  - done.
Qed.

(** A loop whose probes each write the field of their place in a list
    of distinct names: a field is decided by the future of its place. *)
Section FieldOfPlace.
Context {A : Type}.
Variable merge : A → dict → dict.
Variable payload : A → dict.
Hypothesis merge_payload : ∀ a results, merge a results = payload a ∪ results.
Variable timeout : Z.
Hypothesis timeout_nonneg : 0 ≤ timeout.
Variable env : Env.
Variable probes : list (string * string * ProbeRun A).
Variable fields : list string.
Hypothesis fields_NoDup : NoDup fields.
Hypothesis probe_field : ∀ i name arg run,
  probes !! i = Some (name, arg, run) →
  ∃ k a, fields !! i = Some k ∧ pr_value run = inl a
         ∧ ∀ k', is_Some (payload a !! k') → k' = k.

Lemma got_field (j : nat) (a : A) (k : string) :
  ledger timeout 0 (submit_from env 0 probes) !! j = Some (Got a) →
  is_Some (payload a !! k) →
  fields !! j = Some k.
Proof.
  intros Hj Hk.
  destruct (ledger_got _ _ _ _ _ Hj) as (f & Hf & Hval).
  destruct (submit_from_lookup _ _ _ _ _ Hf) as (name & arg & Hprobe).
  destruct (probe_field j name arg (fut_run f) Hprobe) as (k' & a' & Hfield & Hval' & Honly).
  rewrite Hval' in Hval. injection Hval as ->. by rewrite (Honly k Hk).
Qed.

Lemma field_absent (results : dict) (i : nat) (k : string) :
  fields !! i = Some k →
  (∀ a, ledger timeout 0 (submit_from env 0 probes) !! i ≠ Some (Got a)) →
  results !! k = None →
  foldl (settle merge) results (ledger timeout 0 (submit_from env 0 probes)) !! k = None.
Proof.
  intros Hi Hnot Hnone.
  rewrite (settle_keeps merge payload merge_payload); [done|].
  intros a [j Hj]%list_elem_of_lookup.
  destruct (payload a !! k) as [v|] eqn:Hk; [|done].
  assert (fields !! j = Some k) as Hfj by (apply (got_field j a); [done | by rewrite Hk]).
  assert (j = i) as -> by (by apply (NoDup_lookup fields j i k)).
  by destruct (Hnot a).
Qed.

Lemma field_present (results : dict) (i : nat) (a : A) :
  ledger timeout 0 (submit_from env 0 probes) !! i = Some (Got a) →
  payload a ⊆ foldl (settle merge) results (ledger timeout 0 (submit_from env 0 probes)).
Proof.
  intros Hgot. apply map_subseteq_spec. intros k v Hk.
  apply (settle_last_writer merge payload merge_payload k v _ results i a Hgot Hk).
  intros j' a' Hlt Hj'.
  destruct (payload a' !! k) as [v'|] eqn:Hk'; [|done].
  assert (fields !! j' = Some k) by (apply (got_field j' a'); [done | by rewrite Hk']).
  assert (fields !! i = Some k) by (apply (got_field i a); [done | by rewrite Hk]).
  assert (j' = i) by (by apply (NoDup_lookup fields j' i k)). lia.
Qed.
End FieldOfPlace.

Lemma singleton_only (k k' : string) (v : pyval) :
  is_Some (({[ k := v ]} : dict) !! k') → k' = k.
Proof. intros [v' Hv]. by apply lookup_singleton_Some in Hv as [-> _]. Qed.

Lemma email_probe_place (env : Env) (email : string) (i : nat) (name arg : string)
    (run : ProbeRun dict) :
  EmailModule.probes env email !! i = Some (name, arg, run) →
  ∃ k a, email_fields !! i = Some k ∧ pr_value run = inl a
         ∧ ∀ k', is_Some (id a !! k') → k' = k.
Proof.
  intros Hprobe. destruct (email_probe_field env email i name arg run Hprobe)
    as (k & v & Hk & Hv).
  exists k, {[ k := v ]}. split; [done|]. split; [done|].
  intros k' Hk'. by apply (singleton_only k k' v).
Qed.

Lemma trace_probe_place (env : Env) (ip : string) (i : nat) (name arg : string)
    (run : ProbeRun dict) :
  TraceModule.probes env ip !! i = Some (name, arg, run) →
  ∃ k a, trace_fields !! i = Some k ∧ pr_value run = inl a
         ∧ ∀ k', is_Some (id a !! k') → k' = k.
Proof.
  intros Hprobe. destruct (trace_probe_field env ip i name arg run Hprobe)
    as (k & v & Hk & Hv).
  exists k, {[ k := v ]}. split; [done|]. split; [done|].
  intros k' Hk'. by apply (singleton_only k k' v).
Qed.

Lemma username_ensure_output_platforms (env : Env) (self : UsernameModule.t) (w : World) :
  UsernameModule.platforms (final (UsernameModule.ensure_output env self w)).1
  = UsernameModule.platforms self.
Proof.
  unfold UsernameModule.ensure_output.
  destruct (negb (str_truthy (UsernameModule.output_folder self))); [|done].
  by destruct (os_makedirs env "./username_results" w).
Qed.

(** [execute] either leaves the results alone (it stopped at the guard or
    at the creation of the default folder) or settles the ledger of its
    loop into them. *)
Lemma username_execute_results (env : Env) (self : UsernameModule.t) (w : World) :
  UsernameModule.results (final (UsernameModule.execute env self w)).1
    = UsernameModule.results self
  ∨ UsernameModule.results (final (UsernameModule.execute env self w)).1
    = foldl (settle UsernameModule.merge) (UsernameModule.results self)
        (ledger (seconds 10) 0 (submit_from env 0 (UsernameModule.probes env self))).
Proof.
  destruct (str_truthy (UsernameModule.target_username self)) eqn:Ht.
  - destruct (UsernameModule.ensure_output env self w) as [s|e s] eqn:Hs.
    + right. rewrite (username_execute_run env self w s Ht Hs).
      set (scanned := UsernameModule.scan env s.1 _).
      pose proof (username_save_self env scanned.1 scanned.2) as Hself.
      assert (UsernameModule.results scanned.1
              = foldl (settle UsernameModule.merge) (UsernameModule.results self)
                  (ledger (seconds 10) 0
                     (submit_from env 0 (UsernameModule.probes env self)))) as <-.
      { unfold scanned. rewrite username_scan_results.
        destruct (username_ensure_output_inv env self w s Hs) as (Htgt & Hres & _).
        pose proof (username_ensure_output_platforms env self w) as Hpl.
        rewrite Hs in Hpl. cbn [final] in Hpl.
        by rewrite Hres, (username_probes_target env s.1 self Htgt Hpl). }
      destruct (UsernameModule._save_results env scanned.1 scanned.2) as [[s2 w2]|e [s2 w2]];
        cbn [and_then final fst] in *; by subst s2.
    + left. unfold UsernameModule.execute. rewrite Ht, Hs. cbn [negb and_then final].
      pose proof (username_ensure_output_final env self w) as [_ Hres].
      by rewrite Hs in Hres.
  - left. by rewrite (username_guard env self w Ht).
Qed.

(** A platform's key in the results of a fresh run comes from the future
    of that very platform. *)
Lemma username_key_origin (env : Env) (self : UsernameModule.t) (i : nat)
    (platform url : string) :
  NoDup (UsernameModule.platforms self).*1 →
  UsernameModule.platforms self !! i = Some (platform, url) →
  is_Some (foldl (settle UsernameModule.merge) ∅
             (ledger (seconds 10) 0 (submit_from env 0 (UsernameModule.probes env self)))
           !! platform) →
  ∃ d, ledger (seconds 10) 0 (submit_from env 0 (UsernameModule.probes env self)) !! i
       = Some (Got (Some d)).
Proof.
  intros Hnodup Hi Hsome.
  destruct (settle_origin UsernameModule.merge (default ∅) username_merge_payload
              platform _ ∅ (lookup_empty _) Hsome) as (a & Hin & Hkey).
  apply list_elem_of_lookup in Hin as [i' Hi'].
  destruct (ledger_got _ _ _ _ _ Hi') as (f & Hf & Hval).
  destruct (submit_from_lookup _ _ _ _ _ Hf) as (name & arg & Hprobe).
  unfold UsernameModule.probes in Hprobe.
  apply map_lookup_inv in Hprobe as ([platform' url'] & Hpl & Heq).
  injection Heq as _ _ Hrun.
  rewrite Hrun in Hval. unfold UsernameModule._check_platform in Hval.
  assert (platform' = platform ∧ ∃ d, a = Some d) as [-> [d ->]].
  { destruct (requests_head env _) as [status b|e];
      [destruct (UsernameModule.found_status status)|]; cbn in Hval;
      injection Hval as <-; cbn in Hkey.
    - destruct Hkey as [v Hv]. apply lookup_singleton_Some in Hv as [-> _]. eauto.
    - rewrite lookup_empty in Hkey. by destruct Hkey.
    - rewrite lookup_empty in Hkey. by destruct Hkey. }
  assert (i' = i) as ->.
  { apply (NoDup_lookup _ i' i platform Hnodup); rewrite list_lookup_fmap.
    - by rewrite Hpl.
    - by rewrite Hi. }
  by exists d.
Qed.

(** A dict display has every key once. *)
Lemma set_item_keys (k v : string) (d : list (string * string)) :
  (set_item k v d).*1 = if decide (k ∈ d.*1) then d.*1 else (d.*1 ++ [k])%list.
Proof.
  induction d as [|[k' v'] d IH]; cbn.
  - by rewrite decide_False by (by intros ?%elem_of_nil).
  - destruct (String.eqb_spec k k') as [->|Hne]; cbn.
    + by rewrite decide_True by (by left).
    + rewrite IH. destruct (decide (k ∈ d.*1)) as [Hin|Hnin].
      * by rewrite decide_True by (by right).
      * rewrite decide_False; [done|]. by intros [?|?]%elem_of_cons.
Qed.

Lemma set_item_NoDup (k v : string) (d : list (string * string)) :
  NoDup d.*1 → NoDup (set_item k v d).*1.
Proof.
  intros Hd. rewrite set_item_keys. destruct (decide (k ∈ d.*1)) as [Hin|Hnin]; [done|].
  apply NoDup_app. split; [done|]. split.
  - intros x Hx ->%list_elem_of_singleton. done.
  - apply NoDup_singleton.
Qed.

Lemma dict_display_NoDup (items : list (string * string)) : NoDup (dict_display items).*1.
Proof.
  unfold dict_display.
  assert (∀ d : list (string * string),
            NoDup d.*1 → NoDup (foldl (λ d kv, set_item kv.1 kv.2 d) d items).*1) as H.
  { induction items as [|[k v] items IH]; intros d Hd; cbn; [done|].
    apply IH. by apply set_item_NoDup. }
  apply H. constructor.
Qed.

(** C2, as stated, fails.  In [Scenarios.email_offline_run] the breach
    check fails (the request raises, and the probe logs that the check
    failed), yet the results hold the probe's field [breaches]: the probe
    catches its own error and returns the payload [{'breaches': []}],
    which the loop merges like any other. *)
Lemma failed_breach_check_is_merged :
  requests_get Scenarios.offline "https://haveibeenpwned.com/api/v3/breachedaccount/a@b.co"
    = HttpError Scenarios.down
  ∧ In (WARNING, "Breach check failed: down") (w_log (final Scenarios.email_offline_run).2)
  ∧ EmailModule.results (final Scenarios.email_offline_run).1 !! "breaches"
    = Some (PList []).
Proof.
  split; [reflexivity|]. split; [|by vm_compute].
  assert (w_log (final Scenarios.email_offline_run).2
          = [ (INFO, "Email reconnaissance services initialized");
              (INFO, "Target email set: a@b.co");
              (INFO, "Starting email reconnaissance on: a@b.co");
              (WARNING, "Breach check failed: down");
              (WARNING, "Reputation check failed: down");
              (INFO, "Results saved to ./email_results/EmailLog_20240102_120000.json");
              (INFO, "Email reconnaissance completed") ]) as -> by (by vm_compute).
  cbn. tauto.
Qed.

(** C2 (amended).  A future whose [result()] raises or times out merges
    nothing: that turn of the loop leaves [self.results] as it was, and
    the results of the run hold none of the fields of its probe unless
    they held them before.  For [UsernameModule], whose failing probes
    return [None], a platform whose future did not hand back a mapping
    (it failed, raised or timed out) has no key in the results of a run
    that started with empty results.  What tells is the outcome of the
    future, not that of the probe: the email and trace probes that meet a
    network error catch it and return a default payload, and a payload
    that a future hands back to the loop is in the results of the run
    whether it is an answer or the default. *)
Theorem unsuccessful_probe_merges_nothing :
  (∀ (A : Type) (timeout : Z) (merge : A → dict → dict) (label : string)
     (st : Loop A) (f : Future A),
     (∀ v, (future_result timeout (lp_clock st) f).1 ≠ Got v) →
     lp_results (collect timeout merge label st f) = lp_results st)
  ∧ (∀ (env : Env) (self : UsernameModule.t) (w : World) (i : nat) (platform url : string),
     UsernameModule.results self = ∅ →
     NoDup (UsernameModule.platforms self).*1 →
     UsernameModule.platforms self !! i = Some (platform, url) →
     (∀ d, ledger (seconds 10) 0 (submit_from env 0 (UsernameModule.probes env self)) !! i
           ≠ Some (Got (Some d))) →
     UsernameModule.results (final (UsernameModule.execute env self w)).1 !! platform = None)
  ∧ (∀ (env : Env) (self : EmailModule.t) (w : World) (i : nat) (name arg : string)
       (run : ProbeRun dict) (payload : dict) (key : string),
     EmailModule.probes env (default "" (EmailModule.target_email self)) !! i
     = Some (name, arg, run) →
     pr_value run = inl payload →
     is_Some (payload !! key) →
     (∀ v, ledger (seconds 10) 0
             (submit_from env 0
                (EmailModule.probes env (default "" (EmailModule.target_email self)))) !! i
           ≠ Some (Got v)) →
     EmailModule.results self !! key = None →
     EmailModule.results (final (EmailModule.execute env self w)).1 !! key = None)
  ∧ (∀ (env : Env) (self : TraceModule.t) (w : World) (i : nat) (name arg : string)
       (run : ProbeRun dict) (payload : dict) (key : string),
     TraceModule.probes env (default "" (TraceModule.target_ip self)) !! i
     = Some (name, arg, run) →
     pr_value run = inl payload →
     is_Some (payload !! key) →
     (∀ v, ledger (seconds 15) 0
             (submit_from env 0
                (TraceModule.probes env (default "" (TraceModule.target_ip self)))) !! i
           ≠ Some (Got v)) →
     TraceModule.results self !! key = None →
     TraceModule.results (final (TraceModule.execute env self w)).1 !! key = None)
  ∧ (∀ (env : Env) (self : EmailModule.t) (w : World) (i : nat) (payload : dict),
     str_truthy (EmailModule.target_email self) = true →
     makedirs_error env "./email_results" = None →
     ledger (seconds 10) 0
       (submit_from env 0
          (EmailModule.probes env (default "" (EmailModule.target_email self)))) !! i
     = Some (Got payload) →
     payload ⊆ EmailModule.results (final (EmailModule.execute env self w)).1)
  ∧ (∀ (env : Env) (self : TraceModule.t) (w : World) (i : nat) (payload : dict),
     str_truthy (TraceModule.target_ip self) = true →
     makedirs_error env "./trace_results" = None →
     ledger (seconds 15) 0
       (submit_from env 0
          (TraceModule.probes env (default "" (TraceModule.target_ip self)))) !! i
     = Some (Got payload) →
     payload ⊆ TraceModule.results (final (TraceModule.execute env self w)).1)
  ∧ (∀ (env : Env) (email : string),
     (∀ url, ∃ e, requests_get env url = HttpError e) →
     pr_value (EmailModule._check_breaches env email) = inl {[ "breaches" := PList [] ]}
     ∧ pr_value (EmailModule._check_reputation env email)
       = inl {[ "reputation" := PDict [] ]})
  ∧ (∀ (env : Env) (ip : string),
     (∀ url, ∃ e, requests_get env url = HttpError e) →
     (∃ e, gethostbyaddr env ip = inr e) →
     (∀ port, connect_ex env ip port ≠ inl 0) →
     pr_value (TraceModule._geoip_lookup env ip) = inl {[ "geolocation" := PDict [] ]}
     ∧ pr_value (TraceModule._asn_lookup env ip) = inl {[ "asn_info" := PDict [] ]}
     ∧ pr_value (TraceModule._dns_reverse env ip)
       = inl {[ "dns_reverse" := PDict [ ("hostname", PStr "Unknown") ] ]}
     ∧ pr_value (TraceModule._port_scan env ip) = inl {[ "open_ports" := PList [] ]}).
Proof.
  split; [|split; [|split; [|split; [|split; [|split; [|split]]]]]].
  - intros A timeout merge label st f Hnot. rewrite collect_results.
    destruct (future_result timeout (lp_clock st) f).1 as [v|e|] eqn:Hr; [|done|done].
    by destruct (Hnot v).
  - intros env self w i platform url Hempty Hnodup Hi Hnot.
    destruct (username_execute_results env self w) as [->| ->].
    + by rewrite Hempty.
    + rewrite Hempty. apply eq_None_not_Some. intros Hsome.
      destruct (username_key_origin env self i platform url Hnodup Hi Hsome) as [d Hd].
      by destruct (Hnot d).
  - intros env self w i name arg run payload key Hprobe Hval Hkey Hnot Hnone.
    destruct (email_execute_results env self w) as [->| ->]; [done|].
    destruct (email_probe_place env _ i name arg run Hprobe) as (k & a & Hfield & Hval' & Honly).
    rewrite Hval' in Hval. injection Hval as ->.
    rewrite (Honly key Hkey) in *.
    by apply (field_absent EmailModule.merge id email_merge_payload (seconds 10) env _
                email_fields email_fields_NoDup (email_probe_place env _) _ i k).
  - intros env self w i name arg run payload key Hprobe Hval Hkey Hnot Hnone.
    destruct (trace_execute_results env self w) as [->| ->]; [done|].
    destruct (trace_probe_place env _ i name arg run Hprobe) as (k & a & Hfield & Hval' & Honly).
    rewrite Hval' in Hval. injection Hval as ->.
    rewrite (Honly key Hkey) in *.
    by apply (field_absent TraceModule.merge id trace_merge_payload (seconds 15) env _
                trace_fields trace_fields_NoDup (trace_probe_place env _) _ i k).
  - intros env self w i payload Ht Hm Hgot.
    destruct (email_execute_completes env self w Ht Hm) as (self' & w' & r & Hrun & Hres & _).
    rewrite Hrun. cbn [final fst]. rewrite Hres.
    by apply (field_present EmailModule.merge id email_merge_payload (seconds 10) env _
                email_fields email_fields_NoDup (email_probe_place env _) _ i payload).
  - intros env self w i payload Ht Hm Hgot.
    destruct (trace_execute_completes env self w Ht Hm) as (self' & w' & r & Hrun & Hres & _).
    rewrite Hrun. cbn [final fst]. rewrite Hres.
    by apply (field_present TraceModule.merge id trace_merge_payload (seconds 15) env _
                trace_fields trace_fields_NoDup (trace_probe_place env _) _ i payload).
  - intros env email Hdown.
    unfold EmailModule._check_breaches, EmailModule._check_reputation.
    destruct (Hdown (EmailModule.services !!! "haveibeenpwned" +:+ "/" +:+ email))
      as [e1 ->].
    destruct (Hdown (EmailModule.services !!! "emailrep" +:+ "/" +:+ email)) as [e2 ->].
    done.
  - intros env ip Hdown [e3 Hdns] Hports.
    unfold TraceModule._geoip_lookup, TraceModule._asn_lookup, TraceModule._dns_reverse,
      TraceModule._port_scan.
    destruct (Hdown (TraceModule.services !!! "ipinfo" +:+ "/" +:+ ip +:+ "/json"))
      as [e1 ->].
    destruct (Hdown ("https://asn.cymru.com/cgi-bin/whois.cgi?ip=" +:+ ip +:+ "&format=json"))
      as [e2 ->].
    rewrite Hdns. repeat (split; [done|]). cbn [pr_value]. do 3 f_equal.
    induction TraceModule.common_ports as [|port ports IH]; [done|].
    rewrite filter_cons. pose proof (Hports port) as Hport.
    destruct (connect_ex env ip port) as [result|e].
    + destruct (Z.eqb_spec result 0) as [->|Hne]; [done|].
      rewrite decide_False by done. exact IH.
    + rewrite decide_False by done. exact IH.
Qed.

(** A future that raised leaves the results of the loop alone; with the
    network down the future of [github] (submitted 31st) hands back
    [None]; with every worker stalled the email run ends without
    [breaches] and the trace run without [geolocation]; with the network
    down and the workers in time the probes hand back their defaults and
    the runs end with them. *)
Lemma unsuccessful_probe_merges_nothing_witness :
  lp_results (collect (seconds 10) EmailModule.merge "Service error: "
                (mkLoop 0 {[ "x" := PInt 1 ]} Scenarios.blank Scenarios.with_failure)
                Scenarios.boom)
  = lp_results (mkLoop 0 {[ "x" := PInt 1 ]} Scenarios.blank Scenarios.with_failure)
  ∧ UsernameModule.results
      (final (UsernameModule.execute Scenarios.offline Scenarios.username_session.1
                Scenarios.username_session.2)).1 !! "github" = None
  ∧ EmailModule.results
      (final (EmailModule.execute Scenarios.stalled Scenarios.email_session.1
                Scenarios.email_session.2)).1 !! "breaches" = None
  ∧ TraceModule.results
      (final (TraceModule.execute Scenarios.stalled Scenarios.trace_session.1
                Scenarios.trace_session.2)).1 !! "geolocation" = None
  ∧ ({[ "breaches" := PList [] ]} : dict)
    ⊆ EmailModule.results
        (final (EmailModule.execute Scenarios.offline Scenarios.email_session.1
                  Scenarios.email_session.2)).1
  ∧ ({[ "dns_reverse" := PDict [ ("hostname", PStr "Unknown") ] ]} : dict)
    ⊆ TraceModule.results
        (final (TraceModule.execute Scenarios.offline Scenarios.trace_session.1
                  Scenarios.trace_session.2)).1
  ∧ (pr_value (EmailModule._check_breaches Scenarios.offline "a@b.co")
       = inl {[ "breaches" := PList [] ]}
     ∧ pr_value (EmailModule._check_reputation Scenarios.offline "a@b.co")
       = inl {[ "reputation" := PDict [] ]})
  ∧ (pr_value (TraceModule._geoip_lookup Scenarios.offline "8.8.8.8")
       = inl {[ "geolocation" := PDict [] ]}
     ∧ pr_value (TraceModule._asn_lookup Scenarios.offline "8.8.8.8")
       = inl {[ "asn_info" := PDict [] ]}
     ∧ pr_value (TraceModule._dns_reverse Scenarios.offline "8.8.8.8")
       = inl {[ "dns_reverse" := PDict [ ("hostname", PStr "Unknown") ] ]}
     ∧ pr_value (TraceModule._port_scan Scenarios.offline "8.8.8.8")
       = inl {[ "open_ports" := PList [] ]}).
Proof.
  pose proof unsuccessful_probe_merges_nothing
    as (Hturn & Husername & Habsent & Habsent' & Hmerged & Hmerged' & Hdefault & Hdefault').
  split; [|split; [|split; [|split; [|split; [|split; [|split]]]]]].
  - apply (Hturn dict (seconds 10) EmailModule.merge "Service error: "
             (mkLoop 0 {[ "x" := PInt 1 ]} Scenarios.blank Scenarios.with_failure)
             Scenarios.boom).
    intros v. discriminate.
  - apply (Husername Scenarios.offline Scenarios.username_session.1
             Scenarios.username_session.2 30%nat "github" "https://www.github.com/{0}").
    + reflexivity.
    + apply dict_display_NoDup.
    + by vm_compute.
    + intros d.
      assert (ledger (seconds 10) 0
                (submit_from Scenarios.offline 0
                   (UsernameModule.probes Scenarios.offline Scenarios.username_session.1))
              !! 30%nat = Some (Got None)) as -> by (by vm_compute).
      discriminate.
  - apply (Habsent Scenarios.stalled Scenarios.email_session.1 Scenarios.email_session.2
             0%nat "_check_breaches" "a@b.co"
             (EmailModule._check_breaches Scenarios.stalled "a@b.co")
             {[ "breaches" := PList [] ]} "breaches").
    + reflexivity.
    + reflexivity.
    + eexists. apply lookup_singleton_eq.
    + intros v. vm_compute. discriminate.
    + reflexivity.
  - apply (Habsent' Scenarios.stalled Scenarios.trace_session.1 Scenarios.trace_session.2
             0%nat "_geoip_lookup" "8.8.8.8"
             (TraceModule._geoip_lookup Scenarios.stalled "8.8.8.8")
             {[ "geolocation" := PDict [] ]} "geolocation").
    + reflexivity.
    + reflexivity.
    + eexists. apply lookup_singleton_eq.
    + intros v. vm_compute. discriminate.
    + reflexivity.
  - apply (Hmerged Scenarios.offline Scenarios.email_session.1 Scenarios.email_session.2
             0%nat).
    + vm_compute. reflexivity.
    + reflexivity.
    + vm_compute. reflexivity.
  - apply (Hmerged' Scenarios.offline Scenarios.trace_session.1 Scenarios.trace_session.2
             3%nat).
    + vm_compute. reflexivity.
    + reflexivity.
    + vm_compute. reflexivity.
  - apply (Hdefault Scenarios.offline "a@b.co").
    intros url. eexists. reflexivity.
  - apply (Hdefault' Scenarios.offline "8.8.8.8").
    + intros url. eexists. reflexivity.
    + eexists. reflexivity.
    + intros port. discriminate.
Defined.

(** ** C3: the guard at the head of [execute] *)

(** C3, as stated, fails.  [execute] on a fresh [EmailModule], whose
    target is absent, raises nothing: it returns the instance, having
    logged one error record. *)
Lemma absent_target_raises_nothing :
  EmailModule.target_email (EmailModule.__init__ Scenarios.blank).1 = None
  ∧ EmailModule.execute Scenarios.offline
      (EmailModule.__init__ Scenarios.blank).1 (EmailModule.__init__ Scenarios.blank).2
    = Returns ((EmailModule.__init__ Scenarios.blank).1,
               emit ERROR "No target email specified" (EmailModule.__init__ Scenarios.blank).2)
  ∧ returned (EmailModule.execute Scenarios.offline
      (EmailModule.__init__ Scenarios.blank).1 (EmailModule.__init__ Scenarios.blank).2)
    = true.
Proof. split; [reflexivity|]. split; reflexivity. Qed.

(** C3 (amended).  [execute] called while the target is absent or empty
    raises no error: in each of the three modules it logs one ERROR
    record and returns the instance unchanged, so no probe is submitted
    and the file system is left as it was.  What does leave [execute] as
    an exception before any probe is submitted is a refusal of
    [os.makedirs] for the default output folder. *)
Theorem execute_without_target :
  ∀ (env : Env) (w : World),
    (∀ self e,
       str_truthy (EmailModule.target_email self) = true →
       str_truthy (EmailModule.output_folder self) = false →
       makedirs_error env "./email_results" = Some e →
       EmailModule.execute env self w
       = Raises e
           (EmailModule.mk (EmailModule.target_email self) (Some "./email_results")
              (EmailModule.results self),
            perform (Makedirs "./email_results") w))
    ∧ (∀ self, str_truthy (EmailModule.target_email self) = false →
       EmailModule.execute env self w
         = Returns (self, emit ERROR "No target email specified" w)
       ∧ w_trace (final (EmailModule.execute env self w)).2 = w_trace w
       ∧ w_fs (final (EmailModule.execute env self w)).2 = w_fs w)
    ∧ (∀ self, str_truthy (TraceModule.target_ip self) = false →
       TraceModule.execute env self w
         = Returns (self, emit ERROR "No target IP specified" w)
       ∧ w_trace (final (TraceModule.execute env self w)).2 = w_trace w
       ∧ w_fs (final (TraceModule.execute env self w)).2 = w_fs w)
    ∧ (∀ self, str_truthy (UsernameModule.target_username self) = false →
       UsernameModule.execute env self w
         = Returns (self, emit ERROR "No target username specified" w)
       ∧ w_trace (final (UsernameModule.execute env self w)).2 = w_trace w
       ∧ w_fs (final (UsernameModule.execute env self w)).2 = w_fs w).
Proof.
  intros env w. split; [|split; [|split]].
  - intros self e Ht Hf He. unfold EmailModule.execute, EmailModule.ensure_output.
    rewrite Ht, Hf. cbn [negb].
    destruct (makedirs_cases env "./email_results" w) as [(e' & He' & ->)|(Hnone & _)];
      [|congruence].
    cbn [beside and_then]. congruence.
  - intros self Ht. by rewrite (email_guard env self w Ht).
  - intros self Ht. by rewrite (trace_guard env self w Ht).
  - intros self Ht. by rewrite (username_guard env self w Ht).
Qed.

Lemma execute_without_target_witness :
  EmailModule.execute Scenarios.offline (EmailModule.mk None None ∅) Scenarios.blank
    = Returns (EmailModule.mk None None ∅,
               emit ERROR "No target email specified" Scenarios.blank)
  ∧ TraceModule.execute Scenarios.offline (TraceModule.mk (Some "") None ∅) Scenarios.blank
    = Returns (TraceModule.mk (Some "") None ∅,
               emit ERROR "No target IP specified" Scenarios.blank)
  ∧ UsernameModule.execute Scenarios.offline
      (UsernameModule.search "" (UsernameModule.__init__ Scenarios.blank).1 Scenarios.blank).1
      Scenarios.blank
    = Returns ((UsernameModule.search "" (UsernameModule.__init__ Scenarios.blank).1
                  Scenarios.blank).1,
               emit ERROR "No target username specified" Scenarios.blank).
Proof.
  split; [|split].
  - apply (proj1 (proj2 (execute_without_target Scenarios.offline Scenarios.blank))
             (EmailModule.mk None None ∅)). reflexivity.
  - apply (proj1 (proj2 (proj2 (execute_without_target Scenarios.offline Scenarios.blank)))
             (TraceModule.mk (Some "") None ∅)). reflexivity.
  - apply (proj2 (proj2 (proj2 (execute_without_target Scenarios.offline Scenarios.blank)))
             (UsernameModule.search "" (UsernameModule.__init__ Scenarios.blank).1
                Scenarios.blank).1).
    reflexivity.
Defined.

(** ** C4: errors of the probes *)

(** C4.  An error raised by a probe function is absorbed by the loop of
    [execute].  The turn of a future that raised changes no result and
    logs one ERROR record, the last of the log when the turn is over
    (what stands between it and the log as the turn found it was written
    by workers that ended meanwhile); the loop goes on to the remaining
    futures, so the ledger holds one entry per submitted future (none is
    waited for twice) and the results are the successful payloads merged
    in order.
    For [EmailModule] and [TraceModule], once the target is set and the
    output folder can be had, [execute] returns normally whatever the
    workers meet: each probe was submitted exactly once, the results are
    the settled ledger, [_save_results] has logged its record and the run
    its record of completion. *)
Theorem probe_errors_are_absorbed :
  (∀ (A : Type) (timeout : Z) (merge : A → dict → dict) (label : string)
     (st : Loop A) (f : Future A) (e : exn),
     (future_result timeout (lp_clock st) f).1 = Threw e →
     lp_results (collect timeout merge label st f) = lp_results st
     ∧ ∃ meanwhile,
         w_log (lp_world (collect timeout merge label st f))
         = (w_log (lp_world st) ++ meanwhile ++ [(ERROR, label +:+ exn_text e)])%list
         ∧ ∀ r, r ∈ meanwhile → ∃ g, g ∈ lp_pending st ∧ r ∈ pr_log (fut_run g))
  ∧ (∀ (A : Type) (timeout : Z) (merge : A → dict → dict) (label : string)
       (results : dict) (w : World) (futures : list (Future A)),
     length (ledger timeout 0 futures) = length futures
     ∧ (gather timeout merge label results w futures).1
       = foldl (settle merge) results (ledger timeout 0 futures))
  ∧ (∀ (env : Env) (self : EmailModule.t) (w : World),
     str_truthy (EmailModule.target_email self) = true →
     makedirs_error env "./email_results" = None →
     ∃ self' w' r,
       EmailModule.execute env self w
       = Returns (self', emit INFO "Email reconnaissance completed" w')
       ∧ EmailModule.results self'
         = foldl (settle EmailModule.merge) (EmailModule.results self)
             (ledger (seconds 10) 0
                (submit_from env 0
                   (EmailModule.probes env (default "" (EmailModule.target_email self)))))
       ∧ List.filter is_submit (w_trace w')
         = (List.filter is_submit (w_trace w)
              ++ submissions
                   (EmailModule.probes env (default "" (EmailModule.target_email self))))%list
       ∧ (∃ earlier, w_log w' = (earlier ++ [r])%list)
       ∧ save_record r)
  ∧ (∀ (env : Env) (self : TraceModule.t) (w : World),
     str_truthy (TraceModule.target_ip self) = true →
     makedirs_error env "./trace_results" = None →
     ∃ self' w' r,
       TraceModule.execute env self w
       = Returns (self', emit INFO "IP trace completed" w')
       ∧ TraceModule.results self'
         = foldl (settle TraceModule.merge) (TraceModule.results self)
             (ledger (seconds 15) 0
                (submit_from env 0
                   (TraceModule.probes env (default "" (TraceModule.target_ip self)))))
       ∧ List.filter is_submit (w_trace w')
         = (List.filter is_submit (w_trace w)
              ++ submissions
                   (TraceModule.probes env (default "" (TraceModule.target_ip self))))%list
       ∧ (∃ earlier, w_log w' = (earlier ++ [r])%list)
       ∧ save_record r).
Proof.
  split; [|split; [|split]].
  - intros A timeout merge label st f e Hthrew. split.
    + rewrite collect_results. by rewrite Hthrew.
    + unfold collect.
      destruct (future_result timeout (lp_clock st) f) as [o now]. cbn [fst snd] in *.
      subst o. cbn [lp_world emit w_log].
      destruct (written_log now (lp_pending st) (lp_world st)) as (meanwhile & -> & Hfrom).
      exists meanwhile. rewrite <- app_assoc. split; [done|].
      intros r Hr. destruct (Hfrom r Hr) as (g & Hg & _ & Hrec). by exists g.
  - intros A timeout merge label results w futures. split.
    + apply ledger_length.
    + apply gather_results.
  - intros env self w Ht Hm. by apply email_execute_completes.
  - intros env self w Ht Hm. by apply trace_execute_completes.
Qed.

(** [boom] raises between [A] and [C]: its turn leaves the results alone
    and [C], submitted after it, is still merged; the email and trace runs
    with the network down return normally. *)
Lemma probe_errors_are_absorbed_witness :
  lp_results (collect (seconds 10) EmailModule.merge "Service error: "
                (mkLoop 0 ∅ Scenarios.blank Scenarios.with_failure) Scenarios.boom)
  = lp_results (mkLoop 0 ∅ Scenarios.blank Scenarios.with_failure)
  ∧ (gather (seconds 10) EmailModule.merge "Service error: " ∅ Scenarios.blank
       Scenarios.with_failure).1 !! "y" = Some (PInt 3)
  ∧ returned (EmailModule.execute Scenarios.offline Scenarios.email_session.1
                Scenarios.email_session.2) = true
  ∧ returned (TraceModule.execute Scenarios.offline Scenarios.trace_session.1
                Scenarios.trace_session.2) = true.
Proof.
  split; [|split; [|split]].
  - apply (proj1 probe_errors_are_absorbed dict (seconds 10) EmailModule.merge
             "Service error: " (mkLoop 0 ∅ Scenarios.blank Scenarios.with_failure)
             Scenarios.boom (Exn "RuntimeError" "boom")).
    reflexivity.
  - rewrite (proj2 (proj1 (proj2 probe_errors_are_absorbed) dict (seconds 10)
                      EmailModule.merge "Service error: " ∅ Scenarios.blank
                      Scenarios.with_failure)).
    by vm_compute.
  - destruct (proj1 (proj2 (proj2 probe_errors_are_absorbed)) Scenarios.offline
                Scenarios.email_session.1 Scenarios.email_session.2)
      as (self' & w' & r & -> & _); [by vm_compute | reflexivity | reflexivity].
  - destruct (proj2 (proj2 (proj2 probe_errors_are_absorbed)) Scenarios.offline
                Scenarios.trace_session.1 Scenarios.trace_session.2)
      as (self' & w' & r & -> & _); [by vm_compute | reflexivity | reflexivity].
Defined.

(** ** C5: validation and the guard *)

(** C5, as stated, fails.  A session that has accepted [a@b.co] and is
    then told to [find] a string that [_validate_email] rejects keeps the
    earlier target; [execute] is not short-circuited: it submits the four
    probes and fills the results. *)
Lemma rejected_target_does_not_stop_the_run :
  EmailModule._validate_email "not-an-address" = false
  ∧ EmailModule.target_email Scenarios.email_second_find.1 = Some "a@b.co"
  ∧ List.filter is_submit (w_trace (final Scenarios.email_stale_run).2)
    = [ Submit "_check_breaches" "a@b.co"; Submit "_check_reputation" "a@b.co";
        Submit "_verify_email" "a@b.co"; Submit "_clearbit_enrichment" "a@b.co" ]
  ∧ EmailModule.results (final Scenarios.email_stale_run).1 ≠ ∅.
Proof.
  split; [by vm_compute|]. split; [by vm_compute|]. split; [by vm_compute|].
  intros Hempty.
  assert (EmailModule.results (final Scenarios.email_stale_run).1 !! "breaches"
          = Some (PList [])) as Hb by (by vm_compute).
  rewrite Hempty in Hb. by rewrite lookup_empty in Hb.
Qed.

(** C5 (amended).  On an instance that holds no target yet, an email
    address rejected by [_validate_email], or an IP address rejected by
    [_validate_ip], leaves the target unset, so the following [execute]
    returns at its guard: the instance, and with it the results, is
    unchanged and the world only gains the two error records.
    [UsernameModule.search] validates nothing: every string becomes the
    target. *)
Theorem rejected_target_on_fresh_instance :
  ∀ (env : Env) (w : World),
    (∀ self email,
       EmailModule._validate_email email = false →
       EmailModule.target_email self = None →
       EmailModule.execute env (EmailModule.find email self w).1
         (EmailModule.find email self w).2
       = Returns (self,
                  emit ERROR "No target email specified"
                    (emit ERROR ("Invalid email format: " +:+ email) w)))
    ∧ (∀ (ip_address : string → bool) self ip,
       TraceModule._validate_ip ip_address ip = false →
       TraceModule.target_ip self = None →
       TraceModule.execute env (TraceModule.target ip_address ip self w).1
         (TraceModule.target ip_address ip self w).2
       = Returns (self,
                  emit ERROR "No target IP specified"
                    (emit ERROR ("Invalid IP address: " +:+ ip) w)))
    ∧ (∀ self username,
       UsernameModule.target_username (UsernameModule.search username self w).1
       = Some username).
Proof.
  intros env w. split; [|split].
  - intros self email Hv Ht. unfold EmailModule.find. rewrite Hv. cbn [negb fst snd].
    apply email_guard. by rewrite Ht.
  - intros ip_address self ip Hv Ht. unfold TraceModule.target. rewrite Hv. cbn [negb fst snd].
    apply trace_guard. by rewrite Ht.
  - done.
Qed.

Lemma rejected_target_on_fresh_instance_witness :
  EmailModule.execute Scenarios.offline
    (EmailModule.find "not-an-address" (EmailModule.mk None None ∅) Scenarios.blank).1
    (EmailModule.find "not-an-address" (EmailModule.mk None None ∅) Scenarios.blank).2
  = Returns (EmailModule.mk None None ∅,
             emit ERROR "No target email specified"
               (emit ERROR ("Invalid email format: " +:+ "not-an-address") Scenarios.blank))
  ∧ TraceModule.execute Scenarios.offline
    (TraceModule.target Scenarios.only_8_8_8_8 "999.1.1.1" (TraceModule.mk None None ∅)
       Scenarios.blank).1
    (TraceModule.target Scenarios.only_8_8_8_8 "999.1.1.1" (TraceModule.mk None None ∅)
       Scenarios.blank).2
  = Returns (TraceModule.mk None None ∅,
             emit ERROR "No target IP specified"
               (emit ERROR ("Invalid IP address: " +:+ "999.1.1.1") Scenarios.blank)).
Proof.
  split.
  - apply (proj1 (rejected_target_on_fresh_instance Scenarios.offline Scenarios.blank)
             (EmailModule.mk None None ∅) "not-an-address"); reflexivity.
  - apply (proj1 (proj2 (rejected_target_on_fresh_instance Scenarios.offline Scenarios.blank))
             Scenarios.only_8_8_8_8 (TraceModule.mk None None ∅) "999.1.1.1"); reflexivity.
Defined.

(** ** C6: the notification *)

(** C6, as stated, fails.  After the completed run
    [Scenarios.email_offline_run], [notify] with a notifier that raises
    lets the exception through to its caller. *)
Lemma notifier_failure_reaches_the_caller :
  returned Scenarios.email_offline_run = true
  ∧ notify_error Scenarios.no_desktop
    = Some (Exn "NotImplementedError" "No usable implementation found!")
  ∧ EmailModule.notify Scenarios.no_desktop
      (final Scenarios.email_offline_run).1 (final Scenarios.email_offline_run).2
    = Raises (Exn "NotImplementedError" "No usable implementation found!")
        ((final Scenarios.email_offline_run).1,
         perform (Notify "Email Module Complete") (final Scenarios.email_offline_run).2).
Proof. split; [by vm_compute|]. split; reflexivity. Qed.

(** C6 (amended).  A failure raised by the notifier propagates out of
    [notify] to the caller, and ["Notification sent"] is not logged; what
    the completed run produced stays as it was: in [execute().notify()]
    the exception carries the instance exactly as [execute] returned it,
    and a world that differs from the one [execute] left only by the
    recorded call of the notifier (same log, same file system). *)
Theorem notifier_failure_propagates :
  ∀ (env : Env) (e : exn) (w : World),
    notify_error env = Some e →
    (∀ self,
       EmailModule.notify env self w
         = Raises e (self, perform (Notify "Email Module Complete") w)
       ∧ (returned (EmailModule.execute env self w) = true →
          and_then (EmailModule.execute env self w) (λ s, EmailModule.notify env s.1 s.2)
          = Raises e ((final (EmailModule.execute env self w)).1,
                      perform (Notify "Email Module Complete")
                        (final (EmailModule.execute env self w)).2)))
    ∧ (∀ self,
       TraceModule.notify env self w
         = Raises e (self, perform (Notify "Trace Module Complete") w)
       ∧ (returned (TraceModule.execute env self w) = true →
          and_then (TraceModule.execute env self w) (λ s, TraceModule.notify env s.1 s.2)
          = Raises e ((final (TraceModule.execute env self w)).1,
                      perform (Notify "Trace Module Complete")
                        (final (TraceModule.execute env self w)).2)))
    ∧ (∀ self,
       UsernameModule.notify env self w
         = Raises e (self, perform (Notify "Username Module Complete") w)).
Proof.
  intros env e w He. split; [|split]; intros self.
  - split; [unfold EmailModule.notify; by rewrite He|].
    destruct (EmailModule.execute env self w) as [[s1 w1]|e1 [s1 w1]];
      cbn [returned and_then final fst snd]; [intros _|done].
    unfold EmailModule.notify. by rewrite He.
  - split; [unfold TraceModule.notify; by rewrite He|].
    destruct (TraceModule.execute env self w) as [[s1 w1]|e1 [s1 w1]];
      cbn [returned and_then final fst snd]; [intros _|done].
    unfold TraceModule.notify. by rewrite He.
  - unfold UsernameModule.notify. by rewrite He.
Qed.

Lemma notifier_failure_propagates_witness :
  and_then
    (EmailModule.execute Scenarios.no_desktop Scenarios.email_session.1
       Scenarios.email_session.2)
    (λ s, EmailModule.notify Scenarios.no_desktop s.1 s.2)
  = Raises (Exn "NotImplementedError" "No usable implementation found!")
      ((final (EmailModule.execute Scenarios.no_desktop Scenarios.email_session.1
                 Scenarios.email_session.2)).1,
       perform (Notify "Email Module Complete")
         (final (EmailModule.execute Scenarios.no_desktop Scenarios.email_session.1
                   Scenarios.email_session.2)).2).
Proof.
  apply (proj1 (notifier_failure_propagates Scenarios.no_desktop
                  (Exn "NotImplementedError" "No usable implementation found!")
                  Scenarios.email_session.2 eq_refl)
           Scenarios.email_session.1).
  by vm_compute.
Defined.

(** ** C7: nothing to save *)

Lemma email_empty_run (env : Env) (self : EmailModule.t) (w : World)
    (s : EmailModule.t * World) :
  str_truthy (EmailModule.target_email self) = true →
  EmailModule.ensure_output env self w = Returns s →
  EmailModule.results (final (EmailModule.execute env self w)).1 = ∅ →
  ∃ self' w', EmailModule.execute env self w
        = Returns (self',
                   emit INFO "Email reconnaissance completed"
                     (emit WARNING "No results to save" w'))
        ∧ w_fs w' = w_fs s.2
        ∧ List.filter is_open (w_trace w') = List.filter is_open (w_trace w).
Proof.
  intros Ht Hs. rewrite (email_execute_run env self w s Ht Hs).
  set (scanned := EmailModule.scan env s.1 _).
  pose proof (email_save_self env scanned.1 scanned.2) as Hself.
  intros Hempty.
  assert (EmailModule.results scanned.1 = ∅) as Hres.
  { destruct (EmailModule._save_results env scanned.1 scanned.2) as [[s2 w2]|e [s2 w2]];
      cbn [and_then final fst] in *; by subst s2. }
  rewrite (email_save_empty env _ _ Hres). cbn [and_then final fst snd].
  exists scanned.1, scanned.2. split; [done|]. unfold scanned. split.
  - by rewrite email_scan_fs.
  - rewrite email_scan_opens. cbn [emit w_trace].
    by destruct (email_ensure_output_inv env self w s Hs) as (_ & _ & _ & _ & _ & -> & _).
Qed.

Lemma username_empty_run (env : Env) (self : UsernameModule.t) (w : World)
    (s : UsernameModule.t * World) :
  str_truthy (UsernameModule.target_username self) = true →
  UsernameModule.ensure_output env self w = Returns s →
  UsernameModule.results (final (UsernameModule.execute env self w)).1 = ∅ →
  ∃ self' w', UsernameModule.execute env self w
        = Returns (self',
                   emit INFO "Username reconnaissance completed. Found 0 matches"
                     (emit WARNING "No results to save" w'))
        ∧ w_fs w' = w_fs s.2
        ∧ List.filter is_open (w_trace w') = List.filter is_open (w_trace w).
Proof.
  intros Ht Hs. rewrite (username_execute_run env self w s Ht Hs).
  set (scanned := UsernameModule.scan env s.1 _).
  pose proof (username_save_self env scanned.1 scanned.2) as Hself.
  intros Hempty.
  assert (UsernameModule.results scanned.1 = ∅) as Hres.
  { destruct (UsernameModule._save_results env scanned.1 scanned.2) as [[s2 w2]|e [s2 w2]];
      cbn [and_then final fst] in *; by subst s2. }
  rewrite (username_save_empty env _ _ Hres). cbn [and_then final fst snd].
  rewrite Hres, map_size_empty.
  exists scanned.1, scanned.2. split; [done|]. unfold scanned. split.
  - by rewrite username_scan_fs.
  - rewrite username_scan_opens. cbn [emit w_trace].
    by destruct (username_ensure_output_inv env self w s Hs) as (_ & _ & _ & _ & _ & -> & _).
Qed.

(** C7.  With empty results [_save_results] writes nothing: it logs one
    WARNING record, no ERROR record, and returns.  A run of
    [EmailModule.execute] or [UsernameModule.execute] that ends with empty
    results therefore returns normally, its last two log records being
    that warning and the record of completion; it opens no file for
    writing, and the file system is as the preparation of the output
    folder left it. *)
Theorem empty_results_are_not_saved :
  ∀ (env : Env) (w : World),
    (∀ self, EmailModule.results self = ∅ →
       EmailModule._save_results env self w
       = Returns (self, emit WARNING "No results to save" w))
    ∧ (∀ self, UsernameModule.results self = ∅ →
       UsernameModule._save_results env self w
       = Returns (self, emit WARNING "No results to save" w))
    ∧ (∀ self s,
       str_truthy (EmailModule.target_email self) = true →
       EmailModule.ensure_output env self w = Returns s →
       EmailModule.results (final (EmailModule.execute env self w)).1 = ∅ →
       returned (EmailModule.execute env self w) = true
       ∧ (∃ earlier,
            w_log (final (EmailModule.execute env self w)).2
            = (earlier ++ [ (WARNING, "No results to save");
                            (INFO, "Email reconnaissance completed") ])%list)
       ∧ w_fs (final (EmailModule.execute env self w)).2 = w_fs s.2
       ∧ List.filter is_open (w_trace (final (EmailModule.execute env self w)).2)
         = List.filter is_open (w_trace w))
    ∧ (∀ self s,
       str_truthy (UsernameModule.target_username self) = true →
       UsernameModule.ensure_output env self w = Returns s →
       UsernameModule.results (final (UsernameModule.execute env self w)).1 = ∅ →
       returned (UsernameModule.execute env self w) = true
       ∧ (∃ earlier,
            w_log (final (UsernameModule.execute env self w)).2
            = (earlier ++ [ (WARNING, "No results to save");
                            (INFO, "Username reconnaissance completed. Found 0 matches") ])%list)
       ∧ w_fs (final (UsernameModule.execute env self w)).2 = w_fs s.2
       ∧ List.filter is_open (w_trace (final (UsernameModule.execute env self w)).2)
         = List.filter is_open (w_trace w)).
Proof.
  intros env w. split; [|split; [|split]].
  - intros self Hr. by apply email_save_empty.
  - intros self Hr. by apply username_save_empty.
  - intros self s Ht Hs Hempty.
    destruct (email_empty_run env self w s Ht Hs Hempty) as (self' & w' & Hrun & Hfs & Hopen).
    rewrite Hrun. cbn [returned final snd emit w_log w_fs w_trace].
    split; [done|]. split; [|done].
    exists (w_log w'). by rewrite <- app_assoc.
  - intros self s Ht Hs Hempty.
    destruct (username_empty_run env self w s Ht Hs Hempty) as (self' & w' & Hrun & Hfs & Hopen).
    rewrite Hrun. cbn [returned final snd emit w_log w_fs w_trace].
    split; [done|]. split; [|done].
    exists (w_log w'). by rewrite <- app_assoc.
Qed.

(** With every worker stalled the email run ends empty; with the network
    down so does the username run. *)
Lemma empty_results_are_not_saved_witness :
  (returned (EmailModule.execute Scenarios.stalled Scenarios.email_session.1
               Scenarios.email_session.2) = true
   ∧ List.filter is_open
       (w_trace (final (EmailModule.execute Scenarios.stalled Scenarios.email_session.1
                          Scenarios.email_session.2)).2)
     = List.filter is_open (w_trace Scenarios.email_session.2))
  ∧ (returned (UsernameModule.execute Scenarios.offline Scenarios.username_session.1
                 Scenarios.username_session.2) = true
     ∧ List.filter is_open
         (w_trace (final (UsernameModule.execute Scenarios.offline
                            Scenarios.username_session.1 Scenarios.username_session.2)).2)
       = List.filter is_open (w_trace Scenarios.username_session.2)).
Proof.
  split.
  - destruct (proj1 (proj2 (proj2
        (empty_results_are_not_saved Scenarios.stalled Scenarios.email_session.2)))
      Scenarios.email_session.1
      (final (EmailModule.ensure_output Scenarios.stalled Scenarios.email_session.1
                Scenarios.email_session.2)))
      as (Hret & _ & _ & Hopen).
    + by vm_compute.
    + by vm_compute.
    + by vm_compute.
    + by split.
  - destruct (proj2 (proj2 (proj2
        (empty_results_are_not_saved Scenarios.offline Scenarios.username_session.2)))
      Scenarios.username_session.1
      (final (UsernameModule.ensure_output Scenarios.offline Scenarios.username_session.1
                Scenarios.username_session.2)))
      as (Hret & _ & _ & Hopen).
    + by vm_compute.
    + by vm_compute.
    + by vm_compute.
    + by split.
Defined.

(** ** C8: a write that fails *)

(** C8.  When the write of the log file fails (the folder is missing,
    [open] refuses, or [json.dump] breaks off), [_save_results] of
    [EmailModule] and of [TraceModule] still returns to its caller, with
    the instance, and so [self.results], exactly as it was; the failure is
    reported by one ERROR record carrying the exception's text, and the
    file was opened for writing once, not again. *)
Theorem failed_write_keeps_results :
  ∀ (env : Env) (w : World) (folder : string),
    (∀ self,
       EmailModule.results self ≠ ∅ →
       EmailModule.output_folder self = Some folder →
       w_fs w !! folder = None
       ∨ is_Some (open_error env
            (os_path_join folder ("EmailLog_" +:+ strftime (datetime_now env) +:+ ".json")))
       ∨ is_Some (dump_error env
            (os_path_join folder ("EmailLog_" +:+ strftime (datetime_now env) +:+ ".json"))) →
       ∃ e w',
         EmailModule._save_results env self w
         = Returns (self, emit ERROR ("Failed to save results: " +:+ exn_text e) w')
         ∧ w_log w' = w_log w
         ∧ w_trace w'
           = (w_trace w
                ++ [OpenW (os_path_join folder
                             ("EmailLog_" +:+ strftime (datetime_now env) +:+ ".json"))])%list)
    ∧ (∀ self,
       TraceModule.results self ≠ ∅ →
       TraceModule.output_folder self = Some folder →
       w_fs w !! folder = None
       ∨ is_Some (open_error env
            (os_path_join folder ("TraceLog_" +:+ strftime (datetime_now env) +:+ ".json")))
       ∨ is_Some (dump_error env
            (os_path_join folder ("TraceLog_" +:+ strftime (datetime_now env) +:+ ".json"))) →
       ∃ e w',
         TraceModule._save_results env self w
         = Returns (self, emit ERROR ("Failed to save results: " +:+ exn_text e) w')
         ∧ w_log w' = w_log w
         ∧ w_trace w'
           = (w_trace w
                ++ [OpenW (os_path_join folder
                             ("TraceLog_" +:+ strftime (datetime_now env) +:+ ".json"))])%list).
Proof.
  intros env w folder. split.
  - intros self Hne Hfolder Hwhy.
    unfold EmailModule._save_results, dict_truthy.
    rewrite bool_decide_eq_false_2 by done. cbn [negb]. rewrite Hfolder.
    destruct (write_json_trace env folder
                ("EmailLog_" +:+ strftime (datetime_now env) +:+ ".json")
                (EmailModule.results self) w) as [Htr Hlog].
    destruct (write_json_fails env folder _ (EmailModule.results self) w Hwhy)
      as (e & w' & Hw).
    rewrite Hw in *. by exists e, w'.
  - intros self Hne Hfolder Hwhy.
    unfold TraceModule._save_results, dict_truthy.
    rewrite bool_decide_eq_false_2 by done. cbn [negb]. rewrite Hfolder.
    destruct (write_json_trace env folder
                ("TraceLog_" +:+ strftime (datetime_now env) +:+ ".json")
                (TraceModule.results self) w) as [Htr Hlog].
    destruct (write_json_fails env folder _ (TraceModule.results self) w Hwhy)
      as (e & w' & Hw).
    rewrite Hw in *. by exists e, w'.
Qed.

Lemma failed_write_keeps_results_witness :
  (∃ e w',
     EmailModule._save_results Scenarios.read_only Scenarios.email_with_results
       Scenarios.out_exists
     = Returns (Scenarios.email_with_results,
                emit ERROR ("Failed to save results: " +:+ exn_text e) w')
     ∧ w_log w' = w_log Scenarios.out_exists
     ∧ w_trace w'
       = (w_trace Scenarios.out_exists
            ++ [OpenW (os_path_join "out"
                         ("EmailLog_" +:+ strftime (datetime_now Scenarios.read_only)
                            +:+ ".json"))])%list)
  ∧ (∃ e w',
     TraceModule._save_results Scenarios.read_only Scenarios.trace_with_results
       Scenarios.out_exists
     = Returns (Scenarios.trace_with_results,
                emit ERROR ("Failed to save results: " +:+ exn_text e) w')
     ∧ w_log w' = w_log Scenarios.out_exists
     ∧ w_trace w'
       = (w_trace Scenarios.out_exists
            ++ [OpenW (os_path_join "out"
                         ("TraceLog_" +:+ strftime (datetime_now Scenarios.read_only)
                            +:+ ".json"))])%list).
Proof.
  split.
  - apply (proj1 (failed_write_keeps_results Scenarios.read_only Scenarios.out_exists "out")
             Scenarios.email_with_results).
    + intros Hempty.
      assert (EmailModule.results Scenarios.email_with_results !! "breaches" = Some (PList []))
        as Hb by reflexivity.
      rewrite Hempty in Hb. discriminate Hb.
    + reflexivity.
    + right. left. eexists. reflexivity.
  - apply (proj2 (failed_write_keeps_results Scenarios.read_only Scenarios.out_exists "out")
             Scenarios.trace_with_results).
    + intros Hempty.
      assert (TraceModule.results Scenarios.trace_with_results !! "open_ports" = Some (PList []))
        as Hb by reflexivity.
      rewrite Hempty in Hb. discriminate Hb.
    + reflexivity.
    + right. left. eexists. reflexivity.
Defined.

(** ** C9: the name of the log file *)

Lemma digit_inj (a b : Z) : digit a = digit b → a mod 10 = b mod 10.
Proof.
  unfold digit. intros H. apply (f_equal N_of_ascii) in H.
  pose proof (Z.mod_pos_bound a 10 eq_refl). pose proof (Z.mod_pos_bound b 10 eq_refl).
  rewrite !N_ascii_embedding in H by lia.
  lia.
Qed.

Lemma pad2_inj (a b : Z) : 0 ≤ a < 100 → 0 ≤ b < 100 → pad2 a = pad2 b → a = b.
Proof.
  intros Ha Hb H. unfold pad2 in H. injection H as H1 H2.
  apply digit_inj in H1, H2. Z.to_euclidean_division_equations. lia.
Qed.

Lemma pad4_inj (a b : Z) : 0 ≤ a < 10000 → 0 ≤ b < 10000 → pad4 a = pad4 b → a = b.
Proof.
  intros Ha Hb H. unfold pad4, pad2 in H. injection H as H1 H2 H3 H4.
  apply digit_inj in H1, H2, H3, H4. Z.to_euclidean_division_equations. lia.
Qed.

(** A stamped name tells the second it was made in. *)
Lemma stamped_name_inj (prefix : string) (d1 d2 : datetime) :
  wall_clock d1 → wall_clock d2 →
  prefix +:+ strftime d1 +:+ ".json" = prefix +:+ strftime d2 +:+ ".json" →
  same_second d1 d2.
Proof.
  intros (Hy1 & Hm1 & Hd1 & Hh1 & Hmi1 & Hs1) (Hy2 & Hm2 & Hd2 & Hh2 & Hmi2 & Hs2) H.
  apply (inj (String.app prefix)) in H.
  unfold strftime, pad4, pad2 in H. cbn [String.append] in H.
  injection H as y1 y2 y3 y4 m1 m2 e1 e2 h1 h2 n1 n2 s1 s2.
  unfold same_second. repeat split.
  - apply pad4_inj; [lia | lia |]. unfold pad4, pad2. congruence.
  - apply pad2_inj; [lia | lia |]. unfold pad2. congruence.
  - apply pad2_inj; [lia | lia |]. unfold pad2. congruence.
  - apply pad2_inj; [lia | lia |]. unfold pad2. congruence.
  - apply pad2_inj; [lia | lia |]. unfold pad2. congruence.
  - apply pad2_inj; [lia | lia |]. unfold pad2. congruence.
Qed.

Lemma list_ascii_of_string_app (s1 s2 : string) :
  list_ascii_of_string (s1 +:+ s2)
  = (list_ascii_of_string s1 ++ list_ascii_of_string s2)%list.
Proof. induction s1 as [|c s1 IH]; simpl; [done|]. by f_equal. Qed.

Lemma string_app_inv_tail (s1 s2 t : string) : s1 +:+ t = s2 +:+ t → s1 = s2.
Proof.
  intros H. apply (f_equal list_ascii_of_string) in H.
  rewrite !list_ascii_of_string_app in H. apply app_inv_tail in H.
  apply (f_equal string_of_list_ascii) in H.
  by rewrite !string_of_list_ascii_of_string in H.
Qed.

Lemma numbered_name_inj (a b : nat) :
  "Log" +:+ pretty a +:+ ".json" = "Log" +:+ pretty b +:+ ".json" → a = b.
Proof.
  intros H. apply (inj (String.app "Log")) in H.
  apply string_app_inv_tail in H. by apply (inj pretty).
Qed.

Lemma email_save_ok (env : Env) (self : EmailModule.t) (w : World) (folder : string)
    (entries : gmap string content) :
  EmailModule.results self ≠ ∅ →
  EmailModule.output_folder self = Some folder →
  w_fs w !! folder = Some entries →
  writable env (os_path_join folder ("EmailLog_" +:+ strftime (datetime_now env) +:+ ".json")) →
  w_fs (final (EmailModule._save_results env self w)).2
  = <[folder := <["EmailLog_" +:+ strftime (datetime_now env) +:+ ".json"
                    := Json (EmailModule.results self)]> entries]> (w_fs w).
Proof.
  intros Hne Hfolder Hdir [Hopen Hdump].
  unfold EmailModule._save_results, dict_truthy.
  rewrite bool_decide_eq_false_2 by done. cbn [negb]. rewrite Hfolder.
  by rewrite (write_json_ok env folder _ _ w entries Hdir Hopen Hdump).
Qed.

Lemma os_listdir_ok (env : Env) (path : string) (w : World) (e : event)
    (entries : gmap string content) :
  listdir_error env path = None →
  w_fs w !! path = Some entries →
  os_listdir env path (perform e w) = inl entries.
Proof. intros Hl Hdir. unfold os_listdir. cbn [perform w_fs]. by rewrite Hl, Hdir. Qed.

Lemma username_save_ok (env : Env) (self : UsernameModule.t) (w : World) (folder : string)
    (entries : gmap string content) :
  UsernameModule.results self ≠ ∅ →
  UsernameModule.output_folder self = Some folder →
  listdir_error env folder = None →
  w_fs w !! folder = Some entries →
  writable env (os_path_join folder ("Log" +:+ pretty (size entries + 1)%nat +:+ ".json")) →
  w_fs (final (UsernameModule._save_results env self w)).2
  = <[folder := <["Log" +:+ pretty (size entries + 1)%nat +:+ ".json"
                    := Json (UsernameModule.results self)]> entries]> (w_fs w).
Proof.
  intros Hne Hfolder Hlist Hdir [Hopen Hdump].
  unfold UsernameModule._save_results, dict_truthy.
  rewrite bool_decide_eq_false_2 by done. cbn [negb]. rewrite Hfolder.
  rewrite (os_listdir_ok env folder w _ entries Hlist Hdir).
  by rewrite (write_json_ok env folder _ _ (perform (Listdir folder) w) entries
                Hdir Hopen Hdump).
Qed.

Lemma trace_save_ok (env : Env) (self : TraceModule.t) (w : World) (folder : string)
    (entries : gmap string content) :
  TraceModule.results self ≠ ∅ →
  TraceModule.output_folder self = Some folder →
  w_fs w !! folder = Some entries →
  writable env (os_path_join folder ("TraceLog_" +:+ strftime (datetime_now env) +:+ ".json")) →
  w_fs (final (TraceModule._save_results env self w)).2
  = <[folder := <["TraceLog_" +:+ strftime (datetime_now env) +:+ ".json"
                    := Json (TraceModule.results self)]> entries]> (w_fs w).
Proof.
  intros Hne Hfolder Hdir [Hopen Hdump].
  unfold TraceModule._save_results, dict_truthy.
  rewrite bool_decide_eq_false_2 by done. cbn [negb]. rewrite Hfolder.
  by rewrite (write_json_ok env folder _ _ w entries Hdir Hopen Hdump).
Qed.

(** Whatever becomes of a write, the other entries of the folder stay. *)
Lemma write_json_others (env : Env) (folder name : string) (d : dict) (w : World)
    (entries : gmap string content) :
  w_fs w !! folder = Some entries →
  ∃ after, w_fs (final (write_json env folder name d w)) !! folder = Some after
           ∧ ∀ other, other ≠ name → after !! other = entries !! other.
Proof.
  intros Hdir. unfold write_json. cbn [perform w_fs]. rewrite Hdir.
  destruct (open_error env _); [by exists entries|].
  destruct (dump_error env _); cbn [final set_fs w_fs]; rewrite lookup_insert_eq;
    eexists; (split; [reflexivity|]); intros other Hne; by rewrite lookup_insert_ne.
Qed.

Lemma email_save_others (env : Env) (self : EmailModule.t) (w : World) (folder : string)
    (entries : gmap string content) :
  EmailModule.output_folder self = Some folder →
  w_fs w !! folder = Some entries →
  ∃ after,
    w_fs (final (EmailModule._save_results env self w)).2 !! folder = Some after
    ∧ ∀ other, other ≠ "EmailLog_" +:+ strftime (datetime_now env) +:+ ".json" →
               after !! other = entries !! other.
Proof.
  intros Hfolder Hdir. unfold EmailModule._save_results. rewrite Hfolder.
  destruct (negb (dict_truthy (EmailModule.results self))); [by exists entries|].
  destruct (write_json_others env folder
              ("EmailLog_" +:+ strftime (datetime_now env) +:+ ".json")
              (EmailModule.results self) w entries Hdir) as (after & Hafter & Hothers).
  exists after. split; [|done].
  by destruct (write_json env folder _ (EmailModule.results self) w).
Qed.

Lemma trace_save_others (env : Env) (self : TraceModule.t) (w : World) (folder : string)
    (entries : gmap string content) :
  TraceModule.output_folder self = Some folder →
  w_fs w !! folder = Some entries →
  ∃ after,
    w_fs (final (TraceModule._save_results env self w)).2 !! folder = Some after
    ∧ ∀ other, other ≠ "TraceLog_" +:+ strftime (datetime_now env) +:+ ".json" →
               after !! other = entries !! other.
Proof.
  intros Hfolder Hdir. unfold TraceModule._save_results. rewrite Hfolder.
  destruct (negb (dict_truthy (TraceModule.results self))); [by exists entries|].
  destruct (write_json_others env folder
              ("TraceLog_" +:+ strftime (datetime_now env) +:+ ".json")
              (TraceModule.results self) w entries Hdir) as (after & Hafter & Hothers).
  exists after. split; [|done].
  by destruct (write_json env folder _ (TraceModule.results self) w).
Qed.

Lemma username_save_others (env : Env) (self : UsernameModule.t) (w : World)
    (folder : string) (entries : gmap string content) :
  UsernameModule.output_folder self = Some folder →
  w_fs w !! folder = Some entries →
  ∃ after,
    w_fs (final (UsernameModule._save_results env self w)).2 !! folder = Some after
    ∧ ∀ other, other ≠ "Log" +:+ pretty (size entries + 1)%nat +:+ ".json" →
               after !! other = entries !! other.
Proof.
  intros Hfolder Hdir. unfold UsernameModule._save_results. rewrite Hfolder.
  destruct (negb (dict_truthy (UsernameModule.results self))); [by exists entries|].
  unfold os_listdir. cbn [perform w_fs]. rewrite Hdir.
  destruct (listdir_error env folder); [by exists entries|].
  destruct (write_json_others env folder
              ("Log" +:+ pretty (size entries + 1)%nat +:+ ".json")
              (UsernameModule.results self) (perform (Listdir folder) w) entries Hdir)
    as (after & Hafter & Hothers).
  exists after. split; [|done].
  by destruct (write_json env folder _ (UsernameModule.results self) _).
Qed.

(** C9, as stated, fails.  Two saves of [EmailModule] into the folder
    [out], made a quarter of a second apart within one second of the wall
    clock, get the same file name; after the second save the folder holds
    that one file with the second results: the first artifact has been
    overwritten. *)
Lemma same_second_overwrites :
  datetime_now Scenarios.offline ≠ datetime_now Scenarios.offline_later
  ∧ w_fs (final Scenarios.first_save).2 !! "out"
    = Some {[ "EmailLog_20240102_120000.json"
                := Json (EmailModule.results Scenarios.email_with_results) ]}
  ∧ w_fs (final Scenarios.second_save).2 !! "out"
    = Some {[ "EmailLog_20240102_120000.json"
                := Json (EmailModule.results Scenarios.email_with_other_results) ]}
  ∧ EmailModule.results Scenarios.email_with_results
    ≠ EmailModule.results Scenarios.email_with_other_results.
Proof.
  split; [discriminate|].
  split; [vm_compute; reflexivity|]. split; [vm_compute; reflexivity|].
  intros Heq.
  assert (EmailModule.results Scenarios.email_with_results !! "breaches" = Some (PList []))
    as Hb by reflexivity.
  rewrite Heq in Hb. discriminate Hb.
Qed.

(** C9 (amended).  [EmailModule] and [TraceModule] name the artifact
    [EmailLog_<YYYYMMDD_HHMMSS>.json] and [TraceLog_<YYYYMMDD_HHMMSS>.json],
    after the kind and the second of the wall clock: two successful saves
    into one folder whose clock readings differ somewhere down to the
    second leave both artifacts in the folder, each with its own results.
    [UsernameModule] names its artifact [Log<n+1>.json], [n] being the
    number of entries of the folder, without the kind: two successful
    saves in a row leave both artifacts in the folder provided the first
    name was not yet taken.  In all three modules a save, whatever becomes
    of it, leaves every entry of the folder as it was except the one whose
    name it obtains. *)
Theorem artifacts_of_two_saves :
  ∀ (env1 env2 : Env) (w : World) (folder : string) (entries : gmap string content),
    w_fs w !! folder = Some entries →
    (∀ self1 self2 : EmailModule.t,
       EmailModule.results self1 ≠ ∅ →
       EmailModule.results self2 ≠ ∅ →
       EmailModule.output_folder self1 = Some folder →
       EmailModule.output_folder self2 = Some folder →
       wall_clock (datetime_now env1) →
       wall_clock (datetime_now env2) →
       ¬ same_second (datetime_now env1) (datetime_now env2) →
       writable env1
         (os_path_join folder ("EmailLog_" +:+ strftime (datetime_now env1) +:+ ".json")) →
       writable env2
         (os_path_join folder ("EmailLog_" +:+ strftime (datetime_now env2) +:+ ".json")) →
       ∃ after,
         w_fs (final (EmailModule._save_results env2 self2
                        (final (EmailModule._save_results env1 self1 w)).2)).2 !! folder
         = Some after
         ∧ after !! ("EmailLog_" +:+ strftime (datetime_now env1) +:+ ".json")
           = Some (Json (EmailModule.results self1))
         ∧ after !! ("EmailLog_" +:+ strftime (datetime_now env2) +:+ ".json")
           = Some (Json (EmailModule.results self2)))
    ∧ (∀ self1 self2 : TraceModule.t,
       TraceModule.results self1 ≠ ∅ →
       TraceModule.results self2 ≠ ∅ →
       TraceModule.output_folder self1 = Some folder →
       TraceModule.output_folder self2 = Some folder →
       wall_clock (datetime_now env1) →
       wall_clock (datetime_now env2) →
       ¬ same_second (datetime_now env1) (datetime_now env2) →
       writable env1
         (os_path_join folder ("TraceLog_" +:+ strftime (datetime_now env1) +:+ ".json")) →
       writable env2
         (os_path_join folder ("TraceLog_" +:+ strftime (datetime_now env2) +:+ ".json")) →
       ∃ after,
         w_fs (final (TraceModule._save_results env2 self2
                        (final (TraceModule._save_results env1 self1 w)).2)).2 !! folder
         = Some after
         ∧ after !! ("TraceLog_" +:+ strftime (datetime_now env1) +:+ ".json")
           = Some (Json (TraceModule.results self1))
         ∧ after !! ("TraceLog_" +:+ strftime (datetime_now env2) +:+ ".json")
           = Some (Json (TraceModule.results self2)))
    ∧ (∀ self1 self2 : UsernameModule.t,
       UsernameModule.results self1 ≠ ∅ →
       UsernameModule.results self2 ≠ ∅ →
       UsernameModule.output_folder self1 = Some folder →
       UsernameModule.output_folder self2 = Some folder →
       listdir_error env1 folder = None →
       listdir_error env2 folder = None →
       entries !! ("Log" +:+ pretty (size entries + 1)%nat +:+ ".json") = None →
       writable env1
         (os_path_join folder ("Log" +:+ pretty (size entries + 1)%nat +:+ ".json")) →
       writable env2
         (os_path_join folder ("Log" +:+ pretty (size entries + 2)%nat +:+ ".json")) →
       ∃ after,
         w_fs (final (UsernameModule._save_results env2 self2
                        (final (UsernameModule._save_results env1 self1 w)).2)).2 !! folder
         = Some after
         ∧ after !! ("Log" +:+ pretty (size entries + 1)%nat +:+ ".json")
           = Some (Json (UsernameModule.results self1))
         ∧ after !! ("Log" +:+ pretty (size entries + 2)%nat +:+ ".json")
           = Some (Json (UsernameModule.results self2)))
    ∧ (∀ (self : EmailModule.t) (other : string),
       EmailModule.output_folder self = Some folder →
       other ≠ "EmailLog_" +:+ strftime (datetime_now env1) +:+ ".json" →
       ∃ after,
         w_fs (final (EmailModule._save_results env1 self w)).2 !! folder = Some after
         ∧ after !! other = entries !! other)
    ∧ (∀ (self : TraceModule.t) (other : string),
       TraceModule.output_folder self = Some folder →
       other ≠ "TraceLog_" +:+ strftime (datetime_now env1) +:+ ".json" →
       ∃ after,
         w_fs (final (TraceModule._save_results env1 self w)).2 !! folder = Some after
         ∧ after !! other = entries !! other)
    ∧ (∀ (self : UsernameModule.t) (other : string),
       UsernameModule.output_folder self = Some folder →
       other ≠ "Log" +:+ pretty (size entries + 1)%nat +:+ ".json" →
       ∃ after,
         w_fs (final (UsernameModule._save_results env1 self w)).2 !! folder = Some after
         ∧ after !! other = entries !! other).
Proof.
  intros env1 env2 w folder entries Hdir. split; [|split; [|split; [|split; [|split]]]].
  - intros self1 self2 Hne1 Hne2 Hf1 Hf2 Hc1 Hc2 Hdiff Hw1 Hw2.
    set (name1 := "EmailLog_" +:+ strftime (datetime_now env1) +:+ ".json") in *.
    set (name2 := "EmailLog_" +:+ strftime (datetime_now env2) +:+ ".json") in *.
    assert (name1 ≠ name2) as Hnames
      by (intros Heq; apply Hdiff; by apply (stamped_name_inj "EmailLog_")).
    pose proof (email_save_ok env1 self1 w folder entries Hne1 Hf1 Hdir Hw1) as Hfs1.
    fold name1 in Hfs1.
    set (w1 := (final (EmailModule._save_results env1 self1 w)).2) in *.
    assert (w_fs w1 !! folder = Some (<[name1 := Json (EmailModule.results self1)]> entries))
      as Hdir1 by (by rewrite Hfs1, lookup_insert_eq).
    rewrite (email_save_ok env2 self2 w1 folder _ Hne2 Hf2 Hdir1 Hw2). fold name2.
    eexists. split; [by rewrite lookup_insert_eq|]. split.
    + by rewrite lookup_insert_ne, lookup_insert_eq.
    + by rewrite lookup_insert_eq.
  - intros self1 self2 Hne1 Hne2 Hf1 Hf2 Hc1 Hc2 Hdiff Hw1 Hw2.
    set (name1 := "TraceLog_" +:+ strftime (datetime_now env1) +:+ ".json") in *.
    set (name2 := "TraceLog_" +:+ strftime (datetime_now env2) +:+ ".json") in *.
    assert (name1 ≠ name2) as Hnames
      by (intros Heq; apply Hdiff; by apply (stamped_name_inj "TraceLog_")).
    pose proof (trace_save_ok env1 self1 w folder entries Hne1 Hf1 Hdir Hw1) as Hfs1.
    fold name1 in Hfs1.
    set (w1 := (final (TraceModule._save_results env1 self1 w)).2) in *.
    assert (w_fs w1 !! folder = Some (<[name1 := Json (TraceModule.results self1)]> entries))
      as Hdir1 by (by rewrite Hfs1, lookup_insert_eq).
    rewrite (trace_save_ok env2 self2 w1 folder _ Hne2 Hf2 Hdir1 Hw2). fold name2.
    eexists. split; [by rewrite lookup_insert_eq|]. split.
    + by rewrite lookup_insert_ne, lookup_insert_eq.
    + by rewrite lookup_insert_eq.
  - intros self1 self2 Hne1 Hne2 Hf1 Hf2 Hl1 Hl2 Hfresh Hw1 Hw2.
    set (name1 := "Log" +:+ pretty (size entries + 1)%nat +:+ ".json") in *.
    set (name2 := "Log" +:+ pretty (size entries + 2)%nat +:+ ".json") in *.
    assert (name1 ≠ name2) as Hnames
      by (intros Heq%numbered_name_inj; lia).
    pose proof (username_save_ok env1 self1 w folder entries Hne1 Hf1 Hl1 Hdir Hw1) as Hfs1.
    fold name1 in Hfs1.
    set (w1 := (final (UsernameModule._save_results env1 self1 w)).2) in *.
    assert (w_fs w1 !! folder
            = Some (<[name1 := Json (UsernameModule.results self1)]> entries))
      as Hdir1 by (by rewrite Hfs1, lookup_insert_eq).
    assert ((size (<[name1 := Json (UsernameModule.results self1)]> entries) + 1
             = size entries + 2)%nat) as Hsize
      by (rewrite map_size_insert_None by done; lia).
    pose proof (username_save_ok env2 self2 w1 folder _ Hne2 Hf2 Hl2 Hdir1) as Hfs2.
    rewrite Hsize in Hfs2. fold name2 in Hfs2. rewrite (Hfs2 Hw2).
    eexists. split; [by rewrite lookup_insert_eq|]. split.
    + by rewrite lookup_insert_ne, lookup_insert_eq.
    + by rewrite lookup_insert_eq.
  - intros self other Hf Hother.
    destruct (email_save_others env1 self w folder entries Hf Hdir) as (after & Hafter & Hrest).
    exists after. split; [done|]. by apply Hrest.
  - intros self other Hf Hother.
    destruct (trace_save_others env1 self w folder entries Hf Hdir) as (after & Hafter & Hrest).
    exists after. split; [done|]. by apply Hrest.
  - intros self other Hf Hother.
    destruct (username_save_others env1 self w folder entries Hf Hdir)
      as (after & Hafter & Hrest).
    exists after. split; [done|]. by apply Hrest.
Qed.

(** Saves at noon and one second past noon into the empty folder [out];
    a save leaves the entry of another name as it was (here: absent). *)
Lemma artifacts_of_two_saves_witness :
  (∃ after,
     w_fs (final (EmailModule._save_results Scenarios.offline_next_second
                    Scenarios.email_with_other_results
                    (final (EmailModule._save_results Scenarios.offline
                              Scenarios.email_with_results Scenarios.out_exists)).2)).2 !! "out"
     = Some after
     ∧ after !! ("EmailLog_" +:+ strftime (datetime_now Scenarios.offline) +:+ ".json")
       = Some (Json (EmailModule.results Scenarios.email_with_results))
     ∧ after !! ("EmailLog_" +:+ strftime (datetime_now Scenarios.offline_next_second)
                   +:+ ".json")
       = Some (Json (EmailModule.results Scenarios.email_with_other_results)))
  ∧ (∃ after,
     w_fs (final (UsernameModule._save_results Scenarios.offline_next_second
                    Scenarios.username_with_other_results
                    (final (UsernameModule._save_results Scenarios.offline
                              Scenarios.username_with_results Scenarios.out_exists)).2)).2
       !! "out"
     = Some after
     ∧ after !! ("Log" +:+ pretty (size (∅ : gmap string content) + 1)%nat +:+ ".json")
       = Some (Json (UsernameModule.results Scenarios.username_with_results))
     ∧ after !! ("Log" +:+ pretty (size (∅ : gmap string content) + 2)%nat +:+ ".json")
       = Some (Json (UsernameModule.results Scenarios.username_with_other_results)))
  ∧ (∃ after,
     w_fs (final (TraceModule._save_results Scenarios.offline_next_second
                    Scenarios.trace_with_results
                    (final (TraceModule._save_results Scenarios.offline
                              Scenarios.trace_with_results Scenarios.out_exists)).2)).2 !! "out"
     = Some after
     ∧ after !! ("TraceLog_" +:+ strftime (datetime_now Scenarios.offline) +:+ ".json")
       = Some (Json (TraceModule.results Scenarios.trace_with_results))
     ∧ after !! ("TraceLog_" +:+ strftime (datetime_now Scenarios.offline_next_second)
                   +:+ ".json")
       = Some (Json (TraceModule.results Scenarios.trace_with_results)))
  ∧ (∃ after,
     w_fs (final (EmailModule._save_results Scenarios.offline Scenarios.email_with_results
                    Scenarios.out_exists)).2 !! "out" = Some after
     ∧ after !! "Log1.json" = (∅ : gmap string content) !! "Log1.json")
  ∧ (∃ after,
     w_fs (final (TraceModule._save_results Scenarios.offline Scenarios.trace_with_results
                    Scenarios.out_exists)).2 !! "out" = Some after
     ∧ after !! "EmailLog_20240102_120000.json"
       = (∅ : gmap string content) !! "EmailLog_20240102_120000.json")
  ∧ (∃ after,
     w_fs (final (UsernameModule._save_results Scenarios.offline
                    Scenarios.username_with_results Scenarios.out_exists)).2 !! "out"
     = Some after
     ∧ after !! "EmailLog_20240102_120000.json"
       = (∅ : gmap string content) !! "EmailLog_20240102_120000.json").
Proof.
  assert (∀ (k : string) (v : pyval), ({[ k := v ]} : dict) ≠ ∅) as Hne.
  { intros k v Hempty.
    assert (({[ k := v ]} : dict) !! k = Some v) as Hk by apply lookup_singleton_eq.
    rewrite Hempty in Hk. discriminate Hk. }
  pose proof (artifacts_of_two_saves Scenarios.offline Scenarios.offline_next_second
                Scenarios.out_exists "out" ∅ eq_refl)
    as (Hemail & Htrace & Husername & Hother & Hother' & Hother'').
  split; [|split; [|split; [|split; [|split]]]].
  - apply (Hemail Scenarios.email_with_results Scenarios.email_with_other_results).
    + apply Hne.
    + apply Hne.
    + reflexivity.
    + reflexivity.
    + unfold wall_clock. cbn. lia.
    + unfold wall_clock. cbn. lia.
    + intros (_ & _ & _ & _ & _ & Hsec). discriminate Hsec.
    + split; reflexivity.
    + split; reflexivity.
  - apply (Husername Scenarios.username_with_results Scenarios.username_with_other_results).
    + apply Hne.
    + apply Hne.
    + reflexivity.
    + reflexivity.
    + reflexivity.
    + reflexivity.
    + apply lookup_empty.
    + split; reflexivity.
    + split; reflexivity.
  - apply (Htrace Scenarios.trace_with_results Scenarios.trace_with_results).
    + apply Hne.
    + apply Hne.
    + reflexivity.
    + reflexivity.
    + unfold wall_clock. cbn. lia.
    + unfold wall_clock. cbn. lia.
    + intros (_ & _ & _ & _ & _ & Hsec). discriminate Hsec.
    + split; reflexivity.
    + split; reflexivity.
  - apply (Hother Scenarios.email_with_results "Log1.json").
    + reflexivity.
    + discriminate.
  - apply (Hother' Scenarios.trace_with_results "EmailLog_20240102_120000.json").
    + reflexivity.
    + discriminate.
  - apply (Hother'' Scenarios.username_with_results "EmailLog_20240102_120000.json").
    + reflexivity.
    + discriminate.
Defined.

(** ** C10: the three simulated probes *)

(** C10.  [_verify_email] and [_abuse_check] return the same fixed
    mapping for every argument, [_clearbit_enrichment] a mapping in which
    only [person.email] follows the argument; whatever the environment,
    none of the three makes a call (so none touches the network), logs a
    record, or raises. *)
Theorem simulated_probes_are_constant :
  ∀ (env : Env) (arg : string),
    EmailModule._verify_email env arg
    = mkRun
        (inl {[ "verification" :=
                  PDict [ ("valid", PBool true);
                          ("deliverable", PBool true);
                          ("risk_score", PFloat 15 (-2)) ] ]})
        [] []
    ∧ EmailModule._clearbit_enrichment env arg
      = mkRun
          (inl {[ "enrichment" :=
                    PDict [ ("person",
                             PDict [ ("email", PStr arg);
                                     ("name", PStr "Data Enriched") ]) ] ]})
          [] []
    ∧ TraceModule._abuse_check env arg
      = mkRun
          (inl {[ "abuse_report" :=
                    PDict [ ("is_whitelisted", PBool false);
                            ("abuseConfidenceScore", PInt 0);
                            ("usageType", PStr "Content Delivery Network") ] ]})
          [] []
    ∧ (∀ env' arg',
         EmailModule._verify_email env' arg' = EmailModule._verify_email env arg
         ∧ TraceModule._abuse_check env' arg' = TraceModule._abuse_check env arg
         ∧ EmailModule._clearbit_enrichment env' arg = EmailModule._clearbit_enrichment env arg)
    ∧ List.filter is_network
        (pr_io (EmailModule._verify_email env arg)
           ++ pr_io (EmailModule._clearbit_enrichment env arg)
           ++ pr_io (TraceModule._abuse_check env arg)) = []
    ∧ (∀ e, pr_value (EmailModule._verify_email env arg) ≠ inr e
            ∧ pr_value (EmailModule._clearbit_enrichment env arg) ≠ inr e
            ∧ pr_value (TraceModule._abuse_check env arg) ≠ inr e).
Proof.
  intros env arg.
  split; [reflexivity|]. split; [reflexivity|]. split; [reflexivity|].
  split; [by intros env' arg'|]. split; [reflexivity|].
  intros e. by repeat split.
Qed.

(** * Further properties *)

(** ** Strings *)

Lemma string_app_cons (c : ascii) (s1 s2 : string) :
  String c s1 +:+ s2 = String c (s1 +:+ s2).
Proof. reflexivity. Qed.

Lemma string_app_nil_l (s : string) : "" +:+ s = s.
Proof. reflexivity. Qed.

Lemma string_app_nil_r (s : string) : s +:+ "" = s.
Proof. induction s as [|c s IH]; [done|]. by rewrite string_app_cons, IH. Qed.

Lemma string_app_assoc (s1 s2 s3 : string) : (s1 +:+ s2) +:+ s3 = s1 +:+ s2 +:+ s3.
Proof. induction s1 as [|c s1 IH]; [done|]. by rewrite !string_app_cons, IH. Qed.

Lemma string_app_eq_nil (s1 s2 : string) : s1 +:+ s2 = "" → s1 = "" ∧ s2 = "".
Proof. destruct s1; [done|]. rewrite string_app_cons. discriminate. Qed.

(** ** [matches] decides membership in the language *)

Lemma nullable_lang (r : regex) : nullable r = true ↔ lang r "".
Proof.
  induction r as [| |p|r1 IH1 r2 IH2|r1 IH1 r2 IH2|r IH]; simpl.
  - split; [discriminate|]. inversion 1.
  - split; [constructor|done].
  - split; [discriminate|]. inversion 1.
  - rewrite andb_true_iff, IH1, IH2. split.
    + intros [H1 H2]. by apply (lang_seq r1 r2 "" "").
    + inversion 1 as [| |? ? s1 s2 H1 H2 Heq| | | |]; subst.
      by apply string_app_eq_nil in H3 as [-> ->].
  - rewrite orb_true_iff, IH1, IH2. split.
    + intros [H|H]; [by apply lang_alt_l | by apply lang_alt_r].
    + inversion 1; subst; auto.
  - split; [constructor|done].
Qed.

Lemma lang_void (s : string) : ¬ lang Void s.
Proof. inversion 1. Qed.

Lemma seq_lang (r1 r2 : regex) (s : string) : lang (seq r1 r2) s ↔ lang (Seq r1 r2) s.
Proof.
  assert (∀ s, lang (Seq Eps r2) s ↔ lang r2 s) as Heps.
  { intros x. split.
    - inversion 1 as [| |? ? s1 s2 H1 H2| | | |]; subst. by inversion H1; subst.
    - intros H. by apply (lang_seq Eps r2 "" x); [constructor|]. }
  assert (∀ r s, lang (Seq r Void) s ↔ lang Void s) as Hvoid_r.
  { intros r x. split; [|by intros ?%lang_void].
    inversion 1 as [| |? ? s1 s2 H1 H2| | | |]; subst. by apply lang_void in H2. }
  assert (∀ r s, lang (Seq Void r) s ↔ lang Void s) as Hvoid_l.
  { intros r x. split; [|by intros ?%lang_void].
    inversion 1 as [| |? ? s1 s2 H1 H2| | | |]; subst. by apply lang_void in H1. }
  destruct r1, r2; simpl; rewrite ?Heps, ?Hvoid_r, ?Hvoid_l; done.
Qed.

Lemma alt_lang (r1 r2 : regex) (s : string) : lang (alt r1 r2) s ↔ lang (Alt r1 r2) s.
Proof.
  assert (∀ r, lang (Alt Void r) s ↔ lang r s) as Hl.
  { intros r. split; [|by apply lang_alt_r].
    inversion 1; subst; [by apply lang_void in H3 | done]. }
  assert (∀ r, lang (Alt r Void) s ↔ lang r s) as Hr.
  { intros r. split; [|by apply lang_alt_l].
    inversion 1; subst; [done | by apply lang_void in H3]. }
  destruct r1, r2; simpl; rewrite ?Hl, ?Hr; done.
Qed.

(** A non-empty word of a star starts with a non-empty word of its body. *)
Lemma lang_star_uncons (r : regex) (s : string) :
  lang (Star r) s → ∀ c s', s = String c s' →
  ∃ s1 s2, s' = s1 +:+ s2 ∧ lang r (String c s1) ∧ lang (Star r) s2.
Proof.
  intros H. remember (Star r) as r' eqn:Hr.
  induction H as [| | | | | |r0 s1 s2 H1 _ H2 IH2]; try discriminate.
  injection Hr as ->. intros c s' Heq.
  destruct s1 as [|c1 s1]; simpl in Heq.
  - by apply IH2.
  - injection Heq as -> <-. by exists s1, s2.
Qed.

Lemma deriv_lang (c : ascii) (r : regex) : ∀ s, lang (deriv c r) s ↔ lang r (String c s).
Proof.
  induction r as [| |p|r1 IH1 r2 IH2|r1 IH1 r2 IH2|r IH]; intros s; simpl.
  - split; inversion 1.
  - split; inversion 1.
  - destruct (p c) eqn:Hp; split.
    + inversion 1; subst. by constructor.
    + inversion 1; subst. constructor.
    + inversion 1.
    + inversion 1; subst. congruence.
  - assert (lang (Seq (deriv c r1) r2) s ∨ (lang r1 "" ∧ lang r2 (String c s))
            ↔ lang (Seq r1 r2) (String c s)) as Hseq.
    { split.
      - intros [H|[H1 H2]].
        + inversion H as [| |? ? s1 s2 Hd H2| | | |]; subst.
          apply IH1 in Hd. by apply (lang_seq r1 r2 (String c s1) s2).
        + by apply (lang_seq r1 r2 "" (String c s)).
      - inversion 1 as [| |? ? s1 s2 H1 H2 Heq| | | |]; subst.
        destruct s1 as [|c1 s1]; simpl in *.
        + right. by subst.
        + injection H3 as -> <-. left. apply lang_seq; [by apply IH1 | done]. }
    destruct (nullable r1) eqn:Hn.
    + rewrite alt_lang, <- Hseq. split.
      * inversion 1; subst; [left; by apply seq_lang|].
        right. split; [by apply nullable_lang | by apply IH2].
      * intros [H|[H1 H2]]; [apply lang_alt_l; by apply seq_lang|].
        apply lang_alt_r. by apply IH2.
    + rewrite seq_lang, <- Hseq. split; [by left|].
      intros [H|[H1 H2]]; [done|]. apply nullable_lang in H1. congruence.
  - rewrite alt_lang. split.
    + inversion 1; subst; [apply lang_alt_l; by apply IH1 | apply lang_alt_r; by apply IH2].
    + inversion 1; subst; [apply lang_alt_l; by apply IH1 | apply lang_alt_r; by apply IH2].
  - rewrite seq_lang. split.
    + inversion 1 as [| |? ? s1 s2 Hd H2| | | |]; subst.
      apply IH in Hd. by apply (lang_star_cons r (String c s1) s2).
    + intros H. destruct (lang_star_uncons r _ H c s eq_refl) as (s1 & s2 & -> & H1 & H2).
      apply lang_seq; [by apply IH | done].
Qed.

Lemma matches_lang (s : string) : ∀ r, matches r s = true ↔ lang r s.
Proof.
  induction s as [|c s IH]; intros r; simpl.
  - apply nullable_lang.
  - by rewrite IH, deriv_lang.
Qed.

(** ** The addresses [_validate_email] accepts *)

Lemma lang_seq_iff (r1 r2 : regex) (s : string) :
  lang (Seq r1 r2) s ↔ ∃ s1 s2, s = s1 +:+ s2 ∧ lang r1 s1 ∧ lang r2 s2.
Proof.
  split.
  - inversion 1; subst. by eexists _, _.
  - intros (s1 & s2 & -> & H1 & H2). by constructor.
Qed.

Lemma lang_class_iff (p : ascii → bool) (s : string) :
  lang (Class p) s ↔ ∃ c, s = String c "" ∧ p c = true.
Proof.
  split.
  - inversion 1; subst. by eexists.
  - intros (c & -> & Hp). by constructor.
Qed.

Lemma lang_char_iff (a : ascii) (s : string) :
  lang (Class (Ascii.eqb a)) s ↔ s = String a "".
Proof.
  rewrite lang_class_iff. split.
  - intros (c & -> & Hc). apply Ascii.eqb_eq in Hc. by subst.
  - intros ->. exists a. split; [done|]. apply Ascii.eqb_refl.
Qed.

Lemma chars_in_cons (p : ascii → bool) (c : ascii) (s : string) :
  chars_in p (String c s) = p c && chars_in p s.
Proof. reflexivity. Qed.

Lemma chars_in_app (p : ascii → bool) (s1 s2 : string) :
  chars_in p (s1 +:+ s2) = chars_in p s1 && chars_in p s2.
Proof.
  induction s1 as [|c s1 IH]; [done|].
  by rewrite string_app_cons, !chars_in_cons, IH, andb_assoc.
Qed.

Lemma lang_star_class (p : ascii → bool) (s : string) :
  lang (Star (Class p)) s ↔ chars_in p s = true.
Proof.
  split.
  - intros H. remember (Star (Class p)) as r eqn:Hr.
    induction H as [| | | | | |r0 s1 s2 H1 _ H2 IH2]; try discriminate; [done|].
    injection Hr as ->. apply lang_class_iff in H1 as (c & -> & Hc).
    rewrite string_app_cons, chars_in_cons, Hc. by apply IH2.
  - induction s as [|c s IH]; [constructor|].
    rewrite chars_in_cons, andb_true_iff. intros [Hc Hs].
    apply (lang_star_cons (Class p) (String c "") s); [by constructor | by apply IH].
Qed.

Lemma lang_plus_class (p : ascii → bool) (s : string) :
  lang (plus (Class p)) s ↔ s ≠ "" ∧ chars_in p s = true.
Proof.
  unfold plus. rewrite lang_seq_iff. split.
  - intros (s1 & s2 & -> & (c & -> & Hc)%lang_class_iff & H2%lang_star_class).
    rewrite string_app_cons, chars_in_cons, Hc. done.
  - intros [Hne Hs]. destruct s as [|c s]; [done|].
    rewrite chars_in_cons, andb_true_iff in Hs. destruct Hs as [Hc Hs].
    exists (String c ""), s. split; [done|]. split; [by constructor | by apply lang_star_class].
Qed.

Lemma lang_dollar (s : string) : lang dollar s ↔ s = "" ∨ s = String newline "".
Proof.
  unfold dollar. split.
  - inversion 1; subst.
    + left. by inversion H3.
    + right. by apply lang_char_iff.
  - intros [-> | ->]; [apply lang_alt_l; constructor | apply lang_alt_r; by apply lang_char_iff].
Qed.

Lemma pattern_lang (s : string) : lang EmailModule.pattern s ↔ address_shape s.
Proof.
  unfold EmailModule.pattern, address_shape. split.
  - intros (local & s1 & -> & [Hl1 Hl2]%lang_plus_class
            & (at_ & s2 & -> & ->%lang_char_iff
            & (domain & s3 & -> & [Hd1 Hd2]%lang_plus_class
            & (dot & s4 & -> & ->%lang_char_iff
            & (a1 & s5 & -> & (c1 & -> & Hc1)%lang_class_iff
            & (a2 & s6 & -> & (c2 & -> & Hc2)%lang_class_iff
            & (rest & nl & -> & Hrest%lang_star_class & Hnl%lang_dollar
              )%lang_seq_iff)%lang_seq_iff)%lang_seq_iff)%lang_seq_iff)%lang_seq_iff
              )%lang_seq_iff)%lang_seq_iff.
    exists local, domain, (String c1 (String c2 rest)), nl.
    split; [done|]. repeat (split; [done|]).
    split; [simpl; lia|]. split; [|done].
    by rewrite !chars_in_cons, Hc1, Hc2.
  - intros (local & domain & tld & nl & -> & Hl1 & Hl2 & Hd1 & Hd2 & Hlen & Htld & Hnl).
    destruct tld as [|c1 [|c2 rest]]; [simpl in Hlen; lia | simpl in Hlen; lia |].
    rewrite !chars_in_cons, !andb_true_iff in Htld. destruct Htld as (Hc1 & Hc2 & Hrest).
    apply lang_seq_iff. exists local. eexists. split; [reflexivity|].
    split; [by apply lang_plus_class|].
    apply lang_seq_iff. exists "@". eexists. split; [reflexivity|]. split; [by apply lang_char_iff|].
    apply lang_seq_iff. exists domain. eexists. split; [reflexivity|].
    split; [by apply lang_plus_class|].
    apply lang_seq_iff. exists ".". eexists. split; [reflexivity|]. split; [by apply lang_char_iff|].
    apply lang_seq_iff. exists (String c1 ""). eexists. split; [reflexivity|]. split; [by constructor|].
    apply lang_seq_iff. exists (String c2 ""). eexists. split; [reflexivity|]. split; [by constructor|].
    apply lang_seq_iff. exists rest, nl. split; [done|].
    split; [by apply lang_star_class | by apply lang_dollar].
Qed.

(** X1.  [_validate_email] accepts exactly the strings of the form
    [local@domain.tld], optionally followed by one newline: [local] and
    [domain] non-empty and drawn from their bracket classes, [tld] at
    least two ASCII letters. *)
Theorem validate_email_shape :
  ∀ s : string, EmailModule._validate_email s = true ↔ address_shape s.
Proof.
  intros s. unfold EmailModule._validate_email. by rewrite matches_lang, pattern_lang.
Qed.

(** X2.  The [$] of the pattern lets one trailing newline through: an
    accepted address without a newline is also accepted with a newline
    appended, and [find] then stores it with the newline. *)
Theorem find_keeps_trailing_newline :
  ∀ (s : string) (self : EmailModule.t) (w : World),
    EmailModule._validate_email s = true →
    chars_in (λ c, negb (Ascii.eqb c newline)) s = true →
    EmailModule._validate_email (s +:+ String newline "") = true
    ∧ EmailModule.target_email (EmailModule.find (s +:+ String newline "") self w).1
      = Some (s +:+ String newline "").
Proof.
  intros s self w Hvalid Hnonl.
  assert (EmailModule._validate_email (s +:+ String newline "") = true) as Hv.
  { apply validate_email_shape in Hvalid
      as (local & domain & tld & nl & -> & Hl1 & Hl2 & Hd1 & Hd2 & Hlen & Htld & Hnl).
    assert (nl = "") as ->.
    { destruct Hnl as [->| ->]; [done|].
      rewrite !chars_in_app in Hnonl. rewrite !andb_true_iff in Hnonl.
      destruct Hnonl as (_ & _ & _ & _ & _ & Hn). by vm_compute in Hn. }
    apply validate_email_shape. exists local, domain, tld, (String newline "").
    rewrite string_app_nil_r, !string_app_assoc.
    split; [done|]. repeat (split; [done|]). by right. }
  split; [done|]. unfold EmailModule.find. by rewrite Hv.
Qed.

Lemma find_keeps_trailing_newline_witness :
  EmailModule._validate_email ("a@b.co" +:+ String newline "") = true
  ∧ EmailModule.target_email
      (EmailModule.find ("a@b.co" +:+ String newline "") (EmailModule.mk None None ∅)
         Scenarios.blank).1
    = Some ("a@b.co" +:+ String newline "").
Proof.
  apply (find_keeps_trailing_newline "a@b.co" (EmailModule.mk None None ∅) Scenarios.blank).
  - by vm_compute.
  - by vm_compute.
Defined.

(** ** Where [execute] submits probes, and on what *)

Lemma elem_of_filter_submit (probe arg : string) (tr : list event) :
  Submit probe arg ∈ tr ↔ Submit probe arg ∈ List.filter is_submit tr.
Proof.
  rewrite !list_elem_of_In, List.filter_In. split; [by intros ?|by intros [? _]].
Qed.

Lemma email_execute_target (env : Env) (self : EmailModule.t) (w : World) :
  EmailModule.target_email (final (EmailModule.execute env self w)).1
  = EmailModule.target_email self.
Proof.
  destruct (str_truthy (EmailModule.target_email self)) eqn:Ht.
  - destruct (EmailModule.ensure_output env self w) as [s|e s] eqn:Hs.
    + rewrite (email_execute_run env self w s Ht Hs).
      set (scanned := EmailModule.scan env s.1 _).
      pose proof (email_save_self env scanned.1 scanned.2) as Hself.
      destruct (email_ensure_output_inv env self w s Hs) as (Htgt & _).
      assert (EmailModule.target_email scanned.1 = EmailModule.target_email self) as <-
        by (unfold scanned; by rewrite email_scan_target).
      destruct (EmailModule._save_results env scanned.1 scanned.2) as [[s2 w2]|e [s2 w2]];
        cbn [and_then final fst] in *; by subst s2.
    + unfold EmailModule.execute. rewrite Ht, Hs. cbn [negb and_then final].
      pose proof (email_ensure_output_final env self w) as [Htgt _].
      by rewrite Hs in Htgt.
  - by rewrite (email_guard env self w Ht).
Qed.

(** [execute] either submits nothing or, the target being set, submits
    the four probes on it. *)
Lemma email_execute_submits (env : Env) (self : EmailModule.t) (w : World) :
  List.filter is_submit (w_trace (final (EmailModule.execute env self w)).2)
    = List.filter is_submit (w_trace w)
  ∨ (str_truthy (EmailModule.target_email self) = true
     ∧ List.filter is_submit (w_trace (final (EmailModule.execute env self w)).2)
       = (List.filter is_submit (w_trace w)
            ++ submissions
                 (EmailModule.probes env (default "" (EmailModule.target_email self))))%list).
Proof.
  destruct (str_truthy (EmailModule.target_email self)) eqn:Ht.
  - destruct (EmailModule.ensure_output env self w) as [s|e s] eqn:Hs.
    + right. split; [done|]. rewrite (email_execute_run env self w s Ht Hs).
      set (scanned := EmailModule.scan env s.1 _).
      pose proof (email_save_submits env scanned.1 scanned.2) as Hsave.
      destruct (email_ensure_output_inv env self w s Hs) as (Htgt & _ & _ & _ & Hsub & _).
      assert (List.filter is_submit (w_trace scanned.2)
              = (List.filter is_submit (w_trace w)
                   ++ submissions
                        (EmailModule.probes env
                           (default "" (EmailModule.target_email self))))%list) as <-.
      { unfold scanned. rewrite email_scan_submits. cbn [emit w_trace]. by rewrite Hsub, Htgt. }
      destruct (EmailModule._save_results env scanned.1 scanned.2) as [[s2 w2]|e [s2 w2]];
        cbn [and_then final snd emit w_trace] in *; done.
    + left. unfold EmailModule.execute. rewrite Ht, Hs. cbn [negb and_then final].
      unfold EmailModule.ensure_output in Hs.
      destruct (negb (str_truthy (EmailModule.output_folder self))); [|done].
      destruct (makedirs_cases env "./email_results" w)
        as [(e' & _ & Hm)|(_ & w' & Hm & _)]; rewrite Hm in Hs; [|done].
      injection Hs as _ <-. cbn [snd perform w_trace].
      rewrite List.filter_app. cbn. by rewrite app_nil_r.
  - left. by rewrite (email_guard env self w Ht).
Qed.

Lemma email_submissions_arg (env : Env) (email probe arg : string) :
  Submit probe arg ∈ submissions (EmailModule.probes env email) → arg = email.
Proof.
  unfold submissions, EmailModule.probes. cbn [map fst snd].
  intros H. repeat (apply elem_of_cons in H as [H|H]; [by injection H|]).
  by apply elem_of_nil in H.
Qed.

Lemma email_step_invariant (c : email_call) (env : Env) (s : EmailModule.t * World) :
  (∀ e, EmailModule.target_email s.1 = Some e → EmailModule._validate_email e = true) →
  submits_valid (w_trace s.2) →
  (∀ e, EmailModule.target_email (final (email_step c env s)).1 = Some e →
        EmailModule._validate_email e = true)
  ∧ submits_valid (w_trace (final (email_step c env s)).2).
Proof.
  intros Htgt Hsub. destruct c as [email|folder| |]; cbn [email_step final].
  - unfold EmailModule.find.
    destruct (EmailModule._validate_email email) eqn:Hv; cbn [negb fst snd emit w_trace].
    + split; [|done]. cbn. by intros e [= <-].
    + done.
  - unfold EmailModule.output.
    destruct (makedirs_cases env folder s.2) as [(e & _ & ->)|(_ & w' & -> & _ & Htr & _)];
      cbn [fst snd emit perform w_trace EmailModule.target_email]; (split; [done|]);
      rewrite ?Htr; intros probe arg Hin;
      apply elem_of_app in Hin as [Hin|Hin%list_elem_of_singleton]; try done;
      by apply (Hsub probe).
  - rewrite email_execute_target. split; [done|].
    intros probe arg Hin. apply elem_of_filter_submit in Hin.
    destruct (email_execute_submits env s.1 s.2) as [Heq|[Ht Heq]]; rewrite Heq in Hin.
    + apply (Hsub probe). by apply elem_of_filter_submit.
    + apply elem_of_app in Hin as [Hin|Hin].
      * apply (Hsub probe). by apply elem_of_filter_submit.
      * apply email_submissions_arg in Hin as ->.
        destruct (EmailModule.target_email s.1) as [e|]; [|done]. by apply Htgt.
  - unfold EmailModule.notify.
    destruct (notify_error env); cbn [final fst snd emit perform w_trace];
      (split; [done|]); intros probe arg Hin;
      apply elem_of_app in Hin as [Hin|Hin%list_elem_of_singleton]; try done;
      by apply (Hsub probe).
Qed.

(** X3.  Whatever chain of [find], [output], [execute] and [notify] calls
    is made on a fresh [EmailModule], and whatever the environment does,
    no probe is ever submitted on an address that [_validate_email]
    rejects. *)
Theorem probes_only_on_valid_addresses :
  ∀ (calls : list (email_call * Env)) (w : World),
    submits_valid (w_trace w) →
    submits_valid
      (w_trace (final (email_chain calls (EmailModule.__init__ w))).2).
Proof.
  intros calls w Hw.
  assert (∀ s : EmailModule.t * World,
            (∀ e, EmailModule.target_email s.1 = Some e →
                  EmailModule._validate_email e = true) →
            submits_valid (w_trace s.2) →
            submits_valid (w_trace (final (email_chain calls s)).2)) as Hchain.
  { induction calls as [|[c env] rest IH]; intros s Htgt Hsub; cbn [email_chain]; [done|].
    destruct (email_step_invariant c env s Htgt Hsub) as [Htgt' Hsub'].
    destruct (email_step c env s) as [s'|e s']; cbn [and_then final] in *; [|done].
    by apply IH. }
  apply Hchain; [done|]. done.
Qed.

Lemma probes_only_on_valid_addresses_witness :
  submits_valid
    (w_trace
       (final (email_chain
                 [ (EFind "a@b.co", Scenarios.offline);
                   (EFind "not-an-address", Scenarios.offline);
                   (EOutput "out", Scenarios.offline);
                   (EExecute, Scenarios.offline);
                   (ENotify, Scenarios.no_desktop) ]
                 (EmailModule.__init__ Scenarios.blank))).2).
Proof.
  apply (probes_only_on_valid_addresses _ Scenarios.blank).
  intros probe arg Hin. by apply elem_of_nil in Hin.
Defined.

(** ** The keys of [self.results] *)

Section Keys.
Context {A : Type}.
Variable merge : A → dict → dict.
Variable payload : A → dict.
Hypothesis merge_payload : ∀ a results, merge a results = payload a ∪ results.

Lemma settle_dom_mono (os : list (waited A)) : ∀ results : dict,
  dom results ⊆ dom (foldl (settle merge) results os).
Proof.
  induction os as [|o os IH]; intros results; cbn [foldl]; [done|].
  etransitivity; [|apply IH].
  destruct o as [a|e|]; cbn [settle]; [|done|done].
  rewrite merge_payload, dom_union_L. apply union_subseteq_r.
Qed.

Lemma settle_dom_includes (os : list (waited A)) (a : A) : ∀ results : dict,
  Got a ∈ os → dom (payload a) ⊆ dom (foldl (settle merge) results os).
Proof.
  induction os as [|o os IH]; intros results Hin; [by apply elem_of_nil in Hin|].
  apply elem_of_cons in Hin as [<-|Hin]; cbn [foldl].
  - etransitivity; [|apply settle_dom_mono]. cbn [settle].
    rewrite merge_payload, dom_union_L. apply union_subseteq_l.
  - by apply IH.
Qed.

Lemma settle_dom_bound (keys : gset string) (os : list (waited A)) : ∀ results : dict,
  (∀ a, Got a ∈ os → dom (payload a) ⊆ keys) →
  dom (foldl (settle merge) results os) ⊆ dom results ∪ keys.
Proof.
  induction os as [|o os IH]; intros results Hk; cbn [foldl]; [apply union_subseteq_l|].
  etransitivity; [apply IH; intros a Ha; apply Hk; by right|].
  destruct o as [a|e|]; cbn [settle]; [|done|done].
  rewrite merge_payload, dom_union_L.
  apply union_least; [|apply union_subseteq_r].
  apply union_least; [|apply union_subseteq_l].
  apply union_subseteq_r', Hk. by left.
Qed.
End Keys.

(** Futures that are all done within the first [timeout] are all
    collected. *)
Lemma ledger_in_time {A : Type} (timeout : Z) (futures : list (Future A)) : ∀ now : Z,
  0 ≤ now →
  Forall (λ f, fut_done_at f ≤ timeout) futures →
  ledger timeout now futures
  = map (λ f, match pr_value (fut_run f) with inl v => Got v | inr e => Threw e end) futures.
Proof.
  induction futures as [|f rest IH]; intros now Hnow Hall; cbn [ledger map]; [done|].
  apply Forall_cons in Hall as [Hf Hrest].
  unfold future_result at 1 2.
  destruct (Z.leb_spec (fut_done_at f) (now + timeout)) as [_|Hlt]; [|lia].
  cbn [fst snd]. f_equal. apply IH; [lia | done].
Qed.

Lemma submit_from_in_time {A : Type} (env : Env) (timeout : Z)
    (probes : list (string * string * ProbeRun A)) : ∀ n : nat,
  (∀ i, (n ≤ i < n + length probes)%nat → done_at env i ≤ timeout) →
  Forall (λ f, fut_done_at f ≤ timeout) (submit_from env n probes).
Proof.
  induction probes as [|[[name arg] run] rest IH]; intros n Hin; cbn [submit_from];
    constructor.
  - cbn. apply Hin. cbn [length]. lia.
  - apply IH. intros i Hi. apply Hin. cbn [length]. lia.
Qed.

(** X4.  [execute] never removes a key from [self.results]: whatever
    the instance held before the call it still holds after, in all three
    modules, whether the call returns or raises.  (Results of an earlier
    run on the same instance therefore stay in the later run's results.) *)
Theorem execute_keeps_earlier_keys :
  ∀ (env : Env) (w : World),
    (∀ self : EmailModule.t,
       dom (EmailModule.results self)
       ⊆ dom (EmailModule.results (final (EmailModule.execute env self w)).1))
    ∧ (∀ self : TraceModule.t,
       dom (TraceModule.results self)
       ⊆ dom (TraceModule.results (final (TraceModule.execute env self w)).1))
    ∧ (∀ self : UsernameModule.t,
       dom (UsernameModule.results self)
       ⊆ dom (UsernameModule.results (final (UsernameModule.execute env self w)).1)).
Proof.
  intros env w. split; [|split]; intros self.
  - destruct (email_execute_results env self w) as [-> | ->]; [done|].
    apply (settle_dom_mono EmailModule.merge id email_merge_payload).
  - destruct (trace_execute_results env self w) as [-> | ->]; [done|].
    apply (settle_dom_mono TraceModule.merge id trace_merge_payload).
  - destruct (username_execute_results env self w) as [-> | ->]; [done|].
    apply (settle_dom_mono UsernameModule.merge (default ∅) username_merge_payload).
Qed.

Lemma email_ledger_keys (env : Env) (email : string) (timeout now : Z) (a : dict) :
  Got a ∈ ledger timeout now (submit_from env 0 (EmailModule.probes env email)) →
  dom a ⊆ email_keys.
Proof.
  intros [i Hi]%list_elem_of_lookup.
  destruct (ledger_got _ _ _ _ _ Hi) as (f & Hf & Hval).
  destruct (submit_from_lookup _ _ _ _ _ Hf) as (name & arg & Hprobe).
  destruct (email_probe_values env email) as (v1 & v2 & v3 & v4 & H1 & H2 & H3 & H4).
  unfold EmailModule.probes in Hprobe.
  destruct i as [|[|[|[|i]]]]; cbn in Hprobe; try discriminate Hprobe;
    injection Hprobe as _ _ Hrun; rewrite <- Hrun in Hval.
  - rewrite H1 in Hval. injection Hval as <-. rewrite dom_singleton_L.
    unfold email_keys. set_solver.
  - rewrite H2 in Hval. injection Hval as <-. rewrite dom_singleton_L.
    unfold email_keys. set_solver.
  - rewrite H3 in Hval. injection Hval as <-. rewrite dom_singleton_L.
    unfold email_keys. set_solver.
  - rewrite H4 in Hval. injection Hval as <-. rewrite dom_singleton_L.
    unfold email_keys. set_solver.
Qed.

Lemma trace_ledger_keys (env : Env) (ip : string) (timeout now : Z) (a : dict) :
  Got a ∈ ledger timeout now (submit_from env 0 (TraceModule.probes env ip)) →
  dom a ⊆ trace_keys.
Proof.
  intros [i Hi]%list_elem_of_lookup.
  destruct (ledger_got _ _ _ _ _ Hi) as (f & Hf & Hval).
  destruct (submit_from_lookup _ _ _ _ _ Hf) as (name & arg & Hprobe).
  destruct (trace_probe_values env ip) as (v1 & v2 & v3 & v4 & v5 & H1 & H2 & H3 & H4 & H5).
  unfold TraceModule.probes in Hprobe.
  destruct i as [|[|[|[|[|i]]]]]; cbn in Hprobe; try discriminate Hprobe;
    injection Hprobe as _ _ Hrun; rewrite <- Hrun in Hval.
  - rewrite H1 in Hval. injection Hval as <-. rewrite dom_singleton_L.
    unfold trace_keys. set_solver.
  - rewrite H2 in Hval. injection Hval as <-. rewrite dom_singleton_L.
    unfold trace_keys. set_solver.
  - rewrite H3 in Hval. injection Hval as <-. rewrite dom_singleton_L.
    unfold trace_keys. set_solver.
  - rewrite H4 in Hval. injection Hval as <-. rewrite dom_singleton_L.
    unfold trace_keys. set_solver.
  - rewrite H5 in Hval. injection Hval as <-. rewrite dom_singleton_L.
    unfold trace_keys. set_solver.
Qed.

Lemma email_ledger_complete (env : Env) (email : string) (results : dict) :
  (∀ i, (i < 4)%nat → done_at env i ≤ seconds 10) →
  email_keys
  ⊆ dom (foldl (settle EmailModule.merge) results
           (ledger (seconds 10) 0 (submit_from env 0 (EmailModule.probes env email)))).
Proof.
  intros Htime.
  rewrite ledger_in_time; [|done|].
  2:{ apply submit_from_in_time. intros i Hi. apply Htime. cbn in Hi. lia. }
  destruct (email_probe_values env email) as (v1 & v2 & v3 & v4 & H1 & H2 & H3 & H4).
  unfold EmailModule.probes. cbn [submit_from map fut_run]. rewrite H1, H2, H3, H4.
  cbn [foldl settle]. unfold EmailModule.merge, dict_update.
  rewrite !dom_union_L, !dom_singleton_L. unfold email_keys.
  intros k. rewrite !elem_of_union, !elem_of_singleton. tauto.
Qed.

Lemma trace_ledger_complete (env : Env) (ip : string) (results : dict) :
  (∀ i, (i < 5)%nat → done_at env i ≤ seconds 15) →
  trace_keys
  ⊆ dom (foldl (settle TraceModule.merge) results
           (ledger (seconds 15) 0 (submit_from env 0 (TraceModule.probes env ip)))).
Proof.
  intros Htime.
  rewrite ledger_in_time; [|done|].
  2:{ apply submit_from_in_time. intros i Hi. apply Htime. cbn in Hi. lia. }
  destruct (trace_probe_values env ip) as (v1 & v2 & v3 & v4 & v5 & H1 & H2 & H3 & H4 & H5).
  unfold TraceModule.probes. cbn [submit_from map fut_run]. rewrite H1, H2, H3, H4, H5.
  cbn [foldl settle]. unfold TraceModule.merge, dict_update.
  rewrite !dom_union_L, !dom_singleton_L. unfold trace_keys.
  intros k. rewrite !elem_of_union, !elem_of_singleton. tauto.
Qed.

(** X5.  An email run adds to the results no field but [breaches],
    [reputation], [verification] and [enrichment]; and when the target is
    set, the output folder can be had and each of the four futures is
    done within ten seconds of the start of the loop, it adds all four,
    whether or not the network answered. *)
Theorem email_result_fields :
  ∀ (env : Env) (self : EmailModule.t) (w : World),
    dom (EmailModule.results (final (EmailModule.execute env self w)).1)
    ⊆ dom (EmailModule.results self) ∪ email_keys
    ∧ (str_truthy (EmailModule.target_email self) = true →
       makedirs_error env "./email_results" = None →
       (∀ i, (i < 4)%nat → done_at env i ≤ seconds 10) →
       dom (EmailModule.results (final (EmailModule.execute env self w)).1)
       = dom (EmailModule.results self) ∪ email_keys).
Proof.
  intros env self w.
  assert (dom (EmailModule.results (final (EmailModule.execute env self w)).1)
          ⊆ dom (EmailModule.results self) ∪ email_keys) as Hsub.
  { destruct (email_execute_results env self w) as [-> | ->]; [apply union_subseteq_l|].
    apply (settle_dom_bound EmailModule.merge id email_merge_payload).
    intros a Ha. by apply email_ledger_keys in Ha. }
  split; [done|]. intros Ht Hm Htime.
  apply (anti_symm (⊆)); [done|].
  destruct (email_execute_completes env self w Ht Hm) as (self' & w' & r & Hrun & Hres & _).
  rewrite Hrun. cbn [final fst]. rewrite Hres. apply union_least.
  - apply (settle_dom_mono EmailModule.merge id email_merge_payload).
  - by apply email_ledger_complete.
Qed.

(** X6.  A trace run adds to the results no field but [geolocation],
    [asn_info], [abuse_report], [dns_reverse] and [open_ports]; and when
    the target is set, the output folder can be had and each of the five
    futures is done within fifteen seconds of the start of the loop, it
    adds all five, whether or not the network answered. *)
Theorem trace_result_fields :
  ∀ (env : Env) (self : TraceModule.t) (w : World),
    dom (TraceModule.results (final (TraceModule.execute env self w)).1)
    ⊆ dom (TraceModule.results self) ∪ trace_keys
    ∧ (str_truthy (TraceModule.target_ip self) = true →
       makedirs_error env "./trace_results" = None →
       (∀ i, (i < 5)%nat → done_at env i ≤ seconds 15) →
       dom (TraceModule.results (final (TraceModule.execute env self w)).1)
       = dom (TraceModule.results self) ∪ trace_keys).
Proof.
  intros env self w.
  assert (dom (TraceModule.results (final (TraceModule.execute env self w)).1)
          ⊆ dom (TraceModule.results self) ∪ trace_keys) as Hsub.
  { destruct (trace_execute_results env self w) as [-> | ->]; [apply union_subseteq_l|].
    apply (settle_dom_bound TraceModule.merge id trace_merge_payload).
    intros a Ha. by apply trace_ledger_keys in Ha. }
  split; [done|]. intros Ht Hm Htime.
  apply (anti_symm (⊆)); [done|].
  destruct (trace_execute_completes env self w Ht Hm) as (self' & w' & r & Hrun & Hres & _).
  rewrite Hrun. cbn [final fst]. rewrite Hres. apply union_least.
  - apply (settle_dom_mono TraceModule.merge id trace_merge_payload).
  - by apply trace_ledger_complete.
Qed.

Lemma email_result_fields_witness :
  dom (EmailModule.results
         (final (EmailModule.execute Scenarios.offline Scenarios.email_session.1
                   Scenarios.email_session.2)).1)
  = dom (EmailModule.results Scenarios.email_session.1) ∪ email_keys.
Proof.
  apply (proj2 (email_result_fields Scenarios.offline Scenarios.email_session.1
                  Scenarios.email_session.2)).
  - by vm_compute.
  - reflexivity.
  - intros i _. by vm_compute.
Defined.

Lemma trace_result_fields_witness :
  dom (TraceModule.results
         (final (TraceModule.execute Scenarios.offline Scenarios.trace_session.1
                   Scenarios.trace_session.2)).1)
  = dom (TraceModule.results Scenarios.trace_session.1) ∪ trace_keys.
Proof.
  apply (proj2 (trace_result_fields Scenarios.offline Scenarios.trace_session.1
                  Scenarios.trace_session.2)).
  - by vm_compute.
  - reflexivity.
  - intros i _. by vm_compute.
Defined.

(** ** How long the loop waits *)

Section Deadlines.
Context {A : Type}.
Variable timeout : Z.
Hypothesis timeout_nonneg : 0 ≤ timeout.
Variable merge : A → dict → dict.
Variable label : string.


End Deadlines.



(** ** [_port_scan] *)

(** X8.  [_port_scan] tries each of the twelve common ports once, in
    order, whatever happens on the others; it reports, in that order,
    exactly the ports whose [connect_ex] returned 0; a port on which the
    attempt raised is left out and the scan goes on; the function itself
    never raises. *)
Theorem port_scan_reports_open_ports :
  ∀ (env : Env) (ip : string),
    ∃ open_ports : list Z,
      TraceModule._port_scan env ip
      = mkRun (inl {[ "open_ports" := PList (PInt <$> open_ports) ]}) []
          (Connect ip <$> TraceModule.common_ports)
      ∧ open_ports `sublist_of` TraceModule.common_ports
      ∧ ∀ port, port ∈ open_ports
                ↔ port ∈ TraceModule.common_ports ∧ connect_ex env ip port = inl 0.
Proof.
  intros env ip. unfold TraceModule._port_scan. eexists. split; [reflexivity|]. split.
  - apply sublist_filter.
  - intros port. rewrite list_elem_of_filter. split.
    + intros [Hopen Hin]. split; [done|].
      destruct (connect_ex env ip port) as [result|e]; [|done].
      apply Z.eqb_eq in Hopen. by subst.
    + intros [Hin ->]. split; [|done]. reflexivity.
Qed.

(** ** Where a value of the results comes from *)

Section Origins.
Context {A : Type}.
Variable merge : A → dict → dict.
Variable payload : A → dict.
Hypothesis merge_payload : ∀ a results, merge a results = payload a ∪ results.

Lemma settle_value_origin (k : string) (v : pyval) (os : list (waited A)) :
  ∀ results : dict,
    foldl (settle merge) results os !! k = Some v →
    results !! k = Some v ∨ ∃ a, Got a ∈ os ∧ payload a !! k = Some v.
Proof.
  induction os as [|o os IH]; intros results Hv; cbn [foldl] in Hv; [by left|].
  destruct (IH _ Hv) as [Hhere|(a & Hin & Ha)].
  - destruct o as [a|e|]; cbn [settle] in Hhere; [|by left|by left].
    rewrite merge_payload in Hhere.
    apply lookup_union_Some_raw in Hhere as [Ha|[_ Hres]]; [|by left].
    right. exists a. split; [by left|done].
  - right. exists a. split; [by right|done].
Qed.
End Origins.

(** ** [str.format] on the platform templates *)

Lemma str_format_copy (c : ascii) (rest arg : string) :
  Ascii.eqb c "{" = false →
  str_format (String c rest) arg = String c (str_format rest arg).
Proof.
  destruct c as [[|] [|] [|] [|] [|] [|] [|] [|]]; intros H; try reflexivity.
  vm_compute in H. discriminate H.
Qed.

Lemma str_format_plain (s arg : string) : plain s = true → str_format s arg = s.
Proof.
  induction s as [|c s IH]; [done|].
  unfold plain. rewrite chars_in_cons, !andb_true_iff, !negb_true_iff.
  intros [[Hc _] Hs]. rewrite str_format_copy by done. by rewrite IH.
Qed.

Lemma str_format_plain_app (before rest arg : string) :
  plain before = true →
  str_format (before +:+ rest) arg = before +:+ str_format rest arg.
Proof.
  induction before as [|c before IH]; [done|].
  unfold plain. rewrite chars_in_cons, !andb_true_iff, !negb_true_iff.
  intros [[Hc _] Hs]. rewrite !string_app_cons, str_format_copy by done. by rewrite IH.
Qed.

(** A template made of plain text around one [{0}] is filled by putting
    the argument in the place of the field. *)
Lemma str_format_one_field (before after arg : string) :
  plain before = true → plain after = true →
  str_format (before +:+ "{0}" +:+ after) arg = before +:+ arg +:+ after.
Proof.
  intros Hb Ha. rewrite str_format_plain_app by done.
  change (str_format ("{0}" +:+ after) arg) with (arg +:+ str_format after arg).
  by rewrite str_format_plain.
Qed.

Lemma string_app_inv_head (s t1 t2 : string) : s +:+ t1 = s +:+ t2 → t1 = t2.
Proof. apply (inj (String.app s)). Qed.

(** Splits each template of a list at its field and checks the text
    around it. *)
Ltac split_templates :=
  repeat match goal with
  | |- Forall _ [] => constructor
  | |- Forall _ ((_, ?t) :: _) =>
      constructor;
      [ let r := eval vm_compute in (around_field t) in
        match r with
        | Some (?b, ?a) => exists b, a; repeat split; vm_compute; reflexivity
        end
      | ]
  end.

Lemma platform_templates_one_field :
  Forall (λ p : string * string, one_field p.2) UsernameModule._setup_platforms.
Proof.
  unfold one_field.
  assert (UsernameModule._setup_platforms
          = ltac:(let l := eval vm_compute in UsernameModule._setup_platforms in exact l))
    as -> by (vm_compute; reflexivity).
  split_templates.
Qed.

(** X13.  Each of the platform templates that [_setup_platforms] stores
    is plain text around one [{0}]: the URL that is probed is the
    template with the target put in the place of the field, so on every
    platform two different targets are probed at two different URLs. *)
Theorem platform_urls :
  ∀ (platform template : string),
    (platform, template) ∈ UsernameModule._setup_platforms →
    ∃ before after,
      template = before +:+ "{0}" +:+ after
      ∧ (∀ target, str_format template target = before +:+ target +:+ after)
      ∧ (∀ target1 target2,
           str_format template target1 = str_format template target2 → target1 = target2).
Proof.
  intros platform template Hin.
  pose proof platform_templates_one_field as Hall.
  rewrite Forall_forall in Hall.
  destruct (Hall _ Hin) as (before & after & Heq & Hb & Ha). cbn [snd] in Heq.
  exists before, after. split; [done|].
  assert (∀ target, str_format template target = before +:+ target +:+ after) as Hfill
    by (intros target; rewrite Heq; by apply str_format_one_field).
  split; [done|].
  intros target1 target2 Hsame. rewrite !Hfill in Hsame.
  apply string_app_inv_head in Hsame. by apply string_app_inv_tail in Hsame.
Qed.

(** ** Runs of [UsernameModule] *)

Lemma username_run_results (env : Env) (self : UsernameModule.t) (w : World)
    (s : UsernameModule.t * World) :
  str_truthy (UsernameModule.target_username self) = true →
  UsernameModule.ensure_output env self w = Returns s →
  UsernameModule.results (final (UsernameModule.execute env self w)).1
  = foldl (settle UsernameModule.merge) (UsernameModule.results self)
      (ledger (seconds 10) 0 (submit_from env 0 (UsernameModule.probes env self))).
Proof.
  intros Ht Hs. rewrite (username_execute_run env self w s Ht Hs).
  set (scanned := UsernameModule.scan env s.1 _).
  pose proof (username_save_self env scanned.1 scanned.2) as Hself.
  assert (UsernameModule.results scanned.1
          = foldl (settle UsernameModule.merge) (UsernameModule.results self)
              (ledger (seconds 10) 0
                 (submit_from env 0 (UsernameModule.probes env self)))) as <-.
  { unfold scanned. rewrite username_scan_results.
    destruct (username_ensure_output_inv env self w s Hs) as (Htgt & Hres & _).
    pose proof (username_ensure_output_platforms env self w) as Hpl.
    rewrite Hs in Hpl. cbn [final] in Hpl.
    by rewrite Hres, (username_probes_target env s.1 self Htgt Hpl). }
  destruct (UsernameModule._save_results env scanned.1 scanned.2) as [[s2 w2]|e [s2 w2]];
    cbn [and_then final fst] in *; by subst s2.
Qed.

(** What the future of one platform can hand back. *)
Lemma check_platform_value (env : Env) (self : UsernameModule.t) (platform url : string) :
  (∃ status b,
     requests_head env (str_format url (UsernameModule.target_text self)) = Response status b
     ∧ UsernameModule.found_status status = true
     ∧ pr_value (UsernameModule._check_platform env self platform url)
       = inl (Some {[ platform
                        := PStr (str_format url (UsernameModule.target_text self)) ]}))
  ∨ ((∀ status b,
        requests_head env (str_format url (UsernameModule.target_text self))
          = Response status b →
        UsernameModule.found_status status = false)
     ∧ pr_value (UsernameModule._check_platform env self platform url) = inl None).
Proof.
  unfold UsernameModule._check_platform.
  destruct (requests_head env _) as [status b|e] eqn:Hhead.
  - destruct (UsernameModule.found_status status) eqn:Hfound.
    + left. by exists status, b.
    + right. split; [|done]. intros status' b' [= <- <-]. done.
  - right. split; [|done]. intros status b [=].
Qed.

(** X9.  Where the templates of [self.platforms] are plain text around
    one [{0}], as those of [_setup_platforms] are, every entry of the
    results of a username run that started with empty results is a
    platform of [self.platforms] together with its URL, the template with
    the target in the place of the field, and the [HEAD] request to that
    URL was answered with status 200, 301, 302 or 303. *)
Theorem username_matches_are_sound :
  ∀ (env : Env) (self : UsernameModule.t) (w : World) (platform : string) (v : pyval),
    Forall (λ p : string * string, one_field p.2) (UsernameModule.platforms self) →
    UsernameModule.results self = ∅ →
    UsernameModule.results (final (UsernameModule.execute env self w)).1 !! platform
      = Some v →
    ∃ before after status b,
      (platform, before +:+ "{0}" +:+ after) ∈ UsernameModule.platforms self
      ∧ plain before = true ∧ plain after = true
      ∧ v = PStr (before +:+ UsernameModule.target_text self +:+ after)
      ∧ requests_head env (before +:+ UsernameModule.target_text self +:+ after)
        = Response status b
      ∧ UsernameModule.found_status status = true.
Proof.
  intros env self w platform v Hfields Hempty Hv.
  destruct (username_execute_results env self w) as [Hres|Hres]; rewrite Hres in Hv.
  { by rewrite Hempty, lookup_empty in Hv. }
  rewrite Hempty in Hv.
  destruct (settle_value_origin UsernameModule.merge (default ∅) username_merge_payload
              platform v _ ∅ Hv) as [Hnone|(a & Hin & Ha)].
  { by rewrite lookup_empty in Hnone. }
  apply list_elem_of_lookup in Hin as [i Hi].
  destruct (ledger_got _ _ _ _ _ Hi) as (f & Hf & Hval).
  destruct (submit_from_lookup _ _ _ _ _ Hf) as (name & arg & Hprobe).
  unfold UsernameModule.probes in Hprobe.
  apply map_lookup_inv in Hprobe as ([platform' url] & Hpl & Heq).
  injection Heq as _ _ Hrun. rewrite Hrun in Hval.
  assert ((platform', url) ∈ UsernameModule.platforms self) as Hmember
    by (apply list_elem_of_lookup; by exists i).
  rewrite Forall_forall in Hfields.
  destruct (Hfields _ Hmember) as (before & after & Hurl & Hb & Ha'). cbn [snd] in Hurl.
  subst url.
  destruct (check_platform_value env self platform' (before +:+ "{0}" +:+ after))
    as [(status & b & Hhead & Hfound & Hvalue)|[_ Hvalue]];
    rewrite Hvalue in Hval; injection Hval as <-; cbn in Ha.
  - apply lookup_singleton_Some in Ha as [-> <-].
    rewrite str_format_one_field in Hhead |- * by done.
    by exists before, after, status, b.
  - by rewrite lookup_empty in Ha.
Qed.

Lemma username_matches_are_sound_witness :
  ∃ before after status b,
    (("github", before +:+ "{0}" +:+ after) : string * string)
      ∈ UsernameModule.platforms Scenarios.username_session.1
    ∧ plain before = true ∧ plain after = true
    ∧ PStr "https://www.github.com/someone"
      = PStr (before +:+ UsernameModule.target_text Scenarios.username_session.1 +:+ after)
    ∧ requests_head github_answers
        (before +:+ UsernameModule.target_text Scenarios.username_session.1 +:+ after)
      = Response status b
    ∧ UsernameModule.found_status status = true.
Proof.
  apply (username_matches_are_sound github_answers Scenarios.username_session.1
           Scenarios.username_session.2 "github" (PStr "https://www.github.com/someone")).
  - apply platform_templates_one_field.
  - reflexivity.
  - vm_compute. reflexivity.
Defined.

(** X10.  A platform whose template is plain text around one [{0}], as
    those of [_setup_platforms] are, whose future is done within ten
    seconds of the start of the loop and whose [HEAD] request (to the
    template with the target in the place of the field) is answered with
    status 200, 301, 302 or 303, is in the results when [execute] is
    over, with that URL; no other platform's result can take its place,
    the platform names being the keys of a dict. *)
Theorem username_match_is_reported :
  ∀ (env : Env) (self : UsernameModule.t) (w : World) (i : nat)
    (platform before after : string) (status : Z) (b : body),
    str_truthy (UsernameModule.target_username self) = true →
    makedirs_error env "./username_results" = None →
    NoDup (UsernameModule.platforms self).*1 →
    UsernameModule.platforms self !! i = Some (platform, before +:+ "{0}" +:+ after) →
    plain before = true →
    plain after = true →
    done_at env i ≤ seconds 10 →
    requests_head env (before +:+ UsernameModule.target_text self +:+ after)
      = Response status b →
    UsernameModule.found_status status = true →
    UsernameModule.results (final (UsernameModule.execute env self w)).1 !! platform
    = Some (PStr (before +:+ UsernameModule.target_text self +:+ after)).
Proof.
  intros env self w i platform before after status b Ht Hm Hnodup Hi Hb Ha Htime Hhead
    Hfound.
  set (url := before +:+ "{0}" +:+ after) in *.
  assert (str_format url (UsernameModule.target_text self)
          = before +:+ UsernameModule.target_text self +:+ after) as Hfill
    by (by apply str_format_one_field).
  rewrite <- Hfill in Hhead |- *.
  destruct (username_ensure_output env self w Hm) as (s & Hs & _).
  rewrite (username_run_results env self w s Ht Hs).
  set (futures := submit_from env 0 (UsernameModule.probes env self)).
  assert (futures !! i
          = Some (mkFuture "_check_platform"
                    (UsernameModule._check_platform env self platform url)
                    (done_at env i))) as Hf.
  { unfold futures, UsernameModule.probes.
    rewrite (submit_from_lookup_fwd env _ 0 i "_check_platform" platform
               (UsernameModule._check_platform env self platform url)); [done|].
    by rewrite (map_lookup_fwd _ _ i (platform, url) Hi). }
  assert (pr_value (UsernameModule._check_platform env self platform url)
          = inl (Some {[ platform
                           := PStr (str_format url (UsernameModule.target_text self)) ]}))
    as Hvalue.
  { unfold UsernameModule._check_platform. by rewrite Hhead, Hfound. }
  apply (settle_last_writer UsernameModule.merge (default ∅) username_merge_payload
           platform _ _ _ i
           (Some {[ platform := PStr (str_format url (UsernameModule.target_text self)) ]})).
  - destruct (ledger_lookup (seconds 10) ltac:(by vm_compute) futures 0 i _ Hf)
      as (now_i & Hbound & ->).
    unfold future_result. cbn [fut_done_at fut_run].
    destruct (Z.leb_spec (done_at env i) (now_i + seconds 10)) as [_|Hlt];
      [|unfold seconds in *; lia].
    by rewrite Hvalue.
  - cbn. apply lookup_singleton_eq.
  - intros j' a' Hlt Hj'.
    destruct (ledger_got _ _ _ _ _ Hj') as (f' & Hf' & Hval').
    destruct (submit_from_lookup _ _ _ _ _ Hf') as (name & arg & Hprobe).
    unfold UsernameModule.probes in Hprobe.
    apply map_lookup_inv in Hprobe as ([platform' url'] & Hpl & Heq).
    injection Heq as _ _ Hrun. rewrite Hrun in Hval'.
    assert (platform' ≠ platform) as Hne.
    { intros ->. assert (j' = i) as ->; [|lia].
      apply (NoDup_lookup _ j' i platform Hnodup); rewrite list_lookup_fmap.
      - by rewrite Hpl.
      - by rewrite Hi. }
    destruct (check_platform_value env self platform' url')
      as [(status' & b' & _ & _ & Hvalue')|[_ Hvalue']];
      rewrite Hvalue' in Hval'; injection Hval' as <-; cbn.
    + by apply lookup_singleton_ne.
    + apply lookup_empty.
Qed.

Lemma username_match_is_reported_witness :
  UsernameModule.results
    (final (UsernameModule.execute github_answers Scenarios.username_session.1
              Scenarios.username_session.2)).1 !! "github"
  = Some (PStr ("https://www.github.com/"
                  +:+ UsernameModule.target_text Scenarios.username_session.1 +:+ "")).
Proof.
  apply (username_match_is_reported github_answers Scenarios.username_session.1
           Scenarios.username_session.2 30%nat "github" "https://www.github.com/" ""
           200 (JsonBody PNone)).
  - by vm_compute.
  - reflexivity.
  - apply dict_display_NoDup.
  - vm_compute. reflexivity.
  - vm_compute. reflexivity.
  - reflexivity.
  - by vm_compute.
  - vm_compute. reflexivity.
  - by vm_compute.
Defined.

(** [os.listdir] stands outside the [try] of [_save_results]. *)
Lemma username_save_cases (env : Env) (self : UsernameModule.t) (w : World)
    (folder : string) :
  UsernameModule.output_folder self = Some folder →
  (UsernameModule.results self = ∅
   ∨ (listdir_error env folder = None ∧ is_Some (w_fs w !! folder)) →
   ∃ w', UsernameModule._save_results env self w = Returns (self, w'))
  ∧ (UsernameModule.results self ≠ ∅ →
     ∀ e, os_listdir env folder w = inr e →
          UsernameModule._save_results env self w
          = Raises e (self, perform (Listdir folder) w)).
Proof.
  intros Hfolder. unfold UsernameModule._save_results, dict_truthy. rewrite Hfolder.
  change (os_listdir env folder (perform (Listdir folder) w))
    with (os_listdir env folder w).
  split.
  - intros Hwhy. case_bool_decide as Hempty; cbn [negb]; [by eexists|].
    destruct Hwhy as [?|[Hlist [entries Hdir]]]; [done|].
    unfold os_listdir. rewrite Hlist, Hdir.
    destruct (write_json env folder _ (UsernameModule.results self) _); by eexists.
  - intros Hne e He. rewrite bool_decide_eq_false_2 by done. cbn [negb]. by rewrite He.
Qed.

(** X11.  A username run whose output folder is set returns normally
    when it ends with empty results, or when the folder is there and its
    listing is not refused.  When it ends with results and [os.listdir]
    raises (the exception with which the operating system refuses the
    listing, or [FileNotFoundError] for a folder that is not there),
    [execute] is left by that exception: nothing is written and the
    completion is not logged, the results staying in the instance. *)
Theorem username_run_needs_its_folder :
  ∀ (env : Env) (self : UsernameModule.t) (w : World)
    (s : UsernameModule.t * World) (folder : string),
    str_truthy (UsernameModule.target_username self) = true →
    UsernameModule.ensure_output env self w = Returns s →
    UsernameModule.output_folder s.1 = Some folder →
    (UsernameModule.results (final (UsernameModule.execute env self w)).1 = ∅
     ∨ (listdir_error env folder = None ∧ is_Some (w_fs s.2 !! folder)) →
     returned (UsernameModule.execute env self w) = true)
    ∧ (UsernameModule.results (final (UsernameModule.execute env self w)).1 ≠ ∅ →
       ∀ e,
         listdir_error env folder = Some e
         ∨ (listdir_error env folder = None ∧ w_fs s.2 !! folder = None
            ∧ e = Exn "FileNotFoundError" (enoent env folder)) →
         ∃ st, UsernameModule.execute env self w = Raises e st
               ∧ w_fs st.2 = w_fs s.2
               ∧ UsernameModule.results st.1 ≠ ∅).
Proof.
  intros env self w s folder Ht Hs Hfolder.
  rewrite (username_execute_run env self w s Ht Hs).
  set (scanned := UsernameModule.scan env s.1 _).
  assert (UsernameModule.output_folder scanned.1 = Some folder) as Hf
    by (unfold scanned; by rewrite username_scan_folder).
  assert (w_fs scanned.2 = w_fs s.2) as Hfs
    by (unfold scanned; by rewrite username_scan_fs).
  pose proof (username_save_self env scanned.1 scanned.2) as Hself.
  destruct (username_save_cases env scanned.1 scanned.2 folder Hf) as [Hok Hraise].
  assert (UsernameModule.results
            (final (and_then (UsernameModule._save_results env scanned.1 scanned.2)
                      (λ s0, Returns (s0.1,
                         emit INFO ("Username reconnaissance completed. Found "
                                      +:+ pretty (size (UsernameModule.results s0.1))
                                      +:+ " matches") s0.2)))).1
          = UsernameModule.results scanned.1) as ->.
  { destruct (UsernameModule._save_results env scanned.1 scanned.2) as [[s2 w2]|e [s2 w2]];
      cbn [and_then final fst] in *; by subst s2. }
  rewrite Hfs in Hok. split.
  - intros Hwhy. destruct (Hok Hwhy) as [w' ->]. done.
  - intros Hne e Hwhy.
    assert (os_listdir env folder scanned.2 = inr e) as He.
    { unfold os_listdir. rewrite Hfs.
      destruct Hwhy as [->|(-> & -> & ->)]; done. }
    rewrite (Hraise Hne e He). cbn [and_then].
    eexists. split; [reflexivity|]. cbn [fst snd perform w_fs]. by rewrite Hfs.
Qed.

Lemma username_run_needs_its_folder_witness :
  returned (UsernameModule.execute Scenarios.offline username_in_missing_folder
              Scenarios.blank) = true
  ∧ ∃ st, UsernameModule.execute github_answers username_in_missing_folder Scenarios.blank
          = Raises (Exn "FileNotFoundError" "[Errno 2] No such file or directory: 'gone'") st
          ∧ w_fs st.2 = w_fs Scenarios.blank
          ∧ UsernameModule.results st.1 ≠ ∅.
Proof.
  split.
  - apply (proj1 (username_run_needs_its_folder Scenarios.offline username_in_missing_folder
                    Scenarios.blank (username_in_missing_folder, Scenarios.blank) "gone"
                    eq_refl eq_refl eq_refl)).
    left. vm_compute. reflexivity.
  - apply (proj2 (username_run_needs_its_folder github_answers username_in_missing_folder
                    Scenarios.blank (username_in_missing_folder, Scenarios.blank) "gone"
                    eq_refl eq_refl eq_refl)).
    + intros Hempty.
      assert (UsernameModule.results
                (final (UsernameModule.execute github_answers username_in_missing_folder
                          Scenarios.blank)).1 !! "github"
              = Some (PStr "https://www.github.com/someone")) as Hg
        by (vm_compute; reflexivity).
      rewrite Hempty in Hg. discriminate Hg.
    + right. split; [reflexivity|]. split; reflexivity.
Defined.

(** ** A save that goes through *)

(** What one stored file does to its folder. *)
Lemma stored_file (fs : filesystem) (folder name : string) (c : content)
    (entries : gmap string content) :
  ∃ after, <[folder := <[name := c]> entries]> fs !! folder = Some after
           ∧ after !! name = Some c
           ∧ (∀ other, other ≠ name → after !! other = entries !! other).
Proof.
  exists (<[name := c]> entries). split; [apply lookup_insert_eq|].
  split; [apply lookup_insert_eq|].
  intros other Hne. by apply lookup_insert_ne.
Qed.

(** X12.  When the output folder exists and the file can be written
    (and, for [UsernameModule], the folder can be listed),
    [_save_results] of each module stores the results as they are under
    its generated name in that folder, and every other entry of the
    folder is left as it was. *)
Theorem saved_artifact_holds_results :
  ∀ (env : Env) (w : World) (folder : string) (entries : gmap string content),
    w_fs w !! folder = Some entries →
    (∀ self : EmailModule.t,
       EmailModule.results self ≠ ∅ →
       EmailModule.output_folder self = Some folder →
       writable env
         (os_path_join folder ("EmailLog_" +:+ strftime (datetime_now env) +:+ ".json")) →
       ∃ after,
         w_fs (final (EmailModule._save_results env self w)).2 !! folder = Some after
         ∧ after !! ("EmailLog_" +:+ strftime (datetime_now env) +:+ ".json")
           = Some (Json (EmailModule.results self))
         ∧ (∀ other, other ≠ "EmailLog_" +:+ strftime (datetime_now env) +:+ ".json" →
                     after !! other = entries !! other))
    ∧ (∀ self : TraceModule.t,
       TraceModule.results self ≠ ∅ →
       TraceModule.output_folder self = Some folder →
       writable env
         (os_path_join folder ("TraceLog_" +:+ strftime (datetime_now env) +:+ ".json")) →
       ∃ after,
         w_fs (final (TraceModule._save_results env self w)).2 !! folder = Some after
         ∧ after !! ("TraceLog_" +:+ strftime (datetime_now env) +:+ ".json")
           = Some (Json (TraceModule.results self))
         ∧ (∀ other, other ≠ "TraceLog_" +:+ strftime (datetime_now env) +:+ ".json" →
                     after !! other = entries !! other))
    ∧ (∀ self : UsernameModule.t,
       UsernameModule.results self ≠ ∅ →
       UsernameModule.output_folder self = Some folder →
       listdir_error env folder = None →
       writable env
         (os_path_join folder ("Log" +:+ pretty (size entries + 1)%nat +:+ ".json")) →
       ∃ after,
         w_fs (final (UsernameModule._save_results env self w)).2 !! folder = Some after
         ∧ after !! ("Log" +:+ pretty (size entries + 1)%nat +:+ ".json")
           = Some (Json (UsernameModule.results self))
         ∧ (∀ other, other ≠ "Log" +:+ pretty (size entries + 1)%nat +:+ ".json" →
                     after !! other = entries !! other)).
Proof.
  intros env w folder entries Hdir. split; [|split]; intros self Hne Hfolder.
  - intros Hw. rewrite (email_save_ok env self w folder entries Hne Hfolder Hdir Hw).
    apply stored_file.
  - intros Hw. rewrite (trace_save_ok env self w folder entries Hne Hfolder Hdir Hw).
    apply stored_file.
  - intros Hlist Hw.
    rewrite (username_save_ok env self w folder entries Hne Hfolder Hlist Hdir Hw).
    apply stored_file.
Qed.

Lemma saved_artifact_holds_results_witness :
  (∃ after,
     w_fs (final (EmailModule._save_results Scenarios.offline Scenarios.email_with_results
                    Scenarios.out_exists)).2 !! "out" = Some after
     ∧ after !! ("EmailLog_" +:+ strftime (datetime_now Scenarios.offline) +:+ ".json")
       = Some (Json (EmailModule.results Scenarios.email_with_results))
     ∧ (∀ other,
          other ≠ "EmailLog_" +:+ strftime (datetime_now Scenarios.offline) +:+ ".json" →
          after !! other = (∅ : gmap string content) !! other))
  ∧ (∃ after,
     w_fs (final (TraceModule._save_results Scenarios.offline Scenarios.trace_with_results
                    Scenarios.out_exists)).2 !! "out" = Some after
     ∧ after !! ("TraceLog_" +:+ strftime (datetime_now Scenarios.offline) +:+ ".json")
       = Some (Json (TraceModule.results Scenarios.trace_with_results))
     ∧ (∀ other,
          other ≠ "TraceLog_" +:+ strftime (datetime_now Scenarios.offline) +:+ ".json" →
          after !! other = (∅ : gmap string content) !! other))
  ∧ (∃ after,
     w_fs (final (UsernameModule._save_results Scenarios.offline Scenarios.username_with_results
                    Scenarios.out_exists)).2 !! "out" = Some after
     ∧ after !! ("Log" +:+ pretty (size (∅ : gmap string content) + 1)%nat +:+ ".json")
       = Some (Json (UsernameModule.results Scenarios.username_with_results))
     ∧ (∀ other,
          other ≠ "Log" +:+ pretty (size (∅ : gmap string content) + 1)%nat +:+ ".json" →
          after !! other = (∅ : gmap string content) !! other)).
Proof.
  assert (∀ (k : string) (v : pyval), ({[ k := v ]} : dict) ≠ ∅) as Hne.
  { intros k v Hempty.
    assert (({[ k := v ]} : dict) !! k = Some v) as Hk by apply lookup_singleton_eq.
    rewrite Hempty in Hk. discriminate Hk. }
  pose proof (saved_artifact_holds_results Scenarios.offline Scenarios.out_exists "out" ∅
                eq_refl) as (Hemail & Htrace & Husername).
  split; [|split].
  - apply (Hemail Scenarios.email_with_results); [apply Hne | reflexivity |].
    split; reflexivity.
  - apply (Htrace Scenarios.trace_with_results); [apply Hne | reflexivity |].
    split; reflexivity.
  - apply (Husername Scenarios.username_with_results);
      [apply Hne | reflexivity | reflexivity |].
    split; reflexivity.
Defined.

Lemma trace_execute_target (env : Env) (self : TraceModule.t) (w : World) :
  TraceModule.target_ip (final (TraceModule.execute env self w)).1
  = TraceModule.target_ip self.
Proof.
  destruct (str_truthy (TraceModule.target_ip self)) eqn:Ht.
  - destruct (TraceModule.ensure_output env self w) as [s|e s] eqn:Hs.
    + rewrite (trace_execute_run env self w s Ht Hs).
      set (scanned := TraceModule.scan env s.1 _).
      pose proof (trace_save_self env scanned.1 scanned.2) as Hself.
      destruct (trace_ensure_output_inv env self w s Hs) as (Htgt & _).
      assert (TraceModule.target_ip scanned.1 = TraceModule.target_ip self) as <-
        by (unfold scanned; by rewrite trace_scan_target).
      destruct (TraceModule._save_results env scanned.1 scanned.2) as [[s2 w2]|e [s2 w2]];
        cbn [and_then final fst] in *; by subst s2.
    + unfold TraceModule.execute. rewrite Ht, Hs. cbn [negb and_then final].
      pose proof (trace_ensure_output_final env self w) as [Htgt _].
      by rewrite Hs in Htgt.
  - by rewrite (trace_guard env self w Ht).
Qed.

(** [execute] either submits nothing or, the target being set, submits
    the five probes on it. *)
Lemma trace_execute_submits (env : Env) (self : TraceModule.t) (w : World) :
  List.filter is_submit (w_trace (final (TraceModule.execute env self w)).2)
    = List.filter is_submit (w_trace w)
  ∨ (str_truthy (TraceModule.target_ip self) = true
     ∧ List.filter is_submit (w_trace (final (TraceModule.execute env self w)).2)
       = (List.filter is_submit (w_trace w)
            ++ submissions
                 (TraceModule.probes env (default "" (TraceModule.target_ip self))))%list).
Proof.
  destruct (str_truthy (TraceModule.target_ip self)) eqn:Ht.
  - destruct (TraceModule.ensure_output env self w) as [s|e s] eqn:Hs.
    + right. split; [done|]. rewrite (trace_execute_run env self w s Ht Hs).
      set (scanned := TraceModule.scan env s.1 _).
      pose proof (trace_save_submits env scanned.1 scanned.2) as Hsave.
      destruct (trace_ensure_output_inv env self w s Hs) as (Htgt & _ & _ & _ & Hsub & _).
      assert (List.filter is_submit (w_trace scanned.2)
              = (List.filter is_submit (w_trace w)
                   ++ submissions
                        (TraceModule.probes env
                           (default "" (TraceModule.target_ip self))))%list) as <-.
      { unfold scanned. rewrite trace_scan_submits. cbn [emit w_trace]. by rewrite Hsub, Htgt. }
      destruct (TraceModule._save_results env scanned.1 scanned.2) as [[s2 w2]|e [s2 w2]];
        cbn [and_then final snd emit w_trace] in *; done.
    + left. unfold TraceModule.execute. rewrite Ht, Hs. cbn [negb and_then final].
      unfold TraceModule.ensure_output in Hs.
      destruct (negb (str_truthy (TraceModule.output_folder self))); [|done].
      destruct (makedirs_cases env "./trace_results" w)
        as [(e' & _ & Hm)|(_ & w' & Hm & _)]; rewrite Hm in Hs; [|done].
      injection Hs as _ <-. cbn [snd perform w_trace].
      rewrite List.filter_app. cbn. by rewrite app_nil_r.
  - left. by rewrite (trace_guard env self w Ht).
Qed.

Lemma trace_submissions_arg (env : Env) (ip probe arg : string) :
  Submit probe arg ∈ submissions (TraceModule.probes env ip) → arg = ip.
Proof.
  unfold submissions, TraceModule.probes. cbn [map fst snd].
  intros H. repeat (apply elem_of_cons in H as [H|H]; [by injection H|]).
  by apply elem_of_nil in H.
Qed.

Lemma trace_step_invariant (ip_address : string → bool) (c : trace_call) (env : Env) (s : TraceModule.t * World) :
  (∀ e, TraceModule.target_ip s.1 = Some e → TraceModule._validate_ip ip_address e = true) →
  submits_parsed ip_address (w_trace s.2) →
  (∀ e, TraceModule.target_ip (final (trace_step ip_address c env s)).1 = Some e →
        TraceModule._validate_ip ip_address e = true)
  ∧ submits_parsed ip_address (w_trace (final (trace_step ip_address c env s)).2).
Proof.
  intros Htgt Hsub. destruct c as [email|folder| |]; cbn [trace_step final].
  - unfold TraceModule.target.
    destruct (TraceModule._validate_ip ip_address email) eqn:Hv; cbn [negb fst snd emit w_trace].
    + split; [|done]. cbn. by intros e [= <-].
    + done.
  - unfold TraceModule.output.
    destruct (makedirs_cases env folder s.2) as [(e & _ & ->)|(_ & w' & -> & _ & Htr & _)];
      cbn [fst snd emit perform w_trace TraceModule.target_ip]; (split; [done|]);
      rewrite ?Htr; intros probe arg Hin;
      apply elem_of_app in Hin as [Hin|Hin%list_elem_of_singleton]; try done;
      by apply (Hsub probe).
  - rewrite trace_execute_target. split; [done|].
    intros probe arg Hin. apply elem_of_filter_submit in Hin.
    destruct (trace_execute_submits env s.1 s.2) as [Heq|[Ht Heq]]; rewrite Heq in Hin.
    + apply (Hsub probe). by apply elem_of_filter_submit.
    + apply elem_of_app in Hin as [Hin|Hin].
      * apply (Hsub probe). by apply elem_of_filter_submit.
      * apply trace_submissions_arg in Hin as ->.
        destruct (TraceModule.target_ip s.1) as [e|]; [|done]. by apply Htgt.
  - unfold TraceModule.notify.
    destruct (notify_error env); cbn [final fst snd emit perform w_trace];
      (split; [done|]); intros probe arg Hin;
      apply elem_of_app in Hin as [Hin|Hin%list_elem_of_singleton]; try done;
      by apply (Hsub probe).
Qed.

(** X14.  Whatever chain of [target], [output], [execute] and [notify]
    calls is made on a fresh [TraceModule], and whatever the environment
    does, no probe is ever submitted on a string that [_validate_ip],
    that is [ipaddress.ip_address], rejects. *)
Theorem probes_only_on_parsed_addresses :
  ∀ (ip_address : string → bool) (calls : list (trace_call * Env)) (w : World),
    submits_parsed ip_address (w_trace w) →
    submits_parsed ip_address
      (w_trace (final (trace_chain ip_address calls (TraceModule.__init__ w))).2).
Proof.
  intros ip_address calls w Hw.
  assert (∀ s : TraceModule.t * World,
            (∀ e, TraceModule.target_ip s.1 = Some e →
                  TraceModule._validate_ip ip_address e = true) →
            submits_parsed ip_address (w_trace s.2) →
            submits_parsed ip_address
              (w_trace (final (trace_chain ip_address calls s)).2)) as Hchain.
  { induction calls as [|[c env] rest IH]; intros s Htgt Hsub; cbn [trace_chain]; [done|].
    destruct (trace_step_invariant ip_address c env s Htgt Hsub) as [Htgt' Hsub'].
    destruct (trace_step ip_address c env s) as [s'|e s']; cbn [and_then final] in *; [|done].
    by apply IH. }
  apply Hchain; [done|]. done.
Qed.


Lemma platform_urls_witness :
  ∃ before after,
    "https://www.github.com/{0}" = before +:+ "{0}" +:+ after
    ∧ (∀ target, str_format "https://www.github.com/{0}" target = before +:+ target +:+ after)
    ∧ (∀ target1 target2,
         str_format "https://www.github.com/{0}" target1
         = str_format "https://www.github.com/{0}" target2 → target1 = target2).
Proof.
  apply (platform_urls "github" "https://www.github.com/{0}").
  apply list_elem_of_lookup. exists 30%nat. vm_compute. reflexivity.
Defined.

Lemma probes_only_on_parsed_addresses_witness :
  submits_parsed Scenarios.only_8_8_8_8
    (w_trace
       (final (trace_chain Scenarios.only_8_8_8_8
                 [ (TTarget "8.8.8.8", Scenarios.offline);
                   (TTarget "999.1.1.1", Scenarios.offline);
                   (TExecute, Scenarios.offline);
                   (TNotify, Scenarios.offline) ]
                 (TraceModule.__init__ Scenarios.blank))).2).
Proof.
  apply (probes_only_on_parsed_addresses Scenarios.only_8_8_8_8 _ Scenarios.blank).
  intros probe arg Hin. by apply elem_of_nil in Hin.
Defined.

(** ** One ERROR record per future that did not return in time *)

Section ErrorRecords.
Context {A : Type}.
Variable timeout : Z.
Variable merge : A → dict → dict.
Variable label : string.

Lemma absorb_errors (r : ProbeRun A) (w : World) :
  calm r →
  List.filter is_error (w_log (absorb r w)) = List.filter is_error (w_log w).
Proof.
  intros Hr. unfold absorb. cbn [w_log]. rewrite List.filter_app, Hr. apply app_nil_r.
Qed.

Lemma loop_errors (futures : list (Future A)) : ∀ st : Loop A,
  Forall (λ g, calm (fut_run g)) (lp_pending st) →
  length (List.filter is_error
            (w_log (lp_world (foldl (collect timeout merge label) st futures))))
  = (length (List.filter is_error (w_log (lp_world st)))
     + length (List.filter not_got (ledger timeout (lp_clock st) futures)))%nat
  ∧ Forall (λ g, calm (fut_run g))
      (lp_pending (foldl (collect timeout merge label) st futures)).
Proof.
  induction futures as [|f rest IH]; intros st Hpending; cbn [foldl ledger].
  - split; [cbn; lia | done].
  - assert (length (List.filter is_error
                      (w_log (lp_world (collect timeout merge label st f))))
            = (length (List.filter is_error (w_log (lp_world st)))
               + length (List.filter not_got [(future_result timeout (lp_clock st) f).1]))%nat
            ∧ Forall (λ g, calm (fut_run g))
                (lp_pending (collect timeout merge label st f))) as [Hone Hpending'].
    { pose proof (λ now, written_obs (λ w, List.filter is_error (w_log w)) calm
                           absorb_errors now (lp_pending st) (lp_world st) Hpending)
        as Hwritten.
      unfold collect.
      destruct (future_result timeout (lp_clock st) f) as [[v|e|] now];
        cbn [fst lp_world lp_pending emit w_log List.filter not_got length];
        (split; [|by apply Forall_list_filter]);
        rewrite ?List.filter_app, ?length_app, Hwritten; cbn; lia. }
    destruct (IH (collect timeout merge label st f) Hpending') as [Hall Hpending''].
    split; [|done].
    rewrite Hall, Hone, collect_clock. cbn [List.filter].
    destruct (not_got (future_result timeout (lp_clock st) f).1); cbn [length]; lia.
Qed.
End ErrorRecords.

(** X15.  The loop logs one ERROR record for each future whose
    [result()] raised or timed out and none for a future that returned:
    provided the workers log no ERROR record themselves, the [with] block
    adds as many ERROR records to the log as its ledger has entries that
    are not a success. *)
Theorem one_error_record_per_failure :
  ∀ (A : Type) (timeout : Z) (merge : A → dict → dict) (label : string)
    (results : dict) (w : World) (futures : list (Future A)),
    Forall (λ f, calm (fut_run f)) futures →
    length (List.filter is_error (w_log (gather timeout merge label results w futures).2))
    = (length (List.filter is_error (w_log w))
       + length (List.filter not_got (ledger timeout 0 futures)))%nat.
Proof.
  intros A timeout merge label results w futures Hq. unfold gather. cbn [snd].
  destruct (loop_errors timeout merge label futures (mkLoop 0 results w futures) Hq)
    as [Hcount Hlate].
  rewrite (finished_obs (λ w, List.filter is_error (w_log w)) calm absorb_errors) by done.
  by rewrite Hcount.
Qed.

Lemma one_error_record_per_failure_witness :
  length (List.filter is_error
            (w_log (gather (seconds 10) EmailModule.merge "Service error: " ∅
                      Scenarios.blank Scenarios.with_failure).2))
  = (length (List.filter is_error (w_log Scenarios.blank))
     + length (List.filter not_got (ledger (seconds 10) 0 Scenarios.with_failure)))%nat.
Proof.
  apply (one_error_record_per_failure dict (seconds 10) EmailModule.merge "Service error: "
           ∅ Scenarios.blank Scenarios.with_failure).
  repeat constructor.
Defined.

(** ** The next number in a numbered folder *)

(** X16.  One save, nothing else writing to the folder between its
    listing and its write: in a folder that holds exactly [Log1.json],
    ..., [Logn.json] a successful [UsernameModule._save_results] adds
    [Log(n+1).json]; no earlier artifact is touched and the folder is
    again numbered without a gap. *)
Theorem numbered_folder_gets_next_log :
  ∀ (env : Env) (self : UsernameModule.t) (w : World) (folder : string)
    (entries : gmap string content),
    UsernameModule.results self ≠ ∅ →
    UsernameModule.output_folder self = Some folder →
    listdir_error env folder = None →
    w_fs w !! folder = Some entries →
    writable env (os_path_join folder ("Log" +:+ pretty (size entries + 1)%nat +:+ ".json")) →
    numbered entries →
    ∃ after,
      w_fs (final (UsernameModule._save_results env self w)).2 !! folder = Some after
      ∧ numbered after
      ∧ size after = S (size entries)
      ∧ (∀ name c, entries !! name = Some c → after !! name = Some c).
Proof.
  intros env self w folder entries Hres Hfolder Hlist Hdir Hw Hnum.
  rewrite (username_save_ok env self w folder entries Hres Hfolder Hlist Hdir Hw).
  set (name := "Log" +:+ pretty (size entries + 1)%nat +:+ ".json").
  assert (entries !! name = None) as Hfresh.
  { destruct (entries !! name) as [c|] eqn:Hc; [|done].
    destruct (proj1 (Hnum name)) as (j & Hj & Hname); [by rewrite Hc|].
    apply numbered_name_inj in Hname. lia. }
  exists (<[name := Json (UsernameModule.results self)]> entries).
  split; [by rewrite lookup_insert_eq|].
  assert (size (<[name := Json (UsernameModule.results self)]> entries) = S (size entries))
    as Hsize by by apply map_size_insert_None.
  split; [|split; [done|]].
  - intros other. rewrite Hsize. destruct (decide (other = name)) as [->|Hne].
    + rewrite lookup_insert_eq. split; [|by eauto].
      intros _. exists (size entries + 1)%nat. split; [lia|done].
    + rewrite lookup_insert_ne by done. rewrite (Hnum other). split.
      * intros (j & Hj & ->). exists j. split; [lia|done].
      * intros (j & Hj & ->). exists j. split; [|done].
        destruct (decide (j = size entries + 1)%nat) as [->|]; [done|lia].
  - intros other c Hc. rewrite lookup_insert_ne; [done|].
    intros <-. by rewrite Hfresh in Hc.
Qed.

Lemma numbered_folder_gets_next_log_witness :
  ∃ after,
    w_fs (final (UsernameModule._save_results Scenarios.offline
                   Scenarios.username_with_results Scenarios.out_exists)).2 !! "out"
    = Some after
    ∧ numbered after
    ∧ size after = S (size (∅ : gmap string content))
    ∧ (∀ name c, (∅ : gmap string content) !! name = Some c → after !! name = Some c).
Proof.
  apply (numbered_folder_gets_next_log Scenarios.offline Scenarios.username_with_results
           Scenarios.out_exists "out" ∅).
  - intros Hempty.
    assert (UsernameModule.results Scenarios.username_with_results !! "github"
            = Some (PStr "https://www.github.com/someone")) as Hb by reflexivity.
    rewrite Hempty in Hb. discriminate Hb.
  - reflexivity.
  - reflexivity.
  - reflexivity.
  - split; reflexivity.
  - intros name. rewrite lookup_empty, map_size_empty. split.
    + intros [c Hc]. discriminate Hc.
    + intros (j & Hj & _). lia.
Defined.

(** ** A run and its artifact *)

Lemma email_ensure_output_folder (env : Env) (self : EmailModule.t) (w : World) :
  (str_truthy (EmailModule.output_folder self) = false →
   makedirs_error env "./email_results" = None) →
  (str_truthy (EmailModule.output_folder self) = true → is_Some (w_fs w !! email_folder self)) →
  ∃ s, EmailModule.ensure_output env self w = Returns s
       ∧ EmailModule.target_email s.1 = EmailModule.target_email self
       ∧ EmailModule.results s.1 = EmailModule.results self
       ∧ EmailModule.output_folder s.1 = Some (email_folder self)
       ∧ is_Some (w_fs s.2 !! email_folder self).
Proof.
  intros Hm Hdir. unfold EmailModule.ensure_output, email_folder in *.
  destruct (str_truthy (EmailModule.output_folder self)) eqn:Hf; cbn [negb].
  - exists (self, w). cbn [fst snd].
    destruct (EmailModule.output_folder self) as [f|]; [|discriminate Hf].
    cbn [default] in *. repeat (split; [done|]). by apply Hdir.
  - unfold os_makedirs. rewrite (Hm eq_refl). cbn [perform w_fs].
    destruct (w_fs w !! "./email_results") as [entries|] eqn:Hlook;
      cbn [beside]; eexists; (split; [reflexivity|]);
      cbn [fst snd EmailModule.target_email EmailModule.results EmailModule.output_folder set_fs w_fs];
      repeat (split; [done|]).
    + cbn [perform w_fs]. by rewrite Hlook.
    + by rewrite lookup_insert_eq.
Qed.

Lemma email_run_artifact (env : Env) (self : EmailModule.t) (w : World) :
  str_truthy (EmailModule.target_email self) = true →
  (str_truthy (EmailModule.output_folder self) = false →
   makedirs_error env "./email_results" = None) →
  (str_truthy (EmailModule.output_folder self) = true → is_Some (w_fs w !! email_folder self)) →
  writable env
    (os_path_join (email_folder self) ("EmailLog_" +:+ strftime (datetime_now env) +:+ ".json")) →
  (∀ i, (i < 4)%nat → done_at env i ≤ seconds 10) →
  ∃ self' w' entries,
    EmailModule.execute env self w = Returns (self', w')
    ∧ w_fs w' !! email_folder self = Some entries
    ∧ entries !! ("EmailLog_" +:+ strftime (datetime_now env) +:+ ".json")
      = Some (Json (EmailModule.results self')).
Proof.
  intros Ht Hm Hdir Hw Htime.
  destruct (email_ensure_output_folder env self w Hm Hdir)
    as (s & Hs & Htgt & Hres & Hfolder & [entries Hentries]).
  rewrite (email_execute_run env self w s Ht Hs).
  set (scanned := EmailModule.scan env s.1 _).
  assert (EmailModule.output_folder scanned.1 = Some (email_folder self)) as Hout
    by (unfold scanned; by rewrite email_scan_folder).
  assert (w_fs scanned.2 !! email_folder self = Some entries) as Hfs
    by (unfold scanned; by rewrite email_scan_fs).
  assert (EmailModule.results scanned.1 ≠ ∅) as Hne.
  { unfold scanned. rewrite email_scan_results. intros Hempty.
    pose proof (email_ledger_complete env (default "" (EmailModule.target_email s.1))
                  (EmailModule.results s.1) Htime) as Hkeys.
    rewrite Hempty, dom_empty_L in Hkeys.
    apply (not_elem_of_empty (C := gset string) "breaches"), Hkeys.
    unfold email_keys. rewrite !elem_of_union, !elem_of_singleton. tauto. }
  pose proof (email_save_ok env scanned.1 scanned.2 _ entries Hne Hout Hfs Hw) as Hsaved.
  destruct (email_save_log env scanned.1 scanned.2) as (w' & r & Hsave & _);
    [by rewrite Hout|].
  rewrite Hsave in Hsaved |- *. cbn [and_then final fst snd] in *.
  eexists _, _, _. split; [reflexivity|]. cbn [emit w_fs]. rewrite Hsaved.
  split; [by rewrite lookup_insert_eq|]. by rewrite lookup_insert_eq.
Qed.

Lemma trace_ensure_output_folder (env : Env) (self : TraceModule.t) (w : World) :
  (str_truthy (TraceModule.output_folder self) = false →
   makedirs_error env "./trace_results" = None) →
  (str_truthy (TraceModule.output_folder self) = true → is_Some (w_fs w !! trace_folder self)) →
  ∃ s, TraceModule.ensure_output env self w = Returns s
       ∧ TraceModule.target_ip s.1 = TraceModule.target_ip self
       ∧ TraceModule.results s.1 = TraceModule.results self
       ∧ TraceModule.output_folder s.1 = Some (trace_folder self)
       ∧ is_Some (w_fs s.2 !! trace_folder self).
Proof.
  intros Hm Hdir. unfold TraceModule.ensure_output, trace_folder in *.
  destruct (str_truthy (TraceModule.output_folder self)) eqn:Hf; cbn [negb].
  - exists (self, w). cbn [fst snd].
    destruct (TraceModule.output_folder self) as [f|]; [|discriminate Hf].
    cbn [default] in *. repeat (split; [done|]). by apply Hdir.
  - unfold os_makedirs. rewrite (Hm eq_refl). cbn [perform w_fs].
    destruct (w_fs w !! "./trace_results") as [entries|] eqn:Hlook;
      cbn [beside]; eexists; (split; [reflexivity|]);
      cbn [fst snd TraceModule.target_ip TraceModule.results TraceModule.output_folder set_fs w_fs];
      repeat (split; [done|]).
    + cbn [perform w_fs]. by rewrite Hlook.
    + by rewrite lookup_insert_eq.
Qed.

Lemma trace_run_artifact (env : Env) (self : TraceModule.t) (w : World) :
  str_truthy (TraceModule.target_ip self) = true →
  (str_truthy (TraceModule.output_folder self) = false →
   makedirs_error env "./trace_results" = None) →
  (str_truthy (TraceModule.output_folder self) = true → is_Some (w_fs w !! trace_folder self)) →
  writable env
    (os_path_join (trace_folder self) ("TraceLog_" +:+ strftime (datetime_now env) +:+ ".json")) →
  (∀ i, (i < 5)%nat → done_at env i ≤ seconds 15) →
  ∃ self' w' entries,
    TraceModule.execute env self w = Returns (self', w')
    ∧ w_fs w' !! trace_folder self = Some entries
    ∧ entries !! ("TraceLog_" +:+ strftime (datetime_now env) +:+ ".json")
      = Some (Json (TraceModule.results self')).
Proof.
  intros Ht Hm Hdir Hw Htime.
  destruct (trace_ensure_output_folder env self w Hm Hdir)
    as (s & Hs & Htgt & Hres & Hfolder & [entries Hentries]).
  rewrite (trace_execute_run env self w s Ht Hs).
  set (scanned := TraceModule.scan env s.1 _).
  assert (TraceModule.output_folder scanned.1 = Some (trace_folder self)) as Hout
    by (unfold scanned; by rewrite trace_scan_folder).
  assert (w_fs scanned.2 !! trace_folder self = Some entries) as Hfs
    by (unfold scanned; by rewrite trace_scan_fs).
  assert (TraceModule.results scanned.1 ≠ ∅) as Hne.
  { unfold scanned. rewrite trace_scan_results. intros Hempty.
    pose proof (trace_ledger_complete env (default "" (TraceModule.target_ip s.1))
                  (TraceModule.results s.1) Htime) as Hkeys.
    rewrite Hempty, dom_empty_L in Hkeys.
    apply (not_elem_of_empty (C := gset string) "open_ports"), Hkeys.
    unfold trace_keys. rewrite !elem_of_union, !elem_of_singleton. tauto. }
  pose proof (trace_save_ok env scanned.1 scanned.2 _ entries Hne Hout Hfs Hw) as Hsaved.
  destruct (trace_save_log env scanned.1 scanned.2) as (w' & r & Hsave & _);
    [by rewrite Hout|].
  rewrite Hsave in Hsaved |- *. cbn [and_then final fst snd] in *.
  eexists _, _, _. split; [reflexivity|]. cbn [emit w_fs]. rewrite Hsaved.
  split; [by rewrite lookup_insert_eq|]. by rewrite lookup_insert_eq.
Qed.

(** X17.  A run of [EmailModule] or [TraceModule] with a target, in which
    every future is done within the loop's timeout, the folder it stores
    into exists (or, being the default, can be made) and the log file can
    be written, returns normally and leaves in that folder the file
    [EmailLog_<stamp>.json] or [TraceLog_<stamp>.json] holding exactly the
    results the instance ends with. *)
Theorem run_leaves_its_artifact :
  ∀ (env : Env) (w : World),
    (∀ self : EmailModule.t,
       str_truthy (EmailModule.target_email self) = true →
       (str_truthy (EmailModule.output_folder self) = false →
        makedirs_error env "./email_results" = None) →
       (str_truthy (EmailModule.output_folder self) = true →
        is_Some (w_fs w !! email_folder self)) →
       writable env
         (os_path_join (email_folder self)
            ("EmailLog_" +:+ strftime (datetime_now env) +:+ ".json")) →
       (∀ i, (i < 4)%nat → done_at env i ≤ seconds 10) →
       ∃ self' w' entries,
         EmailModule.execute env self w = Returns (self', w')
         ∧ w_fs w' !! email_folder self = Some entries
         ∧ entries !! ("EmailLog_" +:+ strftime (datetime_now env) +:+ ".json")
           = Some (Json (EmailModule.results self')))
    ∧ (∀ self : TraceModule.t,
       str_truthy (TraceModule.target_ip self) = true →
       (str_truthy (TraceModule.output_folder self) = false →
        makedirs_error env "./trace_results" = None) →
       (str_truthy (TraceModule.output_folder self) = true →
        is_Some (w_fs w !! trace_folder self)) →
       writable env
         (os_path_join (trace_folder self)
            ("TraceLog_" +:+ strftime (datetime_now env) +:+ ".json")) →
       (∀ i, (i < 5)%nat → done_at env i ≤ seconds 15) →
       ∃ self' w' entries,
         TraceModule.execute env self w = Returns (self', w')
         ∧ w_fs w' !! trace_folder self = Some entries
         ∧ entries !! ("TraceLog_" +:+ strftime (datetime_now env) +:+ ".json")
           = Some (Json (TraceModule.results self'))).
Proof.
  intros env w. split; intros self.
  - apply email_run_artifact.
  - apply trace_run_artifact.
Qed.

Lemma run_leaves_its_artifact_witness :
  ∃ self' w' entries,
    EmailModule.execute Scenarios.offline Scenarios.email_session.1 Scenarios.email_session.2
    = Returns (self', w')
    ∧ w_fs w' !! email_folder Scenarios.email_session.1 = Some entries
    ∧ entries !! ("EmailLog_" +:+ strftime (datetime_now Scenarios.offline) +:+ ".json")
      = Some (Json (EmailModule.results self')).
Proof.
  apply (proj1 (run_leaves_its_artifact Scenarios.offline Scenarios.email_session.2)
           Scenarios.email_session.1).
  - vm_compute. reflexivity.
  - intros _. reflexivity.
  - intros H. vm_compute in H. discriminate H.
  - split; reflexivity.
  - intros i _. vm_compute. discriminate.
Defined.

(** ** A run after [output] *)




